(** * WebRTCPlayer (src/html/players/webrtc.js): connection lifecycle,
      SDP codec classification, statistics derivation and bounded history.

    The player is a single JavaScript object driven by callbacks.  It is
    embedded here as a record [Player] together with one Rocq function per
    method (or per synchronous segment of an [async] method), and a [step]
    function that dispatches one delivered callback.

    Conventions of the embedding:
    - a JavaScript number that is finite is an exact rational ([Q]); rounding
      of IEEE doubles and the sign of zero are not represented.  Values that
      may be [NaN] or infinite have type [number];
    - [undefined] / [null] / a missing property is [None];
    - a JavaScript string is a Rocq [string], each character being one code
      unit below 256 (SDP text is ASCII);
    - DOM writes are kept as fields of [Dom]; [setTimeout] calls are kept in
      the list of pending timers. *)

From Stdlib Require Import ZArith QArith Qround Qabs Lia Lqa List Bool Arith.
From Stdlib Require Import Strings.String Strings.Ascii Numbers.DecimalString.
Import ListNotations.

Local Open Scope string_scope.

(** ** Constants (webrtc.js, lines 8-11) *)

Definition DEBUG_UPDATE_INTERVAL : Z := 1000.
Definition RECONNECT_DELAY : Z := 3000.
Definition MAX_RECONNECT_ATTEMPTS : nat := 5.
Definition STATS_HISTORY_SIZE : nat := 60.

(** ** JavaScript strings *)

Module JsString.

Definition code (a : ascii) : nat := nat_of_ascii a.

Definition between (lo hi : nat) (a : ascii) : bool :=
  (lo <=? code a)%nat && (code a <=? hi)%nat.

(** [String.prototype.toLowerCase] on one code unit below 256: the ASCII
    capitals and the Latin-1 capitals (all of 192..222 but the
    multiplication sign 215) move up by 32. *)
Definition lowerChar (a : ascii) : ascii :=
  if between 65 90 a || (between 192 222 a && negb (code a =? 215)%nat)
  then ascii_of_nat (code a + 32)
  else a.

Fixpoint toLowerCase (s : string) : string :=
  match s with
  | EmptyString => EmptyString
  | String a s' => String (lowerChar a) (toLowerCase s')
  end.

(** [s.startsWith(p)] *)
Fixpoint startsWith (p s : string) : bool :=
  match p, s with
  | EmptyString, _ => true
  | String a p', String b s' => Ascii.eqb a b && startsWith p' s'
  | String _ _, EmptyString => false
  end.

(** [s.includes(p)] *)
Fixpoint includes (p s : string) : bool :=
  startsWith p s ||
  match s with
  | EmptyString => false
  | String _ s' => includes p s'
  end.

(** Decimal rendering of a counter inside a template literal. *)
Definition ofNat (n : nat) : string := NilEmpty.string_of_uint (Nat.to_uint n).

Definition digitValue (a : ascii) : N := N.of_nat (code a - 48).

(** [parseInt] on a string known to consist of decimal digits: the number
    the digits spell.  The source gets the nearest double, which is that
    number as long as it does not exceed 2^53; statements about the result
    carry this bound. *)
Definition parseInt (s : string) : N :=
  (fix go (acc : N) (s : string) : N :=
     match s with
     | EmptyString => acc
     | String a s' => go (acc * 10 + digitValue a)%N s'
     end) 0%N s.

End JsString.

(** ** The regular expressions of [extractVideoParams]

    Every pattern of the source is a sequence of literals and of greedy
    repetitions of a single character class, with at most two capture
    groups.  [exec] is the backtracking matcher anchored at the start of its
    input; [search] is the unanchored, leftmost search of
    [String.prototype.match] with a non-global pattern. *)

Module Regex.
Import JsString.

Inductive cls :=
| Dot        (* .   : any character but a line terminator *)
| Digit      (* \d  *)
| Space      (* \s  *)
| NonSpace   (* \S  *)
| Word       (* \w  *)
| HexI       (* [0-9a-f] under the i flag *)
| Chr (a : ascii).

Definition isDigit (a : ascii) : bool := between 48 57 a.

Definition isSpace (a : ascii) : bool :=
  between 9 13 a || (code a =? 32)%nat || (code a =? 160)%nat.

Definition in_cls (c : cls) (a : ascii) : bool :=
  match c with
  | Dot => negb ((code a =? 10)%nat || (code a =? 13)%nat)
  | Digit => isDigit a
  | Space => isSpace a
  | NonSpace => negb (isSpace a)
  | Word => between 48 57 a || between 65 90 a || between 97 122 a
            || (code a =? 95)%nat
  | HexI => between 48 57 a || between 97 102 a || between 65 70 a
  | Chr b => Ascii.eqb a b
  end.

Inductive node :=
| Lit (s : string)      (* literal text *)
| LitI (s : string)     (* literal text under the i flag *)
| Star (c : cls)        (* c*  *)
| Plus (c : cls)        (* c+  *)
| Opt (c : cls)         (* c?  *)
| Group (c : cls).      (* (c+), capturing *)

Definition regex := list node.

(** Remove the literal [p] from the front of [s]. *)
Fixpoint strip (ci : bool) (p s : string) : option string :=
  match p, s with
  | EmptyString, _ => Some s
  | String a p', String b s' =>
      if (if ci then Ascii.eqb (lowerChar a) (lowerChar b) else Ascii.eqb a b)
      then strip ci p' s' else None
  | String _ _, EmptyString => None
  end.

(** Greedy repetition of class [c] followed by the continuation [k], which
    receives the text consumed by the repetition and the remaining input.
    The longest repetition is tried first, shorter ones when [k] fails. *)
Fixpoint greedy {A} (c : cls) (k : string -> string -> option A)
         (taken s : string) : option A :=
  match s with
  | String a s' =>
      if in_cls c a then
        match greedy c k (taken ++ String a EmptyString) s' with
        | Some r => Some r
        | None => k taken s
        end
      else k taken s
  | EmptyString => k taken s
  end.

(** One or more: the first character is compulsory. *)
Definition greedy1 {A} (c : cls) (k : string -> string -> option A)
           (s : string) : option A :=
  match s with
  | String a s' =>
      if in_cls c a then greedy c k (String a EmptyString) s' else None
  | EmptyString => None
  end.

(** Captures of the first successful path, in group order. *)
Fixpoint exec (r : regex) (s : string) {struct r} : option (list string) :=
  match r with
  | [] => Some []
  | Lit p :: r' =>
      match strip false p s with Some s' => exec r' s' | None => None end
  | LitI p :: r' =>
      match strip true p s with Some s' => exec r' s' | None => None end
  | Star c :: r' => greedy c (fun _ rest => exec r' rest) EmptyString s
  | Plus c :: r' => greedy1 c (fun _ rest => exec r' rest) s
  | Opt c :: r' =>
      match s with
      | String a s' =>
          if in_cls c a then
            match exec r' s' with Some m => Some m | None => exec r' s end
          else exec r' s
      | EmptyString => exec r' s
      end
  | Group c :: r' =>
      greedy1 c (fun cap rest =>
                   match exec r' rest with
                   | Some m => Some (cap :: m)
                   | None => None
                   end) s
  end.

Fixpoint search (r : regex) (s : string) : option (list string) :=
  match exec r s with
  | Some m => Some m
  | None =>
      match s with
      | EmptyString => None
      | String _ s' => search r s'
      end
  end.

(** [m[i]] for [i >= 1]. *)
Definition group (i : nat) (m : list string) : string :=
  nth (i - 1) m EmptyString.

End Regex.

(** ** extractVideoParams (lines 396-448) *)

Module Params.
Record t := {
  framerate : option N;
  maxFramerate : option N;
  codec : option string;
  profileLevelId : option string;
  h265ProfileId : option N;
  levelId : option N;
  tierFlag : option N;
  txMode : option string
}.
End Params.

Definition CR : ascii := ascii_of_nat 13.
Definition LF : string := String (ascii_of_nat 10) EmptyString.
Definition CRLF : string := String CR LF.

Section SdpPatterns.
Import Regex.

(* /a=framerate:(\d+)/ *)
Definition framerateRe : regex := [Lit "a=framerate:"; Group Digit].
(* /a=fmtp:\d+.*max-fr=(\d+)/ *)
Definition fmtpRe : regex :=
  [Lit "a=fmtp:"; Plus Digit; Star Dot; Lit "max-fr="; Group Digit].
(* /m=video.*\r?\n.*\r?\na=rtpmap:(\d+)\s+(\S+)/ *)
Definition codecRe : regex :=
  [Lit "m=video"; Star Dot; Opt (Chr CR); Lit LF;
   Star Dot; Opt (Chr CR); Lit LF;
   Lit "a=rtpmap:"; Group Digit; Plus Space; Group NonSpace].
(* /profile-level-id=([0-9a-f]+)/i *)
Definition profileRe : regex := [LitI "profile-level-id="; Group HexI].
(* /profile-id=(\d+)/ *)
Definition h265ProfileRe : regex := [Lit "profile-id="; Group Digit].
(* /level-id=(\d+)/ *)
Definition levelRe : regex := [Lit "level-id="; Group Digit].
(* /tier-flag=(\d+)/ *)
Definition tierRe : regex := [Lit "tier-flag="; Group Digit].
(* /tx-mode=(\w+)/ *)
Definition txModeRe : regex := [Lit "tx-mode="; Group Word].
End SdpPatterns.

Definition extractVideoParams (sdp : string) : Params.t :=
  let int1 r := option_map (fun m => JsString.parseInt (Regex.group 1 m))
                           (Regex.search r sdp) in
  let str i r := option_map (Regex.group i) (Regex.search r sdp) in
  {| Params.framerate := int1 framerateRe;
     Params.maxFramerate := int1 fmtpRe;
     Params.codec := str 2%nat codecRe;
     Params.profileLevelId := str 1%nat profileRe;
     Params.h265ProfileId := int1 h265ProfileRe;
     Params.levelId := int1 levelRe;
     Params.tierFlag := int1 tierRe;
     Params.txMode := str 1%nat txModeRe |}.

(** Codec detection inside the [setRemoteDescription] override
    (lines 340-364): the new value of [this.state.codecType], given the old
    one.  A captured codec name is never empty, hence always truthy. *)
Definition detectCodec (videoParams : Params.t) (codecType : option string)
  : option string :=
  match Params.codec videoParams with
  | Some codec =>
      let lc := JsString.toLowerCase codec in
      if JsString.includes "h265" lc || JsString.includes "hevc" lc
      then Some "H265/HEVC"
      else if JsString.includes "h264" lc || JsString.includes "avc" lc
      then Some "H264/AVC"
      else if JsString.includes "vp8" lc then Some "VP8"
      else if JsString.includes "vp9" lc then Some "VP9"
      else if JsString.includes "av1" lc then Some "AV1"
      else Some codec
  | None =>
      match Params.h265ProfileId videoParams with
      | Some _ => Some "H265/HEVC"
      | None => codecType
      end
  end.

(** ** JavaScript numbers that may be non-finite *)

Module JsNumber.
Local Open Scope Q_scope.

Inductive number :=
| NaN
| Infinity (negative : bool)
| Fin (q : Q).

(** ToNumber of a numeric property: [undefined] becomes [NaN]. *)
Definition ofField (v : option Q) : number :=
  match v with Some q => Fin q | None => NaN end.

(** [v || 0] on a numeric property: [undefined] and [0] are falsy. *)
Definition or0 (v : option Q) : Q :=
  match v with
  | Some q => if Qeq_bool q 0 then 0 else q
  | None => 0
  end.

Definition neg (x : number) : number :=
  match x with
  | NaN => NaN
  | Infinity s => Infinity (negb s)
  | Fin q => Fin (- q)
  end.

Definition add (x y : number) : number :=
  match x, y with
  | NaN, _ | _, NaN => NaN
  | Infinity a, Infinity b => if Bool.eqb a b then Infinity a else NaN
  | Infinity a, Fin _ | Fin _, Infinity a => Infinity a
  | Fin a, Fin b => Fin (a + b)
  end.

Definition sub (x y : number) : number := add x (neg y).

Definition mul (x y : number) : number :=
  match x, y with
  | NaN, _ | _, NaN => NaN
  | Infinity a, Infinity b => Infinity (xorb a b)
  | Infinity a, Fin q | Fin q, Infinity a =>
      match q ?= 0 with
      | Eq => NaN
      | Lt => Infinity (negb a)
      | Gt => Infinity a
      end
  | Fin a, Fin b => Fin (a * b)
  end.

(** Division; a zero divisor is taken to be [+0]. *)
Definition div (x y : number) : number :=
  match x, y with
  | NaN, _ | _, NaN => NaN
  | Infinity _, Infinity _ => NaN
  | Infinity a, Fin q =>
      match q ?= 0 with Lt => Infinity (negb a) | _ => Infinity a end
  | Fin _, Infinity _ => Fin 0
  | Fin a, Fin b =>
      match b ?= 0 with
      | Eq =>
          match a ?= 0 with
          | Eq => NaN
          | Lt => Infinity true
          | Gt => Infinity false
          end
      | _ => Fin (a / b)
      end
  end.

(** [q > 0] and [a > b] on finite numbers. *)
Definition Qgtb (a b : Q) : bool := negb (Qle_bool a b).

(** [x.toFixed(2)], read back as the number its decimal text denotes:
    the nearest multiple of 1/100, ties away from zero; values of magnitude
    1e21 and more, [NaN] and the infinities print as themselves.  On an
    exact tie the source, which rounds the double it computed, may print the
    other neighbour; statements rely only on the result being a multiple of
    1/100 within 1/200 of the argument. *)
Definition toFixed2Q (q : Q) : Q :=
  let a := Qabs q in
  if Qle_bool (inject_Z (10 ^ 21)) a then q
  else
    let n := inject_Z (Qfloor (a * 100 + (1 # 2))) / 100 in
    if Qle_bool 0 q then n else - n.

Definition toFixed2 (x : number) : number :=
  match x with
  | Fin q => Fin (toFixed2Q q)
  | _ => x
  end.

(** Equality of numbers up to the representation of rationals. *)
Definition eqv (x y : number) : Prop :=
  match x, y with
  | NaN, NaN => True
  | Infinity a, Infinity b => a = b
  | Fin a, Fin b => a == b
  | _, _ => False
  end.

End JsNumber.
Import JsNumber.

(** ** Statistics entries and reports *)

(** One entry of the collection returned by [getStats()]; only the
    properties read by [parseStats] on the inbound-rtp, candidate-pair and
    transport entries are kept.  A numeric property that is present is
    finite. *)
Module Stat.
Record t := {
  type : string;
  mediaType : option string;
  state : option string;
  timestamp : option Q;
  framesPerSecond : option Q;
  framesDecoded : option Q;
  framesDropped : option Q;
  keyFramesDecoded : option Q;
  bytesReceived : option Q;
  packetsLost : option Q;
  packetsReceived : option Q;
  jitter : option Q;
  totalDecodeTime : option Q;
  currentRoundTripTime : option Q;
  dtlsState : option string;
  iceState : option string
}.

(** An entry with no property but its type. *)
Definition bare (ty : string) : t :=
  {| type := ty; mediaType := None; state := None; timestamp := None;
     framesPerSecond := None; framesDecoded := None; framesDropped := None;
     keyFramesDecoded := None; bytesReceived := None; packetsLost := None;
     packetsReceived := None; jitter := None; totalDecodeTime := None;
     currentRoundTripTime := None; dtlsState := None; iceState := None |}.
End Stat.

(** [report.video]; the display-only pass-through properties (resolution,
    decoder, pliCount, ...) are left out. *)
Module Video.
Record t := {
  fps : Q;
  measuredFps : Q;
  performanceFps : Q;
  videoFrameCallbackFps : Q;
  bytesReceived : Q;
  bitrate : number;
  packetsLost : Q;
  packetsReceived : Q;
  jitter : Q;
  framesDecoded : Q;
  framesDropped : Q;
  frameDropRate : Q;
  keyFramesDecoded : Q;
  avgKeyFrameInterval : option Q;     (* None is the text N/A *)
  timestamp : option Q;
  avgDecodeTime : option number
}.

Definition with_bitrate (b : number) (v : t) : t :=
  {| fps := fps v; measuredFps := measuredFps v;
     performanceFps := performanceFps v;
     videoFrameCallbackFps := videoFrameCallbackFps v;
     bytesReceived := bytesReceived v; bitrate := b;
     packetsLost := packetsLost v; packetsReceived := packetsReceived v;
     jitter := jitter v; framesDecoded := framesDecoded v;
     framesDropped := framesDropped v; frameDropRate := frameDropRate v;
     keyFramesDecoded := keyFramesDecoded v;
     avgKeyFrameInterval := avgKeyFrameInterval v;
     timestamp := timestamp v; avgDecodeTime := avgDecodeTime v |}.
End Video.

(** [report.audio] *)
Module Audio.
Record t := {
  bytesReceived : Q;
  bitrate : number;
  packetsLost : Q;
  packetsReceived : Q;
  jitter : Q;
  timestamp : option Q
}.
End Audio.

(** [report.connection] *)
Module Connection.
Record t := {
  rtt : option Q;
  dtlsState : option string;
  iceState : option string
}.
Definition empty : t := {| rtt := None; dtlsState := None; iceState := None |}.
End Connection.

(** The report built by [parseStats]; [None] is the empty object [{}]. *)
Module Report.
Record t := {
  video : option Video.t;
  audio : option Audio.t;
  connection : Connection.t
}.
Definition empty : t :=
  {| video := None; audio := None; connection := Connection.empty |}.
End Report.

(** ** The player object *)

(** [this.state] (the zoom and drag properties belong to the UI). *)
Module State.
Record t := {
  isPlaying : bool;
  reconnectAttempts : nat;
  connectionQuality : string;
  streamStartTime : option Q;
  lastKeyFrameCount : option Q;
  codecType : option string
}.
End State.

(** [this.performanceMetrics] *)
Module Metrics.
Record t := {
  fps : Q;
  keyFrameTimestamps : list Q;
  lastKeyFrameTime : Q;
  maxFpsAchieved : Q;
  videoFrameCallbackFps : Q;
  lastPresentedFrames : Q
}.
End Metrics.

(** [this.statsHistory] *)
Module History.
Record t := {
  fps : list number;
  bitrate : list number;
  packetLoss : list number;
  jitter : list number;
  rtt : list number;
  framesDecoded : list number;
  framesDropped : list number;
  keyFrameInterval : list number;
  videoFrameCallbackFps : list number
}.
End History.

(** What the player has written to the page. *)
Module Dom.
Record t := {
  loadingShown : bool;
  statusClass : string;
  statusText : string;
  statusShown : bool;
  errorText : string;
  errorShown : bool;
  toolbarForceShow : bool
}.
End Dom.

(** Callbacks handed to [setTimeout]. *)
Inductive Callback :=
| CbStartPlaying      (* attemptReconnect, line 559 *)
| CbHideError         (* showError, line 593 *)
| CbHideStatus        (* updateConnectionStatus, line 605 *)
| CbHideToolbar       (* startPlaying, line 385 *)
| CbLogCodecInfo.     (* logCodecInfo, line 492 *)

Record Timer := { callback : Callback; delay : Z }.

(** The local variables captured by one [onFrame] closure of
    [monitorVideoTrack], and whether the closure is currently registered
    with [requestVideoFrameCallback]. *)
Record FrameMonitor := {
  frameCount : Q;
  lastTime : Q;
  lastPresentedFrames : Q;
  registered : bool
}.

Record Player := {
  state : State.t;
  statsHistory : History.t;
  lastVideo : option Stat.t;          (* this.lastStats.video *)
  lastAudio : option Stat.t;          (* this.lastStats.audio *)
  sdpLocal : option string;           (* this.sdpInfo.local *)
  sdpRemote : option string;          (* this.sdpInfo.remote *)
  performanceMetrics : Metrics.t;
  dom : Dom.t;
  timers : list Timer;
  monitors : list FrameMonitor
}.

(** Field updates. *)

Definition with_state (f : State.t -> State.t) (p : Player) : Player :=
  {| state := f (state p); statsHistory := statsHistory p;
     lastVideo := lastVideo p; lastAudio := lastAudio p;
     sdpLocal := sdpLocal p; sdpRemote := sdpRemote p;
     performanceMetrics := performanceMetrics p; dom := dom p;
     timers := timers p; monitors := monitors p |}.

Definition with_statsHistory (f : History.t -> History.t) (p : Player) : Player :=
  {| state := state p; statsHistory := f (statsHistory p);
     lastVideo := lastVideo p; lastAudio := lastAudio p;
     sdpLocal := sdpLocal p; sdpRemote := sdpRemote p;
     performanceMetrics := performanceMetrics p; dom := dom p;
     timers := timers p; monitors := monitors p |}.

Definition with_lastVideo (s : option Stat.t) (p : Player) : Player :=
  {| state := state p; statsHistory := statsHistory p;
     lastVideo := s; lastAudio := lastAudio p;
     sdpLocal := sdpLocal p; sdpRemote := sdpRemote p;
     performanceMetrics := performanceMetrics p; dom := dom p;
     timers := timers p; monitors := monitors p |}.

Definition with_lastAudio (s : option Stat.t) (p : Player) : Player :=
  {| state := state p; statsHistory := statsHistory p;
     lastVideo := lastVideo p; lastAudio := s;
     sdpLocal := sdpLocal p; sdpRemote := sdpRemote p;
     performanceMetrics := performanceMetrics p; dom := dom p;
     timers := timers p; monitors := monitors p |}.

Definition with_sdpLocal (s : option string) (p : Player) : Player :=
  {| state := state p; statsHistory := statsHistory p;
     lastVideo := lastVideo p; lastAudio := lastAudio p;
     sdpLocal := s; sdpRemote := sdpRemote p;
     performanceMetrics := performanceMetrics p; dom := dom p;
     timers := timers p; monitors := monitors p |}.

Definition with_sdpRemote (s : option string) (p : Player) : Player :=
  {| state := state p; statsHistory := statsHistory p;
     lastVideo := lastVideo p; lastAudio := lastAudio p;
     sdpLocal := sdpLocal p; sdpRemote := s;
     performanceMetrics := performanceMetrics p; dom := dom p;
     timers := timers p; monitors := monitors p |}.

Definition with_metrics (f : Metrics.t -> Metrics.t) (p : Player) : Player :=
  {| state := state p; statsHistory := statsHistory p;
     lastVideo := lastVideo p; lastAudio := lastAudio p;
     sdpLocal := sdpLocal p; sdpRemote := sdpRemote p;
     performanceMetrics := f (performanceMetrics p); dom := dom p;
     timers := timers p; monitors := monitors p |}.

Definition with_dom (f : Dom.t -> Dom.t) (p : Player) : Player :=
  {| state := state p; statsHistory := statsHistory p;
     lastVideo := lastVideo p; lastAudio := lastAudio p;
     sdpLocal := sdpLocal p; sdpRemote := sdpRemote p;
     performanceMetrics := performanceMetrics p; dom := f (dom p);
     timers := timers p; monitors := monitors p |}.

Definition with_timers (f : list Timer -> list Timer) (p : Player) : Player :=
  {| state := state p; statsHistory := statsHistory p;
     lastVideo := lastVideo p; lastAudio := lastAudio p;
     sdpLocal := sdpLocal p; sdpRemote := sdpRemote p;
     performanceMetrics := performanceMetrics p; dom := dom p;
     timers := f (timers p); monitors := monitors p |}.

Definition with_monitors (f : list FrameMonitor -> list FrameMonitor)
           (p : Player) : Player :=
  {| state := state p; statsHistory := statsHistory p;
     lastVideo := lastVideo p; lastAudio := lastAudio p;
     sdpLocal := sdpLocal p; sdpRemote := sdpRemote p;
     performanceMetrics := performanceMetrics p; dom := dom p;
     timers := timers p; monitors := f (monitors p) |}.

Definition set_isPlaying (b : bool) (s : State.t) : State.t :=
  {| State.isPlaying := b;
     State.reconnectAttempts := State.reconnectAttempts s;
     State.connectionQuality := State.connectionQuality s;
     State.streamStartTime := State.streamStartTime s;
     State.lastKeyFrameCount := State.lastKeyFrameCount s;
     State.codecType := State.codecType s |}.

Definition set_reconnectAttempts (n : nat) (s : State.t) : State.t :=
  {| State.isPlaying := State.isPlaying s;
     State.reconnectAttempts := n;
     State.connectionQuality := State.connectionQuality s;
     State.streamStartTime := State.streamStartTime s;
     State.lastKeyFrameCount := State.lastKeyFrameCount s;
     State.codecType := State.codecType s |}.

Definition set_connectionQuality (q : string) (s : State.t) : State.t :=
  {| State.isPlaying := State.isPlaying s;
     State.reconnectAttempts := State.reconnectAttempts s;
     State.connectionQuality := q;
     State.streamStartTime := State.streamStartTime s;
     State.lastKeyFrameCount := State.lastKeyFrameCount s;
     State.codecType := State.codecType s |}.

Definition set_streamStartTime (t : option Q) (s : State.t) : State.t :=
  {| State.isPlaying := State.isPlaying s;
     State.reconnectAttempts := State.reconnectAttempts s;
     State.connectionQuality := State.connectionQuality s;
     State.streamStartTime := t;
     State.lastKeyFrameCount := State.lastKeyFrameCount s;
     State.codecType := State.codecType s |}.

Definition set_lastKeyFrameCount (c : option Q) (s : State.t) : State.t :=
  {| State.isPlaying := State.isPlaying s;
     State.reconnectAttempts := State.reconnectAttempts s;
     State.connectionQuality := State.connectionQuality s;
     State.streamStartTime := State.streamStartTime s;
     State.lastKeyFrameCount := c;
     State.codecType := State.codecType s |}.

Definition set_codecType (c : option string) (s : State.t) : State.t :=
  {| State.isPlaying := State.isPlaying s;
     State.reconnectAttempts := State.reconnectAttempts s;
     State.connectionQuality := State.connectionQuality s;
     State.streamStartTime := State.streamStartTime s;
     State.lastKeyFrameCount := State.lastKeyFrameCount s;
     State.codecType := c |}.

Definition set_keyFrames (ts : list Q) (t : Q) (m : Metrics.t) : Metrics.t :=
  {| Metrics.fps := Metrics.fps m;
     Metrics.keyFrameTimestamps := ts;
     Metrics.lastKeyFrameTime := t;
     Metrics.maxFpsAchieved := Metrics.maxFpsAchieved m;
     Metrics.videoFrameCallbackFps := Metrics.videoFrameCallbackFps m;
     Metrics.lastPresentedFrames := Metrics.lastPresentedFrames m |}.

Definition set_maxFpsAchieved (v : Q) (m : Metrics.t) : Metrics.t :=
  {| Metrics.fps := Metrics.fps m;
     Metrics.keyFrameTimestamps := Metrics.keyFrameTimestamps m;
     Metrics.lastKeyFrameTime := Metrics.lastKeyFrameTime m;
     Metrics.maxFpsAchieved := v;
     Metrics.videoFrameCallbackFps := Metrics.videoFrameCallbackFps m;
     Metrics.lastPresentedFrames := Metrics.lastPresentedFrames m |}.

Definition set_videoFrameCallbackFps (v : Q) (m : Metrics.t) : Metrics.t :=
  {| Metrics.fps := Metrics.fps m;
     Metrics.keyFrameTimestamps := Metrics.keyFrameTimestamps m;
     Metrics.lastKeyFrameTime := Metrics.lastKeyFrameTime m;
     Metrics.maxFpsAchieved := Metrics.maxFpsAchieved m;
     Metrics.videoFrameCallbackFps := v;
     Metrics.lastPresentedFrames := Metrics.lastPresentedFrames m |}.

Definition set_lastPresentedFrames (v : Q) (m : Metrics.t) : Metrics.t :=
  {| Metrics.fps := Metrics.fps m;
     Metrics.keyFrameTimestamps := Metrics.keyFrameTimestamps m;
     Metrics.lastKeyFrameTime := Metrics.lastKeyFrameTime m;
     Metrics.maxFpsAchieved := Metrics.maxFpsAchieved m;
     Metrics.videoFrameCallbackFps := Metrics.videoFrameCallbackFps m;
     Metrics.lastPresentedFrames := v |}.

Definition set_loading (b : bool) (d : Dom.t) : Dom.t :=
  {| Dom.loadingShown := b; Dom.statusClass := Dom.statusClass d;
     Dom.statusText := Dom.statusText d; Dom.statusShown := Dom.statusShown d;
     Dom.errorText := Dom.errorText d; Dom.errorShown := Dom.errorShown d;
     Dom.toolbarForceShow := Dom.toolbarForceShow d |}.

Definition set_status (cls text : string) (shown : bool) (d : Dom.t) : Dom.t :=
  {| Dom.loadingShown := Dom.loadingShown d; Dom.statusClass := cls;
     Dom.statusText := text; Dom.statusShown := shown;
     Dom.errorText := Dom.errorText d; Dom.errorShown := Dom.errorShown d;
     Dom.toolbarForceShow := Dom.toolbarForceShow d |}.

Definition set_error (text : string) (shown : bool) (d : Dom.t) : Dom.t :=
  {| Dom.loadingShown := Dom.loadingShown d; Dom.statusClass := Dom.statusClass d;
     Dom.statusText := Dom.statusText d; Dom.statusShown := Dom.statusShown d;
     Dom.errorText := text; Dom.errorShown := shown;
     Dom.toolbarForceShow := Dom.toolbarForceShow d |}.

Definition set_toolbar (b : bool) (d : Dom.t) : Dom.t :=
  {| Dom.loadingShown := Dom.loadingShown d; Dom.statusClass := Dom.statusClass d;
     Dom.statusText := Dom.statusText d; Dom.statusShown := Dom.statusShown d;
     Dom.errorText := Dom.errorText d; Dom.errorShown := Dom.errorShown d;
     Dom.toolbarForceShow := b |}.

(** [setTimeout(cb, ms)] *)
Definition setTimeout (cb : Callback) (ms : Z) : Player -> Player :=
  with_timers (fun ts => (ts ++ [{| callback := cb; delay := ms |}])%list).

(** ** The constructor (lines 32-73) and [initializeState] (lines 101-122);
    the page as loaded shows nothing. *)

Definition initializeState : State.t :=
  {| State.isPlaying := false;
     State.reconnectAttempts := 0;
     State.connectionQuality := "connecting";
     State.streamStartTime := None;
     State.lastKeyFrameCount := Some 0%Q;
     State.codecType := None |}.

Definition constructed : Player :=
  {| state := initializeState;
     statsHistory :=
       {| History.fps := []; History.bitrate := []; History.packetLoss := [];
          History.jitter := []; History.rtt := []; History.framesDecoded := [];
          History.framesDropped := []; History.keyFrameInterval := [];
          History.videoFrameCallbackFps := [] |};
     lastVideo := None;
     lastAudio := None;
     sdpLocal := None;
     sdpRemote := None;
     performanceMetrics :=
       {| Metrics.fps := 0; Metrics.keyFrameTimestamps := [];
          Metrics.lastKeyFrameTime := 0; Metrics.maxFpsAchieved := 0;
          Metrics.videoFrameCallbackFps := 0;
          Metrics.lastPresentedFrames := 0 |};
     dom :=
       {| Dom.loadingShown := false; Dom.statusClass := "status-indicator";
          Dom.statusText := ""; Dom.statusShown := false;
          Dom.errorText := ""; Dom.errorShown := false;
          Dom.toolbarForceShow := false |};
     timers := [];
     monitors := [] |}.

(** ** UI update methods (lines 585-609) *)

Definition showLoading (show : bool) : Player -> Player :=
  with_dom (set_loading show).

Definition showError (message : string) (p : Player) : Player :=
  setTimeout CbHideError 5000 (with_dom (set_error message true) p).

Definition updateConnectionStatus (quality text : string) (p : Player) : Player :=
  let p := with_state (set_connectionQuality quality) p in
  let p := with_dom (set_status ("status-indicator " ++ quality) text true) p in
  if String.eqb quality "good" then setTimeout CbHideStatus 3000 p else p.

(** ** Connection lifecycle (lines 290-394, 521-582) *)

(** [startPlaying] up to its [await this.sdk.play(...)]: creating the SDK
    object and registering its handlers changes no field of the player. *)
Definition startPlaying (p : Player) : Player :=
  updateConnectionStatus "connecting" "Connecting..." (showLoading true p).

(** [logCodecInfo]: the SDK exists when it is called from [startPlaying]. *)
Definition logCodecInfo : Player -> Player := setTimeout CbLogCodecInfo 2000.

(** The continuation of [startPlaying] once [play] has resolved
    (lines 377-390); [now] is [Date.now()]. *)
Definition startPlaying_resolved (now : Q) (p : Player) : Player :=
  let p := showLoading false p in
  let p := updateConnectionStatus "good" "Connected" p in
  let p := with_state (set_isPlaying true) p in
  let p := with_state (set_reconnectAttempts 0) p in
  let p := with_state (set_streamStartTime (Some now)) p in
  let p := with_dom (set_toolbar true) p in
  let p := setTimeout CbHideToolbar 3000 p in
  logCodecInfo p.

(** [handlePlaybackError(error)], on [error.message]. *)
Definition handlePlaybackError (message : string) (p : Player) : Player :=
  let p := showLoading false p in
  let p := updateConnectionStatus "bad" "Error" p in
  let errorMessage :=
    "Failed to start playback. " ++
    (if JsString.includes "Permission" message
     then "Please allow camera/microphone access."
     else if JsString.includes "NotFound" message
     then "Stream not found."
     else if JsString.includes "Network" message
     then "Network error. Please check your connection."
     else if String.eqb message "" then "Unknown error." else message) in
  showError errorMessage p.

(** The [catch] branch of [startPlaying]. *)
Definition startPlaying_rejected (message : string) : Player -> Player :=
  handlePlaybackError message.

Definition attemptReconnect (p : Player) : Player :=
  if (MAX_RECONNECT_ATTEMPTS <=? State.reconnectAttempts (state p))%nat
  then showError "Connection lost. Please refresh the page." p
  else
    let p := with_state
               (set_reconnectAttempts (S (State.reconnectAttempts (state p)))) p in
    let p := updateConnectionStatus "connecting"
               ("Reconnecting... (" ++
                JsString.ofNat (State.reconnectAttempts (state p)) ++ "/" ++
                JsString.ofNat MAX_RECONNECT_ATTEMPTS ++ ")") p in
    setTimeout CbStartPlaying RECONNECT_DELAY p.

(** The [connectionstatechange] listener of [monitorConnection], on the
    value of [pc.connectionState]. *)
Definition onConnectionStateChange (st : string) (p : Player) : Player :=
  if String.eqb st "connected" then updateConnectionStatus "good" "Connected" p
  else if String.eqb st "connecting"
  then updateConnectionStatus "connecting" "Connecting..." p
  else if String.eqb st "disconnected"
  then attemptReconnect (updateConnectionStatus "bad" "Disconnected" p)
  else if String.eqb st "failed"
  then attemptReconnect (updateConnectionStatus "bad" "Connection Failed" p)
  else p.

(** The [setRemoteDescription] override (lines 333-367). *)
Definition setRemoteDescription (sdp : string) (p : Player) : Player :=
  let p := with_sdpRemote (Some sdp) p in
  let videoParams := extractVideoParams sdp in
  with_state (fun s => set_codecType (detectCodec videoParams (State.codecType s)) s) p.

Definition setLocalDescription (sdp : string) : Player -> Player :=
  with_sdpLocal (Some sdp).

(** ** Presentation monitor (lines 450-487) *)

Local Open Scope Q_scope.

Fixpoint replace_nth {A} (i : nat) (x : A) (l : list A) : list A :=
  match l, i with
  | [], _ => []
  | _ :: l', O => x :: l'
  | y :: l', S i' => y :: replace_nth i' x l'
  end.

(** [monitorVideoTrack(track)]: [supported] is the test
    ["requestVideoFrameCallback" in HTMLVideoElement.prototype] and [now] is
    [performance.now()]. *)
Definition monitorVideoTrack (supported : bool) (now : Q) (p : Player) : Player :=
  if supported then
    with_monitors
      (fun ms => (ms ++ [{| frameCount := 0; lastTime := now;
                            lastPresentedFrames := 0; registered := true |}])%list)
      p
  else p.

(** The [pc.ontrack] handler of [startPlaying] (lines 305-319). *)
Definition ontrack (kind : string) (supported : bool) (now : Q) (p : Player)
  : Player :=
  if String.eqb kind "video" then monitorVideoTrack supported now p else p.

(** One run of the closure [onFrame(now, metadata)] on its captured
    variables [m]; [presented] is [metadata.presentedFrames]. *)
Definition onFrame_body (m : FrameMonitor) (now presented : Q) (p : Player)
  : FrameMonitor * Player :=
  let frameDelta := presented - lastPresentedFrames m in
  let frameCount1 := frameCount m + frameDelta in
  let elapsed := now - lastTime m in
  let '(frameCount2, lastTime2, p) :=
    if Qle_bool 1000 elapsed then
      let fps := (frameCount1 * 1000) / elapsed in
      let p := with_metrics (set_videoFrameCallbackFps fps) p in
      let p :=
        if Qgtb fps (Metrics.maxFpsAchieved (performanceMetrics p))
        then with_metrics (set_maxFpsAchieved fps) p
        else p in
      (0, now, p)
    else (frameCount1, lastTime m, p) in
  let p := with_metrics (set_lastPresentedFrames presented) p in
  ({| frameCount := frameCount2; lastTime := lastTime2;
      lastPresentedFrames := presented;
      registered := State.isPlaying (state p) |}, p).

(** Delivery of a video frame to the [i]-th closure, if it is registered. *)
Definition onFrame (i : nat) (now presented : Q) (p : Player) : Player :=
  match nth_error (monitors p) i with
  | Some m =>
      if registered m then
        let '(m', p') := onFrame_body m now presented p in
        with_monitors (replace_nth i m') p'
      else p
  | None => p
  end.

(** ** Statistics sampling (lines 836-1015) *)

(** [prev.f] where [prev] is [this.lastStats.video] or [.audio]; the
    initial [{}] has no property. *)
Definition prevField (prev : option Stat.t) (f : Stat.t -> option Q) : option Q :=
  match prev with Some s => f s | None => None end.

(** [(stat.timestamp - prev.timestamp) / 1000 || 1]: a missing timestamp
    gives [NaN], which is falsy like [0]. *)
Definition timeDiff (stat : Stat.t) (prev : option Stat.t) : Q :=
  match Stat.timestamp stat, prevField prev Stat.timestamp with
  | Some t, Some t0 =>
      let d := (t - t0) / 1000 in
      if Qeq_bool d 0 then 1 else d
  | _, _ => 1
  end.

(** [((stat.bytesReceived - (prev.bytesReceived || 0)) * 8) / timeDiff] *)
Definition bitrateOf (stat : Stat.t) (prev : option Stat.t) : number :=
  div (mul (sub (ofField (Stat.bytesReceived stat))
                (Fin (or0 (prevField prev Stat.bytesReceived))))
           (Fin 8))
      (Fin (timeDiff stat prev)).

Definition sumQ (l : list Q) : Q := fold_left Qplus l 0.

Definition lengthQ {A} (l : list A) : Q := inject_Z (Z.of_nat (List.length l)).

Definition optEq (o : option string) (s : string) : bool :=
  match o with Some x => String.eqb x s | None => false end.

(** The inbound-rtp video branch (lines 847-935); [now] is [Date.now()]. *)
Definition parseVideo (now : Q) (stat : Stat.t) (p : Player) : Player * Video.t :=
  let prevVideo := lastVideo p in
  let timeDiff := timeDiff stat prevVideo in
  let framesDecodedDelta :=
    or0 (Stat.framesDecoded stat) - or0 (prevField prevVideo Stat.framesDecoded) in
  let framesDroppedDelta :=
    or0 (Stat.framesDropped stat) - or0 (prevField prevVideo Stat.framesDropped) in
  let totalFramesDelta := framesDecodedDelta + framesDroppedDelta in
  let frameDropRate :=
    if Qgtb totalFramesDelta 0
    then (framesDroppedDelta / totalFramesDelta) * 100
    else 0 in
  let keyFramesDelta :=
    or0 (Stat.keyFramesDecoded stat) - or0 (State.lastKeyFrameCount (state p)) in
  let p :=
    if Qgtb keyFramesDelta 0 then
      let currentTime := now in
      let pm := performanceMetrics p in
      let stamps :=
        if Qgtb (Metrics.lastKeyFrameTime pm) 0 then
          let keyFrameInterval := (currentTime - Metrics.lastKeyFrameTime pm) / 1000 in
          let pushed := (Metrics.keyFrameTimestamps pm ++ [keyFrameInterval])%list in
          if (10 <? List.length pushed)%nat then tl pushed else pushed
        else Metrics.keyFrameTimestamps pm in
      let p := with_metrics (set_keyFrames stamps currentTime) p in
      with_state (set_lastKeyFrameCount (Stat.keyFramesDecoded stat)) p
    else p in
  let pm := performanceMetrics p in
  let video :=
    {| Video.fps := or0 (Stat.framesPerSecond stat);
       Video.measuredFps := framesDecodedDelta / timeDiff;
       Video.performanceFps := Metrics.fps pm;
       Video.videoFrameCallbackFps := Metrics.videoFrameCallbackFps pm;
       Video.bytesReceived := or0 (Stat.bytesReceived stat);
       Video.bitrate := bitrateOf stat prevVideo;
       Video.packetsLost := or0 (Stat.packetsLost stat);
       Video.packetsReceived := or0 (Stat.packetsReceived stat);
       Video.jitter :=
         or0 (option_map (fun j => j * 1000) (Stat.jitter stat));
       Video.framesDecoded := or0 (Stat.framesDecoded stat);
       Video.framesDropped := or0 (Stat.framesDropped stat);
       Video.frameDropRate := frameDropRate;
       Video.keyFramesDecoded := or0 (Stat.keyFramesDecoded stat);
       Video.avgKeyFrameInterval :=
         match Metrics.keyFrameTimestamps pm with
         | [] => None
         | ts => Some (toFixed2Q (sumQ ts / lengthQ ts))
         end;
       Video.timestamp := Stat.timestamp stat;
       Video.avgDecodeTime :=
         match Stat.framesDecoded stat with
         | Some n =>
             if Qgtb n 0
             then Some (toFixed2
                          (mul (div (ofField (Stat.totalDecodeTime stat)) (Fin n))
                               (Fin 1000)))
             else None
         | None => None
         end |} in
  let currentFps :=
    if Qeq_bool (Metrics.videoFrameCallbackFps pm) 0
    then Video.fps video
    else Metrics.videoFrameCallbackFps pm in
  let p :=
    if Qgtb currentFps (Metrics.maxFpsAchieved pm)
    then with_metrics (set_maxFpsAchieved currentFps) p
    else p in
  (with_lastVideo (Some stat) p, video).

(** The inbound-rtp audio branch (lines 936-959). *)
Definition parseAudio (stat : Stat.t) (p : Player) : Player * Audio.t :=
  let prevAudio := lastAudio p in
  let audio :=
    {| Audio.bytesReceived := or0 (Stat.bytesReceived stat);
       Audio.bitrate := bitrateOf stat prevAudio;
       Audio.packetsLost := or0 (Stat.packetsLost stat);
       Audio.packetsReceived := or0 (Stat.packetsReceived stat);
       Audio.jitter := or0 (option_map (fun j => j * 1000) (Stat.jitter stat));
       Audio.timestamp := Stat.timestamp stat |} in
  (with_lastAudio (Some stat) p, audio).

(** The body of the [forEach] of [parseStats] on one entry.  The codec,
    candidate and stream entries only fill display lists of the report. *)
Definition parseStat (now : Q) (acc : Player * Report.t) (stat : Stat.t)
  : Player * Report.t :=
  let '(p, report) := acc in
  if String.eqb (Stat.type stat) "inbound-rtp" && optEq (Stat.mediaType stat) "video"
  then
    let '(p, video) := parseVideo now stat p in
    (p, {| Report.video := Some video; Report.audio := Report.audio report;
           Report.connection := Report.connection report |})
  else if String.eqb (Stat.type stat) "inbound-rtp"
          && optEq (Stat.mediaType stat) "audio"
  then
    let '(p, audio) := parseAudio stat p in
    (p, {| Report.video := Report.video report; Report.audio := Some audio;
           Report.connection := Report.connection report |})
  else if String.eqb (Stat.type stat) "candidate-pair"
          && optEq (Stat.state stat) "succeeded"
  then
    let c := Report.connection report in
    (p, {| Report.video := Report.video report; Report.audio := Report.audio report;
           Report.connection :=
             {| Connection.rtt :=
                  Some (match Stat.currentRoundTripTime stat with
                        | Some r => if Qeq_bool r 0 then 0 else r * 1000
                        | None => 0
                        end);
                Connection.dtlsState := Connection.dtlsState c;
                Connection.iceState := Connection.iceState c |} |})
  else if String.eqb (Stat.type stat) "transport"
  then
    let c := Report.connection report in
    (p, {| Report.video := Report.video report; Report.audio := Report.audio report;
           Report.connection :=
             {| Connection.rtt := Connection.rtt c;
                Connection.dtlsState := Stat.dtlsState stat;
                Connection.iceState := Stat.iceState stat |} |})
  else (p, report).

Definition parseStats (now : Q) (stats : list Stat.t) (p : Player)
  : Player * Report.t :=
  fold_left (parseStat now) stats (p, Report.empty).

(** ** The rates computed by [renderStatsTab] (lines 1021-1029, 1202-1210) *)

(** [received > 0 ? ((lost / (lost + received)) * 100).toFixed(2) : 0] *)
Definition lossRate (lost received : Q) : number :=
  if Qgtb received 0
  then toFixed2 (mul (div (Fin lost) (Fin (lost + received))) (Fin 100))
  else Fin 0.

Definition packetLossRate (report : Report.t) : option number :=
  option_map (fun v => lossRate (Video.packetsLost v) (Video.packetsReceived v))
             (Report.video report).

Definition audioPacketLossRate (report : Report.t) : option number :=
  option_map (fun a => lossRate (Audio.packetsLost a) (Audio.packetsReceived a))
             (Report.audio report).

(** ** History store: updateStatsHistory (lines 1702-1748) *)

(** [buf.push(v); if (buf.length > maxHistory) buf.shift();] *)
Definition pushHistory {A} (buf : list A) (v : A) : list A :=
  let maxHistory := STATS_HISTORY_SIZE in
  let buf := (buf ++ [v])%list in
  if (maxHistory <? List.length buf)%nat then tl buf else buf.

(** [if (x !== undefined) push] *)
Definition pushIfDefined {A} (buf : list A) (x : option A) : list A :=
  match x with Some v => pushHistory buf v | None => buf end.

Definition updateStatsHistory (report : Report.t) (h : History.t) : History.t :=
  let video := Report.video report in
  let audio := Report.audio report in
  let num (q : Q) := Fin q in
  {| History.fps :=
       pushIfDefined (History.fps h)
                     (option_map (fun v => num (Video.fps v)) video);
     History.bitrate :=
       pushIfDefined (History.bitrate h) (option_map Audio.bitrate audio);
     History.packetLoss := History.packetLoss h;
     History.jitter := History.jitter h;
     History.rtt :=
       pushIfDefined (History.rtt h)
                     (option_map num (Connection.rtt (Report.connection report)));
     History.framesDecoded :=
       pushIfDefined (History.framesDecoded h)
                     (option_map (fun v => num (Video.framesDecoded v)) video);
     History.framesDropped :=
       pushIfDefined (History.framesDropped h)
                     (option_map (fun v => num (Video.framesDropped v)) video);
     History.keyFrameInterval := History.keyFrameInterval h;
     History.videoFrameCallbackFps :=
       pushIfDefined (History.videoFrameCallbackFps h)
                     (option_map (fun v => num (Video.videoFrameCallbackFps v)) video) |}.

(** [updateDebugInfo] once [getStats()] has resolved with [stats]
    (lines 815-830); rendering writes the debug panel only. *)
Definition updateDebugInfo (now : Q) (stats : list Stat.t) (p : Player) : Player :=
  let '(p, report) := parseStats now stats p in
  with_statsHistory (updateStatsHistory report) p.

(** ** Callback dispatch *)

(** What the environment can deliver to the player. *)
Inductive Event :=
| ConnectionStateChange (st : string)      (* pc.connectionState at dispatch *)
| TimerFired (i : nat)                     (* the i-th pending timer expires *)
| PlayResolved (now : Q)                   (* sdk.play settled successfully *)
| PlayRejected (message : string)          (* sdk.play threw error.message *)
| RemoteDescription (sdp : string)
| LocalDescription (sdp : string)
| TrackArrived (kind : string) (supported : bool) (now : Q)
| VideoFrame (i : nat) (now presented : Q)
| StatsSampled (now : Q) (stats : list Stat.t).

Fixpoint remove_nth {A} (i : nat) (l : list A) : list A :=
  match l, i with
  | [], _ => []
  | _ :: l', O => l'
  | y :: l', S i' => y :: remove_nth i' l'
  end.

Definition runCallback (cb : Callback) (p : Player) : Player :=
  match cb with
  | CbStartPlaying => startPlaying p
  | CbHideError =>
      with_dom (fun d => set_error (Dom.errorText d) false d) p
  | CbHideStatus =>
      with_dom (fun d => set_status (Dom.statusClass d) (Dom.statusText d) false d) p
  | CbHideToolbar => with_dom (set_toolbar false) p
  | CbLogCodecInfo => p
  end.

Definition fireTimer (i : nat) (p : Player) : Player :=
  match nth_error (timers p) i with
  | Some t => runCallback (callback t) (with_timers (remove_nth i) p)
  | None => p
  end.

Definition step (p : Player) (e : Event) : Player :=
  match e with
  | ConnectionStateChange st => onConnectionStateChange st p
  | TimerFired i => fireTimer i p
  | PlayResolved now => startPlaying_resolved now p
  | PlayRejected message => startPlaying_rejected message p
  | RemoteDescription sdp => setRemoteDescription sdp p
  | LocalDescription sdp => setLocalDescription sdp p
  | TrackArrived kind supported now => ontrack kind supported now p
  | VideoFrame i now presented => onFrame i now presented p
  | StatsSampled now stats => updateDebugInfo now stats p
  end.

Definition run (evs : list Event) (p : Player) : Player := fold_left step evs p.

(** [init()] ends by calling [startPlaying()]. *)
Definition init : Player := startPlaying constructed.

(** ** Observations used in the statements *)

Definition reconnectAttempts (p : Player) : nat := State.reconnectAttempts (state p).

Definition maxFpsAchieved (p : Player) : Q :=
  Metrics.maxFpsAchieved (performanceMetrics p).

Definition isReconnectTimer (t : Timer) : bool :=
  match callback t with CbStartPlaying => true | _ => false end.

(** Number of pending timers that will re-run [startPlaying]. *)
Definition reconnectTimers (p : Player) : nat :=
  List.length (filter isReconnectTimer (timers p)).

(** A transport event reporting [disconnected] or [failed]. *)
Definition isDisconnect (e : Event) : bool :=
  match e with
  | ConnectionStateChange st => String.eqb st "disconnected" || String.eqb st "failed"
  | _ => false
  end.

(** Successful completion of connection establishment. *)
Definition isConnected (e : Event) : bool :=
  match e with PlayResolved _ => true | _ => false end.

Definition disconnects (evs : list Event) : nat :=
  List.length (filter isDisconnect evs).

Definition terminalMessage : string := "Connection lost. Please refresh the page.".

(** The terminal failure: the refresh-the-page error is on display and the
    status is bad. *)
Definition Failed (p : Player) : Prop :=
  Dom.errorShown (dom p) = true /\
  Dom.errorText (dom p) = terminalMessage /\
  State.connectionQuality (state p) = "bad".

(** Five consecutive [disconnected] notifications, and a mixed history:
    two losses, the first reconnection timer expiring, a failed
    establishment, then a third loss reported as [failed]. *)
Definition five_disconnects : list Event :=
  repeat (ConnectionStateChange "disconnected") 5.

Definition six_disconnects : list Event :=
  repeat (ConnectionStateChange "disconnected") 6.

Definition mixed_history : list Event :=
  [ConnectionStateChange "disconnected"; ConnectionStateChange "disconnected";
   TimerFired 0; PlayRejected "Network unreachable";
   ConnectionStateChange "failed"].

(** A player with exactly one reconnection pending. *)
Definition one_loss : Player := run [ConnectionStateChange "disconnected"] init.

(** Shapes of SDP text. *)

Definition isLineBreak (nl : string) : bool := String.eqb nl LF || String.eqb nl CRLF.

(** Every character of [s] is in the class [c]. *)
Fixpoint allIn (c : Regex.cls) (s : string) : bool :=
  match s with
  | EmptyString => true
  | String a s' => Regex.in_cls c a && allIn c s'
  end.

(** [s] is empty or begins with a character outside the class [c]. *)
Definition stops (c : Regex.cls) (s : string) : bool :=
  match s with
  | EmptyString => true
  | String a _ => negb (Regex.in_cls c a)
  end.

(** An answer whose video section lists the payload mapping on its fourth
    line, as browsers and SRS emit it. *)
Definition sdp_late_rtpmap : string :=
  "v=0" ++ CRLF ++ "m=video 9 UDP/TLS/RTP/SAVPF 96" ++ CRLF ++
  "c=IN IP4 0.0.0.0" ++ CRLF ++ "a=mid:0" ++ CRLF ++
  "a=rtpmap:96 H264/90000" ++ CRLF ++
  "a=fmtp:96 profile-level-id=42e01f" ++ CRLF.

(** The same mapping two lines below the media line. *)
Definition sdp_h264_prefix : string := "v=0" ++ CRLF ++ "s=-" ++ CRLF.
Definition sdp_h264_rest : string := CRLF ++ "a=fmtp:96 profile-level-id=42e01f" ++ CRLF.

(** A text with an H.265 profile identifier and no media line. *)
Definition sdp_profile_only : string :=
  "a=fmtp:49 profile-id=1;level-id=93;tx-mode=SRST" ++ CRLF.

(** The frame rate [parseStats] compares with the running maximum:
    [this.performanceMetrics.videoFrameCallbackFps || report.video.fps]. *)
Definition currentFps (stat : Stat.t) (p : Player) : Q :=
  if Qeq_bool (Metrics.videoFrameCallbackFps (performanceMetrics p)) 0
  then or0 (Stat.framesPerSecond stat)
  else Metrics.videoFrameCallbackFps (performanceMetrics p).

(** The running maximum is kept, or replaced by something strictly larger. *)
Definition keptOrRaised (p p' : Player) : Prop :=
  maxFpsAchieved p' = maxFpsAchieved p \/ maxFpsAchieved p < maxFpsAchieved p'.

(** A player with one video track registered at time 0. *)
Definition one_track : Player := step init (TrackArrived "video" true 0).

(** Three losses, each reconnection timer expiring before the next loss. *)
Definition three_losses : list Event :=
  [ConnectionStateChange "disconnected"; TimerFired 0;
   ConnectionStateChange "disconnected"; TimerFired 0;
   ConnectionStateChange "disconnected"].

Definition video_stat (fps : Q) : Stat.t :=
  {| Stat.type := "inbound-rtp"; Stat.mediaType := Some "video";
     Stat.state := None; Stat.timestamp := Some 0;
     Stat.framesPerSecond := Some fps; Stat.framesDecoded := None;
     Stat.framesDropped := None; Stat.keyFramesDecoded := None;
     Stat.bytesReceived := None; Stat.packetsLost := None;
     Stat.packetsReceived := None; Stat.jitter := None;
     Stat.totalDecodeTime := None; Stat.currentRoundTripTime := None;
     Stat.dtlsState := None; Stat.iceState := None |}.

(** The nine series of [this.statsHistory]. *)
Inductive Metric :=
| MFps | MBitrate | MPacketLoss | MJitter | MRtt
| MFramesDecoded | MFramesDropped | MKeyFrameInterval | MVideoFrameCallbackFps.

Definition series (m : Metric) (h : History.t) : list number :=
  match m with
  | MFps => History.fps h
  | MBitrate => History.bitrate h
  | MPacketLoss => History.packetLoss h
  | MJitter => History.jitter h
  | MRtt => History.rtt h
  | MFramesDecoded => History.framesDecoded h
  | MFramesDropped => History.framesDropped h
  | MKeyFrameInterval => History.keyFrameInterval h
  | MVideoFrameCallbackFps => History.videoFrameCallbackFps h
  end.

(** The last [n] elements of a list, oldest first. *)
Definition lastN {A} (n : nat) (l : list A) : list A :=
  skipn (List.length l - n) l.

(** Pushing the values [vs] one after the other. *)
Definition pushAll {A} (buf : list A) (vs : list A) : list A :=
  fold_left pushHistory vs buf.

(** Feeding the reports [rs] one after the other to [updateStatsHistory]. *)
Definition recordAll (rs : list Report.t) (h : History.t) : History.t :=
  fold_left (fun h r => updateStatsHistory r h) rs h.

(** The same report with another video bitrate. *)
Definition withVideoBitrate (b : number) (r : Report.t) : Report.t :=
  {| Report.video := option_map (Video.with_bitrate b) (Report.video r);
     Report.audio := Report.audio r;
     Report.connection := Report.connection r |}.

(** One hundred distinct values, 0 to 99. *)
Definition hundred : list number :=
  map (fun n => Fin (inject_Z (Z.of_nat n))) (seq 0 100).

(** A sample with one video, one audio and one succeeded candidate-pair
    entry. *)
Definition audio_stat (bytes t : Q) : Stat.t :=
  {| Stat.type := "inbound-rtp"; Stat.mediaType := Some "audio";
     Stat.state := None; Stat.timestamp := Some t;
     Stat.framesPerSecond := None; Stat.framesDecoded := None;
     Stat.framesDropped := None; Stat.keyFramesDecoded := None;
     Stat.bytesReceived := Some bytes; Stat.packetsLost := None;
     Stat.packetsReceived := None; Stat.jitter := None;
     Stat.totalDecodeTime := None; Stat.currentRoundTripTime := None;
     Stat.dtlsState := None; Stat.iceState := None |}.

Definition pair_stat (rtt : Q) : Stat.t :=
  {| Stat.type := "candidate-pair"; Stat.mediaType := None;
     Stat.state := Some "succeeded"; Stat.timestamp := Some 0;
     Stat.framesPerSecond := None; Stat.framesDecoded := None;
     Stat.framesDropped := None; Stat.keyFramesDecoded := None;
     Stat.bytesReceived := None; Stat.packetsLost := None;
     Stat.packetsReceived := None; Stat.jitter := None;
     Stat.totalDecodeTime := None; Stat.currentRoundTripTime := Some rtt;
     Stat.dtlsState := None; Stat.iceState := None |}.

Definition full_sample : list Stat.t :=
  [video_stat 30; audio_stat 4000 0; pair_stat (1 # 20)].

(** What a report contributes to a series: the value tested against
    [undefined] and pushed by [updateStatsHistory], if any. *)
Definition sample (m : Metric) (r : Report.t) : option number :=
  match m with
  | MFps => option_map (fun v => Fin (Video.fps v)) (Report.video r)
  | MBitrate => option_map Audio.bitrate (Report.audio r)
  | MRtt => option_map Fin (Connection.rtt (Report.connection r))
  | MFramesDecoded => option_map (fun v => Fin (Video.framesDecoded v)) (Report.video r)
  | MFramesDropped => option_map (fun v => Fin (Video.framesDropped v)) (Report.video r)
  | MVideoFrameCallbackFps =>
      option_map (fun v => Fin (Video.videoFrameCallbackFps v)) (Report.video r)
  | MPacketLoss | MJitter | MKeyFrameInterval => None
  end.

Definition samples (m : Metric) (rs : list Report.t) : list number :=
  flat_map (fun r => match sample m r with Some v => [v] | None => [] end) rs.

(** One hundred reports whose audio bitrates are 0 to 99. *)
Definition hundred_reports : list Report.t :=
  map (fun b => {| Report.video := None;
                   Report.audio :=
                     Some {| Audio.bytesReceived := 0; Audio.bitrate := b;
                             Audio.packetsLost := 0; Audio.packetsReceived := 0;
                             Audio.jitter := 0; Audio.timestamp := None |};
                   Report.connection := Connection.empty |})
      hundred.

(** Video snapshots with only a byte counter and a timestamp:
    A (1000 bytes at t = 0) and B (2000 bytes at t = 1000 ms). *)
Definition byte_snapshot (bytes t : Q) : Stat.t :=
  {| Stat.type := "inbound-rtp"; Stat.mediaType := Some "video";
     Stat.state := None; Stat.timestamp := Some t;
     Stat.framesPerSecond := None; Stat.framesDecoded := None;
     Stat.framesDropped := None; Stat.keyFramesDecoded := None;
     Stat.bytesReceived := Some bytes; Stat.packetsLost := None;
     Stat.packetsReceived := None; Stat.jitter := None;
     Stat.totalDecodeTime := None; Stat.currentRoundTripTime := None;
     Stat.dtlsState := None; Stat.iceState := None |}.

Definition snapshot_A : Stat.t := byte_snapshot 1000 0.
Definition snapshot_B : Stat.t := byte_snapshot 2000 1000.

(** The video bitrate reported for the sample [stats] taken by player [p]. *)
Definition videoBitrate (now : Q) (stats : list Stat.t) (p : Player) : option number :=
  option_map Video.bitrate (Report.video (snd (parseStats now stats p))).

(** A cumulative counter [f] that is non-negative in the previous snapshot
    and has not decreased in the current one (a missing value reads 0, as in
    the source). *)
Definition nonDecreasing (f : Stat.t -> option Q) (prev : option Stat.t)
           (stat : Stat.t) : Prop :=
  0 <= or0 (prevField prev f) /\ or0 (prevField prev f) <= or0 (f stat).

(** Two consecutive video snapshots with all four counters set. *)
Definition counters (decoded dropped lost received t : Q) : Stat.t :=
  {| Stat.type := "inbound-rtp"; Stat.mediaType := Some "video";
     Stat.state := None; Stat.timestamp := Some t;
     Stat.framesPerSecond := Some 30; Stat.framesDecoded := Some decoded;
     Stat.framesDropped := Some dropped; Stat.keyFramesDecoded := None;
     Stat.bytesReceived := None; Stat.packetsLost := Some lost;
     Stat.packetsReceived := Some received; Stat.jitter := None;
     Stat.totalDecodeTime := None; Stat.currentRoundTripTime := None;
     Stat.dtlsState := None; Stat.iceState := None |}.

Definition first_counters : Stat.t := counters 100 2 1 500 0.
Definition second_counters : Stat.t := counters 127 5 3 997 1000.
Definition after_first : Player := fst (parseVideo 0 first_counters init).

(** A transport that recovers by itself and is lost again shortly after:
    the [connected] notification, then a loss, then the expiry of the timer
    that the [connected] status had set. *)
Definition recover_then_lose (p : Player) : list Event :=
  [ConnectionStateChange "connected"; ConnectionStateChange "disconnected";
   TimerFired (List.length (timers p))].

(** Two losses, a successful reconnection, then three more losses. *)
Definition losses_around_success : list Event :=
  [ConnectionStateChange "disconnected"; ConnectionStateChange "failed";
   TimerFired 0; PlayResolved 5000;
   ConnectionStateChange "disconnected"; ConnectionStateChange "disconnected";
   ConnectionStateChange "failed"].

(** Whether the [i]-th [onFrame] closure exists and is, or is not,
    registered for the next video frame. *)
Definition monitorRegistered (i : nat) (p : Player) : bool :=
  match nth_error (monitors p) i with
  | Some m => registered m
  | None => false
  end.

Definition monitorStopped (i : nat) (p : Player) : bool :=
  match nth_error (monitors p) i with
  | Some m => negb (registered m)
  | None => false
  end.

(** Frames delivered one after the other to the [i]-th closure, each given
    by its time and its count of presented frames. *)
Definition frames (i : nat) (fs : list (Q * Q)) : list Event :=
  map (fun f => VideoFrame i (fst f) (snd f)) fs.

(** A player that is playing, with one video track registered at time 0. *)
Definition playing_track : Player :=
  run [PlayResolved 0; TrackArrived "video" true 0] init.

(** The key-frame intervals kept by [parseStats], and the key-frame count
    it last recorded ([this.state.lastKeyFrameCount || 0]). *)
Definition keyFrameRing (p : Player) : list Q :=
  Metrics.keyFrameTimestamps (performanceMetrics p).

Definition recordedKeyFrames (p : Player) : Q :=
  or0 (State.lastKeyFrameCount (state p)).

(** The kinds of entries that [parseStats] lets act on the player. *)
Definition isVideoEntry (stat : Stat.t) : bool :=
  String.eqb (Stat.type stat) "inbound-rtp" && optEq (Stat.mediaType stat) "video".

Definition isAudioEntry (stat : Stat.t) : bool :=
  String.eqb (Stat.type stat) "inbound-rtp" && optEq (Stat.mediaType stat) "audio".

Definition isSucceededPair (stat : Stat.t) : bool :=
  String.eqb (Stat.type stat) "candidate-pair" && optEq (Stat.state stat) "succeeded".

(** The last entry of a sample that satisfies [f]. *)
Definition lastEntry (f : Stat.t -> bool) (stats : list Stat.t) : option Stat.t :=
  find f (rev stats).

(** A sample made of a transport and a codec entry only. *)
Definition idle_sample : list Stat.t := [Stat.bare "transport"; Stat.bare "codec"].

(** A video entry that only carries a key-frame count. *)
Definition keyframe_stat (count : Q) : Stat.t :=
  {| Stat.type := "inbound-rtp"; Stat.mediaType := Some "video";
     Stat.state := None; Stat.timestamp := None;
     Stat.framesPerSecond := None; Stat.framesDecoded := None;
     Stat.framesDropped := None; Stat.keyFramesDecoded := Some count;
     Stat.bytesReceived := None; Stat.packetsLost := None;
     Stat.packetsReceived := None; Stat.jitter := None;
     Stat.totalDecodeTime := None; Stat.currentRoundTripTime := None;
     Stat.dtlsState := None; Stat.iceState := None |}.

(** The parameter set with every field absent. *)
Definition noParams : Params.t :=
  {| Params.framerate := None; Params.maxFramerate := None; Params.codec := None;
     Params.profileLevelId := None; Params.h265ProfileId := None;
     Params.levelId := None; Params.tierFlag := None; Params.txMode := None |}.

(** ** Zoom and pan (lines 5-7, 254-288, 667-719)

    [this.state.zoom] together with the variables captured by the pointer
    handlers of [setupPanControls].  [applyTransform] writes the style of the
    video element and saves the settings; neither is kept here.  The rectangle
    is what [getBoundingClientRect] returns for the container when a handler
    runs. *)

Definition ZOOM_MIN : Q := 1.
Definition ZOOM_MAX : Q := 3.
Definition ZOOM_STEP : Q := 1 # 4.

(** [Math.max(a, b)] and [Math.min(a, b)] on finite numbers. *)
Definition mathMax (a b : Q) : Q := if Qle_bool a b then b else a.
Definition mathMin (a b : Q) : Q := if Qle_bool a b then a else b.

Module Rect.
Record t := { width : Q; height : Q }.
End Rect.

Module View.
Record t := {
  scale : Q;
  translateX : Q;
  translateY : Q;
  isPanning : bool;
  startX : Q;
  startY : Q
}.
End View.

(** [initializeState().zoom] and the initial closure variables. *)
Definition initialView : View.t :=
  {| View.scale := 1; View.translateX := 0; View.translateY := 0;
     View.isPanning := false; View.startX := 0; View.startY := 0 |}.

Definition setZoom (scale translateX translateY : Q) (v : View.t) : View.t :=
  {| View.scale := scale; View.translateX := translateX;
     View.translateY := translateY; View.isPanning := View.isPanning v;
     View.startX := View.startX v; View.startY := View.startY v |}.

Definition resetZoom (v : View.t) : View.t := setZoom 1 0 0 v.

Definition clampPan (rect : Rect.t) (v : View.t) : View.t :=
  let maxX :=
    mathMax 0 ((Rect.width rect * View.scale v - Rect.width rect) / 2) in
  let maxY :=
    mathMax 0 ((Rect.height rect * View.scale v - Rect.height rect) / 2) in
  setZoom (View.scale v)
          (mathMin maxX (mathMax (- maxX) (View.translateX v)))
          (mathMin maxY (mathMax (- maxY) (View.translateY v)))
          v.

Definition zoom (delta : Q) (rect : Rect.t) (v : View.t) : View.t :=
  let newScale := mathMax ZOOM_MIN (mathMin ZOOM_MAX (View.scale v + delta)) in
  let v := setZoom newScale (View.translateX v) (View.translateY v) v in
  if Qeq_bool newScale 1 then resetZoom v else clampPan rect v.

Definition toggleZoom (v : View.t) : View.t :=
  if Qeq_bool (View.scale v) 1
  then setZoom 2 (View.translateX v) (View.translateY v) v
  else resetZoom v.

Definition handlePointerDown (clientX clientY : Q) (v : View.t) : View.t :=
  if Qeq_bool (View.scale v) 1 then v
  else
    {| View.scale := View.scale v; View.translateX := View.translateX v;
       View.translateY := View.translateY v; View.isPanning := true;
       View.startX := clientX - View.translateX v;
       View.startY := clientY - View.translateY v |}.

Definition handlePointerMove (clientX clientY : Q) (rect : Rect.t) (v : View.t)
  : View.t :=
  if View.isPanning v then
    clampPan rect
      (setZoom (View.scale v) (clientX - View.startX v) (clientY - View.startY v) v)
  else v.

Definition handlePointerUp (v : View.t) : View.t :=
  {| View.scale := View.scale v; View.translateX := View.translateX v;
     View.translateY := View.translateY v; View.isPanning := false;
     View.startX := View.startX v; View.startY := View.startY v |}.

(** The user actions that reach these methods. *)
Inductive ViewEvent :=
| ZoomBy (delta : Q)                 (* zoom(delta) *)
| ToggleZoom                         (* double click *)
| ResetZoom                          (* key 0 *)
| PointerDown (clientX clientY : Q)
| PointerMove (clientX clientY : Q)
| PointerUp.

Definition stepView (v : View.t) (e : Rect.t * ViewEvent) : View.t :=
  let rect := fst e in
  match snd e with
  | ZoomBy delta => zoom delta rect v
  | ToggleZoom => toggleZoom v
  | ResetZoom => resetZoom v
  | PointerDown x y => handlePointerDown x y v
  | PointerMove x y => handlePointerMove x y rect v
  | PointerUp => handlePointerUp v
  end.

Definition runView (es : list (Rect.t * ViewEvent)) (v : View.t) : View.t :=
  fold_left stepView es v.

(** The largest translation [clampPan] allows along each axis. *)
Definition panLimitX (rect : Rect.t) (v : View.t) : Q :=
  mathMax 0 ((Rect.width rect * View.scale v - Rect.width rect) / 2).

Definition panLimitY (rect : Rect.t) (v : View.t) : Q :=
  mathMax 0 ((Rect.height rect * View.scale v - Rect.height rect) / 2).

(** A 640 by 360 container. *)
Definition container : Rect.t := {| Rect.width := 640; Rect.height := 360 |}.

(** ** Debug panel polling (lines 778-802)

    [shown] is the presence of the class [show] on the panel,
    [debugInterval] the field of the player, [live] the interval timers that
    are running and [nextHandle] the handle the next [setInterval] returns. *)

Module Debug.
Record t := {
  shown : bool;
  debugInterval : option nat;
  live : list nat;
  nextHandle : nat
}.
End Debug.

Definition startDebugMonitoring (d : Debug.t) : Debug.t :=
  {| Debug.shown := Debug.shown d;
     Debug.debugInterval := Some (Debug.nextHandle d);
     Debug.live := (Debug.live d ++ [Debug.nextHandle d])%list;
     Debug.nextHandle := S (Debug.nextHandle d) |}.

(** [if (this.debugInterval)]: [null] and the handle 0 are falsy. *)
Definition stopDebugMonitoring (d : Debug.t) : Debug.t :=
  match Debug.debugInterval d with
  | Some h =>
      if (h =? 0)%nat then d
      else
        {| Debug.shown := Debug.shown d;
           Debug.debugInterval := None;
           Debug.live := filter (fun x => negb (x =? h)%nat) (Debug.live d);
           Debug.nextHandle := Debug.nextHandle d |}
  | None => d
  end.

Definition toggleDebugPanel (d : Debug.t) : Debug.t :=
  let isVisible := negb (Debug.shown d) in
  let d := {| Debug.shown := isVisible;
              Debug.debugInterval := Debug.debugInterval d;
              Debug.live := Debug.live d;
              Debug.nextHandle := Debug.nextHandle d |} in
  if isVisible then startDebugMonitoring d else stopDebugMonitoring d.

(** The panel is hidden and nothing polls, or it is shown and exactly the
    interval held in [debugInterval] polls. *)
Definition pollingMatchesPanel (d : Debug.t) : Prop :=
  (1 <= Debug.nextHandle d)%nat /\
  (if Debug.shown d
   then exists h, Debug.debugInterval d = Some h /\ Debug.live d = [h] /\
                  (1 <= h < Debug.nextHandle d)%nat
   else Debug.debugInterval d = None /\ Debug.live d = []).

(** The page as loaded: panel hidden, [debugInterval] null. *)
Definition initialDebug : Debug.t :=
  {| Debug.shown := false; Debug.debugInterval := None; Debug.live := [];
     Debug.nextHandle := 1 |}.

(** ** Quality classes (lines 1921-1941) *)

(** [x >= q] and [x <= q]; every comparison with [NaN] is false. *)
Definition geq (x : number) (q : Q) : bool :=
  match x with
  | NaN => false
  | Infinity negative => negb negative
  | Fin a => Qle_bool q a
  end.

Definition leq (x : number) (q : Q) : bool :=
  match x with
  | NaN => false
  | Infinity negative => negative
  | Fin a => Qle_bool a q
  end.

Definition getQualityClass (value : number) (type : string) : string :=
  if String.eqb type "fps" then
    if geq value 55 then "good" else if geq value 30 then "warning" else "bad"
  else if String.eqb type "packetLoss" then
    if leq value 1 then "good" else if leq value 5 then "warning" else "bad"
  else if String.eqb type "jitter" then
    if leq value 30 then "good" else if leq value 100 then "warning" else "bad"
  else if String.eqb type "rtt" then
    if leq value 50 then "good" else if leq value 150 then "warning" else "bad"
  else "".

(** How good a class is. *)
Definition classRank (c : string) : nat :=
  if String.eqb c "good" then 2 else if String.eqb c "warning" then 1 else 0.

(** ** File names of the downloads (lines 748-751, 1851, 1898) *)

(** [s.replace(/[:.]/g, "-")] *)
Fixpoint dashColonsAndDots (s : string) : string :=
  match s with
  | EmptyString => EmptyString
  | String a s' =>
      String (if Ascii.eqb a ":" || Ascii.eqb a "." then "-"%char else a)
             (dashColonsAndDots s')
  end.

(** [s.slice(0, n)] *)
Fixpoint sliceFromStart (n : nat) (s : string) : string :=
  match n, s with
  | S n', String a s' => String a (sliceFromStart n' s')
  | _, _ => EmptyString
  end.

(** The names given to a screenshot and to a debug export, from the value of
    [new Date().toISOString()]. *)
Definition screenshotName (iso : string) : string :=
  "screenshot-" ++ dashColonsAndDots (sliceFromStart 19 iso) ++ ".png".

Definition debugExportName (iso : string) : string :=
  "webrtc-debug-" ++ dashColonsAndDots iso ++ ".json".

Fixpoint countChar (c : ascii) (s : string) : nat :=
  match s with
  | EmptyString => 0
  | String a s' => (if Ascii.eqb a c then 1 else 0) + countChar c s'
  end.

(** ** Uptime (lines 1566-1567, 1852)

    [Date.now()] and [this.statsStartTime] are whole milliseconds. *)

(** [Math.floor((Date.now() - this.statsStartTime) / 1000)] *)
Definition uptime (now statsStartTime : Z) : Z := ((now - statsStartTime) / 1000)%Z.

(** The two numbers printed in [`${Math.floor(uptime / 60)}m ${uptime % 60}s`];
    [%] takes the sign of the dividend. *)
Definition uptimeMinutes (uptime : Z) : Z := (uptime / 60)%Z.
Definition uptimeSeconds (uptime : Z) : Z := Z.rem uptime 60.

Definition ofInt (z : Z) : string := NilEmpty.string_of_int (Z.to_int z).

Definition uptimeStr (uptime : Z) : string :=
  ofInt (uptimeMinutes uptime) ++ "m " ++ ofInt (uptimeSeconds uptime) ++ "s".

(** The scale is within the zoom range and an unzoomed view is not
    translated. *)
Definition zoomOk (v : View.t) : Prop :=
  1 <= View.scale v /\ View.scale v <= 3 /\
  (View.scale v == 1 -> View.translateX v == 0 /\ View.translateY v == 0).

(** The translation is within the limits of the container [rect]. *)
Definition panOk (rect : Rect.t) (v : View.t) : Prop :=
  - panLimitX rect v <= View.translateX v /\ View.translateX v <= panLimitX rect v /\
  - panLimitY rect v <= View.translateY v /\ View.translateY v <= panLimitY rect v.

(** ** Graph geometry: drawGraph (lines 1750-1827)

    Only the coordinates handed to the canvas are kept: the vertices of the
    data line and the centre of the marker of the current value.  The canvas
    is taken to exist. *)

(** [x > y] on numbers. *)
Definition gtNum (x y : number) : bool :=
  match x, y with
  | NaN, _ | _, NaN => false
  | Infinity a, Infinity b => negb a && b
  | Infinity a, Fin _ => negb a
  | Fin _, Infinity b => b
  | Fin p, Fin q => Qgtb p q
  end.

(** [Math.max(...data)]: negative infinity without argument, [NaN] as soon
    as one argument is. *)
Definition maxNum (x y : number) : number :=
  match x, y with
  | NaN, _ | _, NaN => NaN
  | _, _ => if gtNum y x then y else x
  end.

Definition mathMaxAll (data : list number) : number :=
  fold_left maxNum data (Infinity true).

(** The scale after [if (dataMax > maxValue) maxValue = dataMax * 1.2]. *)
Definition graphScale (maxValue : number) (data : list number) : number :=
  let dataMax := mathMaxAll data in
  if gtNum dataMax maxValue then mul dataMax (Fin (12 # 10)) else maxValue.

(** [width / (STATS_HISTORY_SIZE - 1)] *)
Definition xStepOf (width : Q) : Q :=
  width / (inject_Z (Z.of_nat STATS_HISTORY_SIZE) - 1).

(** [height - (value / maxValue) * height] *)
Definition graphY (height : Q) (maxValue value : number) : number :=
  sub (Fin height) (mul (div value maxValue) (Fin height)).

(** The body of [data.forEach((value, index) => ...)], from [index] on. *)
Fixpoint plotFrom (index : nat) (xStep height : Q) (maxValue : number)
         (data : list number) : list (Q * number) :=
  match data with
  | [] => []
  | value :: rest =>
      (inject_Z (Z.of_nat index) * xStep, graphY height maxValue value)
        :: plotFrom (S index) xStep height maxValue rest
  end.

(** The vertices of the line; none when the function returns early (fewer
    than two values). *)
Definition drawGraph (width height : Q) (maxValue : number) (data : list number)
  : list (Q * number) :=
  if (List.length data <? 2)%nat then []
  else plotFrom 0 (xStepOf width) height (graphScale maxValue data) data.

(** The centre of the marker: [(data.length * xStep - xStep, currentY)]. *)
Definition graphMarker (width height : Q) (maxValue : number) (data : list number)
  : Q * number :=
  (inject_Z (Z.of_nat (List.length data)) * xStepOf width - xStepOf width,
   graphY height (graphScale maxValue data) (last data NaN)).

(** A point lies on a canvas of the given size. *)
Definition onCanvas (width height : Q) (pt : Q * number) : Prop :=
  0 <= fst pt /\ fst pt <= width /\
  exists y, snd pt = Fin y /\ 0 <= y /\ y <= height.

(** An ordinary VP9 answer: the payload mapping is the fourth line after the
    media line and its format parameters carry the VP9 profile 1. *)
Definition sdp_vp9_profile_1 : string :=
  "v=0" ++ CRLF ++ "o=- 0 0 IN IP4 127.0.0.1" ++ CRLF ++ "s=-" ++ CRLF ++
  "t=0 0" ++ CRLF ++ "m=video 9 UDP/TLS/RTP/SAVPF 98" ++ CRLF ++
  "c=IN IP4 0.0.0.0" ++ CRLF ++ "a=mid:0" ++ CRLF ++ "a=sendonly" ++ CRLF ++
  "a=rtpmap:98 VP9/90000" ++ CRLF ++ "a=fmtp:98 profile-id=1" ++ CRLF.

(** A time of [k * 2^-g] ms with [0 <= k < 2^53]: a double represents it
    exactly, and the difference of two such times as well, so that
    [now - lastTime] and the test [elapsed >= 1000] on it are computed by
    the source without rounding. *)
Definition exactTime (g : nat) (t : Q) : Prop :=
  exists k : Z, (0 <= k < 2 ^ 53)%Z /\ t == inject_Z k / inject_Z (2 ^ Z.of_nat g).

(** The series after [push] of [v] and the [shift] that follows it when the
    series already held [STATS_HISTORY_SIZE] values or more. *)
Definition appended {A} (old : list A) (v : A) : list A :=
  ((if (STATS_HISTORY_SIZE <=? List.length old)%nat then tl old else old) ++ [v])%list.

(** A sample with a video entry (1000 bytes) and an audio entry (4000
    bytes). *)
Definition video_and_audio : list Stat.t := [byte_snapshot 1000 0; audio_stat 4000 0].

(** * Verification *)

(** ** The embedding on concrete inputs *)

Example extract_from_answer :
  extractVideoParams
    ("m=video 9 UDP/TLS/RTP/SAVPF 96" ++ CRLF ++ "c=IN IP4 0.0.0.0" ++ CRLF ++
     "a=rtpmap:96 H264/90000" ++ CRLF ++
     "a=fmtp:96 profile-level-id=42e01f;max-fr=60" ++ CRLF ++ "a=framerate:30" ++ CRLF)
  = {| Params.framerate := Some 30%N; Params.maxFramerate := Some 60%N;
       Params.codec := Some "H264/90000"; Params.profileLevelId := Some "42e01f";
       Params.h265ProfileId := None; Params.levelId := Some 42%N;
       Params.tierFlag := None; Params.txMode := None |}.
Proof. reflexivity. Qed.

Example three_losses_still_reconnecting :
  reconnectAttempts (run three_losses init) = 3%nat /\
  Dom.statusText (dom (run three_losses init)) = "Reconnecting... (3/5)" /\
  State.connectionQuality (state (run three_losses init)) = "connecting" /\
  reconnectTimers (run three_losses init) = 1%nat.
Proof. repeat split. Qed.

Example first_frame_measures_60 :
  maxFpsAchieved (step one_track (VideoFrame 0 2000 120)) == 60 /\
  maxFpsAchieved
    (run [VideoFrame 0 2000 120; StatsSampled 2500 [video_stat 30]] one_track) == 60.
Proof. split; reflexivity. Qed.

Example loss_rate_rounds_to_hundredths :
  lossRate 1 2 = Fin (3333 # 100) /\ lossRate 7 0 = Fin 0.
Proof. split; reflexivity. Qed.

(** ** Frame lemmas: what each method leaves alone *)

Ltac split_ifs :=
  repeat match goal with
         | |- context [if ?b then _ else _] => destruct b
         | |- context [match ?o with Some _ => _ | None => _ end] => destruct o
         end.

Lemma timers_updateConnectionStatus quality text p :
  timers (updateConnectionStatus quality text p) =
  if String.eqb quality "good"
  then (timers p ++ [{| callback := CbHideStatus; delay := 3000 |}])%list
  else timers p.
Proof. unfold updateConnectionStatus. now destruct (String.eqb quality "good"). Qed.

Lemma counter_updateConnectionStatus quality text p :
  reconnectAttempts (updateConnectionStatus quality text p) = reconnectAttempts p.
Proof. unfold updateConnectionStatus. now destruct (String.eqb quality "good"). Qed.

Lemma quality_updateConnectionStatus quality text p :
  State.connectionQuality (state (updateConnectionStatus quality text p)) = quality.
Proof. unfold updateConnectionStatus. now destruct (String.eqb quality "good"). Qed.

Lemma parseVideo_frame now stat p :
  let p' := fst (parseVideo now stat p) in
  reconnectAttempts p' = reconnectAttempts p /\
  timers p' = timers p /\
  dom p' = dom p /\
  statsHistory p' = statsHistory p /\
  State.connectionQuality (state p') = State.connectionQuality (state p).
Proof. unfold parseVideo. cbv zeta. split_ifs; cbn; auto. Qed.

Lemma parseStat_frame now acc stat :
  let p := fst acc in
  let p' := fst (parseStat now acc stat) in
  reconnectAttempts p' = reconnectAttempts p /\
  timers p' = timers p /\
  dom p' = dom p /\
  statsHistory p' = statsHistory p /\
  State.connectionQuality (state p') = State.connectionQuality (state p).
Proof.
  destruct acc as [p report]. unfold parseStat. cbv zeta.
  destruct (_ && _).
  - pose proof (parseVideo_frame now stat p) as H.
    destruct (parseVideo now stat p); exact H.
  - destruct (_ && _); [cbn; auto|].
    destruct (_ && _); [cbn; auto|].
    destruct (String.eqb _ _); cbn; auto.
Qed.

Lemma parseStats_frame now stats p :
  let p' := fst (parseStats now stats p) in
  reconnectAttempts p' = reconnectAttempts p /\
  timers p' = timers p /\
  dom p' = dom p /\
  statsHistory p' = statsHistory p /\
  State.connectionQuality (state p') = State.connectionQuality (state p).
Proof.
  unfold parseStats. generalize Report.empty as r. revert p.
  induction stats as [|stat stats IH]; intros p r; [cbn; auto|].
  cbn [fold_left].
  pose proof (parseStat_frame now (p, r) stat) as H.
  destruct (parseStat now (p, r) stat) as [p1 r1]. cbn in H.
  specialize (IH p1 r1). cbv zeta in IH.
  destruct H as (h1 & h2 & h3 & h4 & h5), IH as (i1 & i2 & i3 & i4 & i5).
  cbv zeta. repeat split; congruence.
Qed.

(** ** Reconnect policy *)

Lemma counter_showError message p :
  reconnectAttempts (showError message p) = reconnectAttempts p.
Proof. reflexivity. Qed.

Lemma counter_attemptReconnect p :
  reconnectAttempts (attemptReconnect p) =
  if (5 <=? reconnectAttempts p)%nat then reconnectAttempts p
  else S (reconnectAttempts p).
Proof.
  unfold attemptReconnect, MAX_RECONNECT_ATTEMPTS.
  fold (reconnectAttempts p).
  destruct (5 <=? reconnectAttempts p)%nat; [reflexivity|].
  cbv zeta. unfold setTimeout.
  change (reconnectAttempts (with_timers ?f ?q)) with (reconnectAttempts q).
  now rewrite counter_updateConnectionStatus.
Qed.

Lemma isDisconnect_spec e :
  isDisconnect e = true ->
  e = ConnectionStateChange "disconnected" \/ e = ConnectionStateChange "failed".
Proof.
  destruct e; cbn; try discriminate.
  intros H. apply orb_true_iff in H.
  destruct H as [H|H]; apply String.eqb_eq in H; subst; auto.
Qed.

Lemma counter_step_disconnect e p :
  isDisconnect e = true ->
  reconnectAttempts (step p e) =
  if (5 <=? reconnectAttempts p)%nat then reconnectAttempts p
  else S (reconnectAttempts p).
Proof.
  intros H. destruct (isDisconnect_spec e H); subst; cbn [step];
    unfold onConnectionStateChange; cbn [String.eqb Ascii.eqb Bool.eqb];
    rewrite counter_attemptReconnect, counter_updateConnectionStatus; reflexivity.
Qed.

Lemma counter_onFrame i now presented p :
  reconnectAttempts (onFrame i now presented p) = reconnectAttempts p.
Proof.
  unfold onFrame. destruct (nth_error _ _) as [m|]; [|reflexivity].
  destruct (registered m); [|reflexivity].
  unfold onFrame_body. cbv zeta. split_ifs; reflexivity.
Qed.

Lemma counter_fireTimer i p :
  reconnectAttempts (fireTimer i p) = reconnectAttempts p.
Proof.
  unfold fireTimer. destruct (nth_error _ _) as [t|]; [|reflexivity].
  destruct (callback t); reflexivity.
Qed.

Lemma counter_handlePlaybackError message p :
  reconnectAttempts (handlePlaybackError message p) = reconnectAttempts p.
Proof. reflexivity. Qed.

Lemma counter_step_other e p :
  isDisconnect e = false -> isConnected e = false ->
  reconnectAttempts (step p e) = reconnectAttempts p.
Proof.
  destruct e; cbn [step isConnected]; intros Hd Hc; try discriminate.
  - cbn in Hd. apply orb_false_iff in Hd. destruct Hd as [Hd Hf].
    unfold onConnectionStateChange. rewrite Hd, Hf.
    split_ifs; try reflexivity; apply counter_updateConnectionStatus.
  - apply counter_fireTimer.
  - apply counter_handlePlaybackError.
  - reflexivity.
  - reflexivity.
  - unfold ontrack, monitorVideoTrack. split_ifs; reflexivity.
  - apply counter_onFrame.
  - unfold updateDebugInfo.
    pose proof (parseStats_frame now stats p) as H.
    destruct (parseStats now stats p) as [p1 r]. apply H.
Qed.

Lemma counter_run evs : forall p,
  (reconnectAttempts p <= 5)%nat ->
  forallb (fun e => negb (isConnected e)) evs = true ->
  reconnectAttempts (run evs p) = Nat.min (reconnectAttempts p + disconnects evs) 5.
Proof.
  unfold run, disconnects.
  induction evs as [|e evs IH]; intros p Hle Hall; cbn [fold_left filter].
  - cbn. lia.
  - cbn in Hall. apply andb_true_iff in Hall. destruct Hall as [Hc Hall].
    apply negb_true_iff in Hc.
    destruct (isDisconnect e) eqn:Hd.
    + pose proof (counter_step_disconnect e p Hd) as Hs.
      destruct (Nat.leb_spec 5 (reconnectAttempts p)).
      * rewrite IH; [|lia|exact Hall]. cbn [List.length]. lia.
      * rewrite IH; [|lia|exact Hall]. cbn [List.length]. lia.
    + pose proof (counter_step_other e p Hd Hc) as Hs.
      rewrite IH; [|lia|exact Hall]. lia.
Qed.

Lemma after_disconnect_below_ceiling e p :
  isDisconnect e = true -> (reconnectAttempts p < 5)%nat ->
  let p' := step p e in
  reconnectTimers p' = S (reconnectTimers p) /\
  Dom.statusText (dom p') =
    "Reconnecting... (" ++ JsString.ofNat (S (reconnectAttempts p)) ++ "/5)" /\
  State.connectionQuality (state p') = "connecting" /\
  Dom.errorText (dom p') = Dom.errorText (dom p) /\
  Dom.errorShown (dom p') = Dom.errorShown (dom p).
Proof.
  intros H Hlt.
  assert (Hc : (5 <=? reconnectAttempts p)%nat = false) by (apply Nat.leb_gt; lia).
  unfold reconnectAttempts in Hc.
  destruct (isDisconnect_spec e H); subst; cbn [step];
    unfold onConnectionStateChange; cbn [String.eqb Ascii.eqb Bool.eqb];
    unfold attemptReconnect, MAX_RECONNECT_ATTEMPTS, updateConnectionStatus;
    cbn [String.eqb Ascii.eqb Bool.eqb with_state with_dom state set_connectionQuality
         State.reconnectAttempts];
    rewrite Hc; unfold reconnectTimers, reconnectAttempts; cbn;
    rewrite filter_app, length_app; cbn; repeat split; lia.
Qed.

Lemma after_disconnect_at_ceiling e p :
  isDisconnect e = true -> (5 <= reconnectAttempts p)%nat ->
  let p' := step p e in
  Failed p' /\ reconnectTimers p' = reconnectTimers p /\
  reconnectAttempts p' = reconnectAttempts p.
Proof.
  intros H Hge.
  assert (Hc : (5 <=? reconnectAttempts p)%nat = true) by (apply Nat.leb_le; lia).
  unfold reconnectAttempts in Hc.
  destruct (isDisconnect_spec e H); subst; cbn [step];
    unfold onConnectionStateChange; cbn [String.eqb Ascii.eqb Bool.eqb];
    unfold attemptReconnect, MAX_RECONNECT_ATTEMPTS, updateConnectionStatus;
    cbn [String.eqb Ascii.eqb Bool.eqb with_state with_dom state set_connectionQuality
         State.reconnectAttempts];
    rewrite Hc; unfold Failed, reconnectTimers, reconnectAttempts; cbn;
    rewrite filter_app, length_app; cbn; repeat split; lia.
Qed.

(** C1 (as amended).  Starting from a counter of 0, after any history that
    contains N [disconnected]/[failed] notifications and no successful
    connection, the counter is min(N, 5).  Each of the first five
    notifications schedules one reconnection timer and announces
    "Reconnecting... (k/5)" without touching the error box; the sixth and
    every later one schedules nothing, leaves the counter at 5 and puts the
    player in the terminal failure. *)
Theorem reconnect_counter_and_ceiling :
  forall (p0 : Player) (evs : list Event),
    reconnectAttempts p0 = 0%nat ->
    forallb (fun e => negb (isConnected e)) evs = true ->
    let p := run evs p0 in
    let n := disconnects evs in
    reconnectAttempts p = Nat.min n 5 /\
    forall e, isDisconnect e = true ->
      let p' := step p e in
      ((n < 5)%nat ->
         reconnectTimers p' = S (reconnectTimers p) /\
         Dom.statusText (dom p') =
           "Reconnecting... (" ++ JsString.ofNat (S n) ++ "/5)" /\
         State.connectionQuality (state p') = "connecting" /\
         Dom.errorText (dom p') = Dom.errorText (dom p) /\
         Dom.errorShown (dom p') = Dom.errorShown (dom p)) /\
      ((5 <= n)%nat ->
         Failed p' /\
         reconnectTimers p' = reconnectTimers p /\
         reconnectAttempts p' = 5%nat).
Proof.
  intros p0 evs H0 Hall p n.
  assert (Hc : reconnectAttempts p = Nat.min n 5).
  { subst p n. rewrite counter_run; [now rewrite H0|lia|exact Hall]. }
  split; [exact Hc|].
  intros e He p'. split; intros Hn.
  - assert (Hlt : (reconnectAttempts p < 5)%nat) by lia.
    destruct (after_disconnect_below_ceiling e p He Hlt) as (h1 & h2 & h3 & h4 & h5).
    replace (reconnectAttempts p) with n in h2 by lia.
    repeat split; assumption.
  - assert (Hge : (5 <= reconnectAttempts p)%nat) by lia.
    destruct (after_disconnect_at_ceiling e p He Hge) as (h1 & h2 & h3).
    repeat split; try assumption; try apply h1.
    subst p'. rewrite h3. lia.
Qed.

Lemma reconnect_counter_and_ceiling_witness :
  reconnectAttempts (run mixed_history init) = 3%nat /\
  reconnectTimers (step (run mixed_history init) (ConnectionStateChange "disconnected"))
  = S (reconnectTimers (run mixed_history init)) /\
  Failed (step (run six_disconnects init) (ConnectionStateChange "failed")).
Proof.
  destruct (reconnect_counter_and_ceiling init mixed_history eq_refl eq_refl)
    as [Hc Hn].
  destruct (Hn (ConnectionStateChange "disconnected") eq_refl) as [Hlt _].
  destruct (reconnect_counter_and_ceiling init six_disconnects eq_refl eq_refl)
    as [_ Hn6].
  destruct (Hn6 (ConnectionStateChange "failed") eq_refl) as [_ Hge].
  split; [exact Hc|]. split.
  - apply Hlt. vm_compute. lia.
  - apply Hge. vm_compute. lia.
Defined.

(** C1 as stated fails at N = 5: after the fifth consecutive
    [disconnected] notification the counter is 5, but the player is not in
    the terminal failure: it announces the fifth attempt, the error box
    is untouched, and the fifth notification did schedule a timer. *)
Lemma fifth_disconnect_is_not_failed :
  reconnectAttempts (run five_disconnects init) = 5%nat /\
  ~ Failed (run five_disconnects init) /\
  Dom.errorShown (dom (run five_disconnects init)) = false /\
  Dom.statusText (dom (run five_disconnects init)) = "Reconnecting... (5/5)" /\
  reconnectTimers (run five_disconnects init) =
    S (reconnectTimers (run (firstn 4 five_disconnects) init)).
Proof.
  split; [reflexivity|]. split.
  - intros (H & _). vm_compute in H. discriminate.
  - repeat split.
Qed.

(** C6.  Whenever connection establishment completes, whatever the state
    before, the reconnect counter is 0 and the session start is the current
    time; the status shown is Connected and playback is marked as running. *)
Theorem connected_resets_counter :
  forall (now : Q) (p : Player),
    reconnectAttempts (step p (PlayResolved now)) = 0%nat /\
    State.streamStartTime (state (step p (PlayResolved now))) = Some now /\
    State.isPlaying (state (step p (PlayResolved now))) = true /\
    State.connectionQuality (state (step p (PlayResolved now))) = "good" /\
    Dom.statusText (dom (step p (PlayResolved now))) = "Connected".
Proof. intros now p. repeat split. Qed.

(** ** Establishment failure *)

Lemma timers_onFrame i now presented p :
  timers (onFrame i now presented p) = timers p.
Proof.
  unfold onFrame. destruct (nth_error _ _) as [m|]; [|reflexivity].
  destruct (registered m); [|reflexivity].
  unfold onFrame_body. cbv zeta. split_ifs; reflexivity.
Qed.

Lemma filter_remove_nth {A} (f : A -> bool) (l : list A) : forall i,
  (List.length (filter f (remove_nth i l)) <= List.length (filter f l))%nat.
Proof.
  induction l as [|x l IH]; intros [|i]; cbn; try lia.
  - destruct (f x); cbn; lia.
  - specialize (IH i). destruct (f x); cbn; lia.
Qed.

Lemma filter_remove_nth_hit {A} (f : A -> bool) (l : list A) : forall i x,
  nth_error l i = Some x -> f x = true ->
  S (List.length (filter f (remove_nth i l))) = List.length (filter f l).
Proof.
  induction l as [|y l IH]; intros [|i] x Hn Hf; cbn in *; try discriminate.
  - injection Hn as ->. now rewrite Hf.
  - specialize (IH i x Hn Hf). destruct (f y); cbn; lia.
Qed.

Lemma reconnectTimers_fireTimer i p :
  (reconnectTimers (fireTimer i p) <= reconnectTimers p)%nat.
Proof.
  unfold fireTimer. destruct (nth_error _ _) as [t|]; [|lia].
  unfold reconnectTimers.
  destruct (callback t); cbn; apply filter_remove_nth.
Qed.

Lemma reconnectTimers_step_quiet e p :
  isDisconnect e = false ->
  (reconnectTimers (step p e) <= reconnectTimers p)%nat.
Proof.
  destruct e; cbn [step]; intros Hd.
  - cbn in Hd. apply orb_false_iff in Hd. destruct Hd as [Hd Hf].
    unfold onConnectionStateChange. rewrite Hd, Hf.
    split_ifs; unfold reconnectTimers; cbn; try lia;
      rewrite filter_app, length_app; cbn; lia.
  - apply reconnectTimers_fireTimer.
  - unfold reconnectTimers. cbn. rewrite <- !app_assoc, filter_app, length_app.
    cbn. lia.
  - unfold reconnectTimers. cbn. rewrite filter_app, length_app. cbn. lia.
  - unfold reconnectTimers. cbn. lia.
  - unfold reconnectTimers. cbn. lia.
  - unfold ontrack, monitorVideoTrack, reconnectTimers. split_ifs; cbn; lia.
  - unfold reconnectTimers. rewrite timers_onFrame. lia.
  - unfold updateDebugInfo, reconnectTimers.
    pose proof (parseStats_frame now stats p) as H.
    destruct (parseStats now stats p) as [p1 r].
    destruct H as (_ & H & _). cbn in H |- *. rewrite H. lia.
Qed.

Lemma reconnectTimers_run_quiet evs : forall p,
  forallb (fun e => negb (isDisconnect e)) evs = true ->
  (reconnectTimers (run evs p) <= reconnectTimers p)%nat.
Proof.
  unfold run. induction evs as [|e evs IH]; intros p Hall; cbn [fold_left]; [lia|].
  cbn in Hall. apply andb_true_iff in Hall. destruct Hall as [Hd Hall].
  apply negb_true_iff in Hd.
  specialize (IH (step p e) Hall).
  pose proof (reconnectTimers_step_quiet e p Hd). lia.
Qed.

Lemma counter_increase_is_disconnect e p :
  (reconnectAttempts p < reconnectAttempts (step p e))%nat -> isDisconnect e = true.
Proof.
  intros H. destruct (isDisconnect e) eqn:Hd; [reflexivity|].
  destruct (isConnected e) eqn:Hc.
  - destruct e; try discriminate. cbn in H. lia.
  - rewrite (counter_step_other e p Hd Hc) in H. lia.
Qed.

(** C10.  When connection establishment fails with a message, the handler
    leaves the reconnect counter alone and schedules only the timer that
    hides the error box, while showing "Failed to start playback." followed
    by the text chosen from the message (permission, not found, network,
    or the message itself).  The counter grows on
    [disconnected]/[failed] notifications only.  Hence a reconnection
    attempt whose establishment fails leaves no reconnection pending,
    whatever the counter, and none is scheduled again until such a
    notification arrives. *)
Theorem establishment_failure_stops_reconnection :
  (forall message p,
      let p' := step p (PlayRejected message) in
      reconnectAttempts p' = reconnectAttempts p /\
      timers p' = (timers p ++ [{| callback := CbHideError; delay := 5000 |}])%list /\
      reconnectTimers p' = reconnectTimers p /\
      Dom.errorShown (dom p') = true /\
      State.connectionQuality (state p') = "bad" /\
      exists cause, Dom.errorText (dom p') = "Failed to start playback. " ++ cause /\
        (JsString.includes "Permission" message = true ->
         cause = "Please allow camera/microphone access.") /\
        (JsString.includes "Permission" message = false ->
         JsString.includes "NotFound" message = true ->
         cause = "Stream not found.") /\
        (JsString.includes "Permission" message = false ->
         JsString.includes "NotFound" message = false ->
         JsString.includes "Network" message = true ->
         cause = "Network error. Please check your connection.") /\
        (JsString.includes "Permission" message = false ->
         JsString.includes "NotFound" message = false ->
         JsString.includes "Network" message = false ->
         cause = if String.eqb message "" then "Unknown error." else message)) /\
  (forall e p,
      (reconnectAttempts p < reconnectAttempts (step p e))%nat ->
      isDisconnect e = true) /\
  (forall i message p,
      nth_error (timers p) i =
        Some {| callback := CbStartPlaying; delay := RECONNECT_DELAY |} ->
      reconnectTimers p = 1%nat ->
      let p' := run [TimerFired i; PlayRejected message] p in
      reconnectTimers p' = 0%nat /\ reconnectAttempts p' = reconnectAttempts p) /\
  (forall evs p,
      reconnectTimers p = 0%nat ->
      forallb (fun e => negb (isDisconnect e)) evs = true ->
      reconnectTimers (run evs p) = 0%nat).
Proof.
  split; [|split; [|split]].
  - intros message p p'. subst p'. cbn [step].
    unfold startPlaying_rejected, handlePlaybackError. cbv zeta.
    repeat split.
    + unfold reconnectTimers. cbn. rewrite filter_app, length_app. cbn. lia.
    + eexists. split; [reflexivity|].
      repeat split; intros; repeat match goal with H : _ = _ |- _ => rewrite H end;
        reflexivity.
  - exact counter_increase_is_disconnect.
  - intros i message p Hn H1 p'. subst p'. unfold run. cbn [fold_left step].
    unfold startPlaying_rejected.
    rewrite counter_handlePlaybackError, counter_fireTimer. split; [|reflexivity].
    unfold fireTimer. rewrite Hn. cbn [callback runCallback].
    unfold reconnectTimers in *. cbn. rewrite filter_app, length_app. cbn.
    pose proof (filter_remove_nth_hit isReconnectTimer (timers p) i _ Hn eq_refl).
    lia.
  - intros evs p H0 Hall.
    pose proof (reconnectTimers_run_quiet evs p Hall). lia.
Qed.

Lemma establishment_failure_stops_reconnection_witness :
  reconnectTimers (run [TimerFired 0; PlayRejected "NotFound: no such stream"] one_loss)
    = 0%nat /\
  reconnectAttempts (run [TimerFired 0; PlayRejected "NotFound: no such stream"] one_loss)
    = 1%nat /\
  Dom.errorText (dom (step one_loss (PlayRejected "NotFound: no such stream")))
    = "Failed to start playback. Stream not found." /\
  isDisconnect (ConnectionStateChange "failed") = true /\
  reconnectTimers (run [PlayResolved 7; TimerFired 0; ConnectionStateChange "connected"]
                       init) = 0%nat.
Proof.
  destruct establishment_failure_stops_reconnection as (H1 & H2 & H3 & H4).
  destruct (H3 0%nat "NotFound: no such stream" one_loss eq_refl eq_refl) as [Ha Hb].
  destruct (H1 "NotFound: no such stream" one_loss) as (_ & _ & _ & _ & _ & c & Hc & _ & Hnf & _).
  split; [exact Ha|]. split; [exact Hb|]. split.
  - rewrite Hc. rewrite (Hnf eq_refl eq_refl). reflexivity.
  - split.
    + apply (H2 (ConnectionStateChange "failed") init). vm_compute. lia.
    + apply (H4 [PlayResolved 7; TimerFired 0; ConnectionStateChange "connected"] init);
        reflexivity.
Defined.

(** ** SDP codec classification *)

Section RegexFacts.
Import Regex JsString.

Lemma append_nil_r (s : string) : s ++ "" = s.
Proof. induction s; cbn; congruence. Qed.

Lemma append_assoc (a b c : string) : (a ++ b) ++ c = a ++ (b ++ c).
Proof. induction a; cbn; congruence. Qed.

(** A repetition that spans exactly [body] succeeds as soon as the
    continuation accepts that split. *)
Lemma greedy_run {A} (c : cls) (k : string -> string -> option A) (r : A) :
  forall body taken rest,
    allIn c body = true -> stops c rest = true ->
    k (taken ++ body) rest = Some r ->
    greedy c k taken (body ++ rest) = Some r.
Proof.
  induction body as [|a body IH]; intros taken rest Hall Hstop Hk.
  - rewrite append_nil_r in Hk. cbn [append].
    destruct rest as [|b rest]; cbn [greedy]; [exact Hk|].
    cbn in Hstop. apply negb_true_iff in Hstop. now rewrite Hstop.
  - cbn in Hall. apply andb_true_iff in Hall. destruct Hall as [Ha Hall].
    cbn [append greedy]. rewrite Ha.
    rewrite (IH (taken ++ String a "") rest Hall Hstop); [reflexivity|].
    now rewrite append_assoc.
Qed.

(** A repetition never fails when its continuation never does. *)
Lemma greedy_total {A} (c : cls) (k : string -> string -> option A) :
  (forall taken rest, k taken rest <> None) ->
  forall s taken, greedy c k taken s <> None.
Proof.
  intros Hk. induction s as [|a s IH]; intros taken; cbn [greedy]; [apply Hk|].
  destruct (in_cls c a); [|apply Hk].
  specialize (IH (taken ++ String a "")).
  destruct (greedy c k (taken ++ String a "") s); [discriminate|contradiction].
Qed.

Lemma startsWith_split (p : string) : forall s,
  startsWith p s = true -> exists t, s = p ++ t.
Proof.
  induction p as [|a p IH]; intros s H; [now exists s|].
  destruct s as [|b s]; [discriminate|]. cbn in H.
  apply andb_true_iff in H. destruct H as [Hab H].
  apply Ascii.eqb_eq in Hab. subst b.
  destruct (IH s H) as [t ->]. now exists t.
Qed.

Lemma search_of_exec (r : regex) (s : string) :
  exec r s <> None -> search r s <> None.
Proof. destruct s; cbn; destruct (exec r _); congruence. Qed.

Lemma search_skip (r : regex) (a : ascii) (s : string) :
  search r s <> None -> search r (String a s) <> None.
Proof. cbn [search]. destruct (exec r (String a s)); congruence. Qed.

(** The profile pattern matches wherever [profile-id=1] occurs. *)
Lemma profile_id_found : forall sdp,
  includes "profile-id=1" sdp = true -> search h265ProfileRe sdp <> None.
Proof.
  induction sdp as [|a sdp IH]; intros H; [discriminate|].
  cbn [includes] in H. apply orb_true_iff in H. destruct H as [H|H].
  - apply search_of_exec. destruct (startsWith_split _ _ H) as [t ->].
    cbn -[greedy].
    apply greedy_total. intros; discriminate.
  - apply search_skip. auto.
Qed.

(** No match of the codec pattern starts before the first [m=video]. *)
Lemma codec_search_skips : forall pre s,
  includes "m=video" pre = false ->
  search codecRe (pre ++ "m=video" ++ s) = search codecRe ("m=video" ++ s).
Proof.
  induction pre as [|a pre IH]; intros s H; [reflexivity|].
  cbn [includes] in H. apply orb_false_iff in H. destruct H as [Hs Hi].
  change (String a pre ++ "m=video" ++ s) with (String a (pre ++ "m=video" ++ s)).
  cbn [search]. rewrite (IH s Hi).
  replace (exec codecRe (String a (pre ++ "m=video" ++ s))) with (@None (list string));
    [reflexivity|].
  symmetry. unfold codecRe. cbn [exec].
  replace (strip false "m=video" (String a (pre ++ "m=video" ++ s)))
    with (@None string); [reflexivity|].
  symmetry. clear IH Hi. revert Hs.
  change (String a (pre ++ "m=video" ++ s)) with (String a pre ++ "m=video" ++ s).
  cbn [startsWith strip append].
  destruct (Ascii.eqb _ a); [|reflexivity]. cbn [andb].
  do 6 (destruct pre as [|? pre]; [intros _; reflexivity|];
        cbn [startsWith strip append];
        match goal with
        | |- context [Ascii.eqb ?x ?y] => destruct (Ascii.eqb x y); [|reflexivity]
        end;
        cbn [andb]).
  cbn. discriminate.
Qed.

Lemma greedy1_run {A} (c : cls) (k : string -> string -> option A) (r : A)
      (a : ascii) (body rest : string) :
  allIn c (String a body) = true -> stops c rest = true ->
  k (String a body) rest = Some r ->
  greedy1 c k (String a body ++ rest) = Some r.
Proof.
  intros Hall Hstop Hk. cbn in Hall. apply andb_true_iff in Hall.
  destruct Hall as [Ha Hall]. cbn [append greedy1]. rewrite Ha.
  now apply greedy_run.
Qed.

Lemma strip_app (p x : string) : strip false p (p ++ x) = Some x.
Proof. induction p; cbn; [reflexivity|]. now rewrite Ascii.eqb_refl. Qed.

Lemma exec_lit (p x : string) (r : regex) :
  exec (Lit p :: r) (p ++ x) = exec r x.
Proof. cbn [exec]. now rewrite strip_app. Qed.

Lemma isLineBreak_cases nl : isLineBreak nl = true -> nl = LF \/ nl = CRLF.
Proof.
  unfold isLineBreak. intros H. apply orb_true_iff in H.
  destruct H as [H|H]; apply String.eqb_eq in H; auto.
Qed.

(** The rest of a line, then its line break. *)
Lemma exec_rest_of_line (r : regex) (m : list string) (line nl x : string) :
  allIn Dot line = true -> isLineBreak nl = true ->
  exec r x = Some m ->
  exec (Star Dot :: Opt (Chr CR) :: Lit LF :: r) (line ++ nl ++ x)
  = Some m.
Proof.
  intros Hline Hnl Hx. cbn [exec].
  apply greedy_run; [exact Hline| |].
  - destruct (isLineBreak_cases nl Hnl); subst; reflexivity.
  - destruct (isLineBreak_cases nl Hnl); subst; cbn; now rewrite Hx.
Qed.

(** The payload mapping itself. *)
Lemma exec_rtpmap (rest : string) :
  stops NonSpace rest = true ->
  exec [Lit "a=rtpmap:"; Group Digit; Plus Space; Group NonSpace]
       ("a=rtpmap:96 H264/90000" ++ rest)
  = Some ["96"; "H264/90000"].
Proof.
  intros Hrest.
  change ("a=rtpmap:96 H264/90000" ++ rest)
    with ("a=rtpmap:" ++ ("96" ++ (" " ++ ("H264/90000" ++ rest)))).
  cbn [exec]. rewrite strip_app.
  apply greedy1_run; [reflexivity|reflexivity|].
  rewrite greedy1_run with (r := ["H264/90000"]); [reflexivity..|].
  rewrite greedy1_run with (r := ["H264/90000"]); [reflexivity|reflexivity|exact Hrest|].
  reflexivity.
Qed.

Lemma codec_found (pre line1 nl1 line2 nl2 rest : string) :
  includes "m=video" pre = false ->
  allIn Dot line1 = true -> isLineBreak nl1 = true ->
  allIn Dot line2 = true -> isLineBreak nl2 = true ->
  stops NonSpace rest = true ->
  Params.codec
    (extractVideoParams
       (pre ++ "m=video" ++ line1 ++ nl1 ++ line2 ++ nl2 ++
        "a=rtpmap:96 H264/90000" ++ rest))
  = Some "H264/90000".
Proof.
  intros Hpre H1 Hn1 H2 Hn2 Hrest.
  unfold extractVideoParams. cbn [Params.codec].
  rewrite codec_search_skips by exact Hpre.
  assert (E : exec codecRe
                ("m=video" ++ line1 ++ nl1 ++ line2 ++ nl2 ++
                 "a=rtpmap:96 H264/90000" ++ rest)
              = Some ["96"; "H264/90000"]).
  { unfold codecRe. rewrite exec_lit.
    apply (exec_rest_of_line _ _ line1 nl1); [exact H1|exact Hn1|].
    apply (exec_rest_of_line _ _ line2 nl2); [exact H2|exact Hn2|].
    apply exec_rtpmap, Hrest. }
  destruct ("m=video" ++ line1 ++ nl1 ++ line2 ++ nl2 ++
            "a=rtpmap:96 H264/90000" ++ rest) eqn:Es; [discriminate|].
  cbn [search]. rewrite E. reflexivity.
Qed.
End RegexFacts.

(** The inputs on which the classification of the source succeeds: the
    codec pattern only reaches a payload mapping that is the second line
    after the first [m=video] line, and then [a=rtpmap:96 H264/90000] gives
    H264/AVC; and whenever no codec name is extracted, a [profile-id=1]
    anywhere in the text gives H265/HEVC. *)
Lemma codec_classification :
  (forall pre line1 nl1 line2 nl2 rest p,
      JsString.includes "m=video" pre = false ->
      allIn Regex.Dot line1 = true -> isLineBreak nl1 = true ->
      allIn Regex.Dot line2 = true -> isLineBreak nl2 = true ->
      stops Regex.NonSpace rest = true ->
      State.codecType
        (state (step p (RemoteDescription
                          (pre ++ "m=video" ++ line1 ++ nl1 ++ line2 ++ nl2 ++
                           "a=rtpmap:96 H264/90000" ++ rest))))
      = Some "H264/AVC") /\
  (forall sdp p,
      JsString.includes "profile-id=1" sdp = true ->
      Params.codec (extractVideoParams sdp) = None ->
      State.codecType (state (step p (RemoteDescription sdp))) = Some "H265/HEVC").
Proof.
  split.
  - intros pre line1 nl1 line2 nl2 rest p Hpre H1 Hn1 H2 Hn2 Hrest.
    cbn [step]. unfold setRemoteDescription. cbn [state with_state with_sdpRemote
                                                   State.codecType set_codecType].
    unfold detectCodec.
    rewrite (codec_found pre line1 nl1 line2 nl2 rest Hpre H1 Hn1 H2 Hn2 Hrest).
    reflexivity.
  - intros sdp p Hid Hcodec.
    cbn [step]. unfold setRemoteDescription. cbn [state with_state with_sdpRemote
                                                   State.codecType set_codecType].
    unfold detectCodec. rewrite Hcodec.
    pose proof (profile_id_found sdp Hid) as Hfound.
    unfold extractVideoParams. cbn [Params.h265ProfileId].
    destruct (Regex.search h265ProfileRe sdp); [reflexivity|contradiction].
Qed.

Lemma codec_classification_witness :
  State.codecType
    (state (step init (RemoteDescription
                         (sdp_h264_prefix ++ "m=video" ++ " 9 UDP/TLS/RTP/SAVPF 96" ++
                          CRLF ++ "c=IN IP4 0.0.0.0" ++ CRLF ++
                          "a=rtpmap:96 H264/90000" ++ sdp_h264_rest))))
  = Some "H264/AVC" /\
  State.codecType (state (step init (RemoteDescription sdp_profile_only)))
  = Some "H265/HEVC".
Proof.
  destruct codec_classification as [H264 H265]. split.
  - apply H264; reflexivity.
  - apply H265; reflexivity.
Defined.

(** C2 (defect of the code).  The pattern written under the comment
    "Extract video codec" skips exactly one line after the media line, so it
    misses the payload mapping of an ordinary description.  This remote
    description contains the line [a=rtpmap:96 H264/90000] as the third line
    after the media line: no codec name is extracted and the codec identity
    stays unset instead of becoming H264/AVC.  On an ordinary VP9 answer,
    which contains [a=rtpmap:98 VP9/90000] and the VP9 parameter
    [profile-id=1], the same miss makes the profile fallback label the
    stream H265/HEVC. *)
Theorem late_rtpmap_is_not_classified :
  JsString.includes (CRLF ++ "a=rtpmap:96 H264/90000" ++ CRLF) sdp_late_rtpmap = true /\
  Params.codec (extractVideoParams sdp_late_rtpmap) = None /\
  State.codecType (state (step init (RemoteDescription sdp_late_rtpmap))) = None /\
  State.codecType (state (step init (RemoteDescription sdp_late_rtpmap)))
  <> Some "H264/AVC" /\
  JsString.includes (CRLF ++ "a=rtpmap:98 VP9/90000" ++ CRLF) sdp_vp9_profile_1 = true /\
  Params.codec (extractVideoParams sdp_vp9_profile_1) = None /\
  State.codecType (state (step init (RemoteDescription sdp_vp9_profile_1)))
  = Some "H265/HEVC".
Proof. repeat split. discriminate. Qed.

(** ** Maximum observed frame rate *)

Lemma Qgtb_true a b : Qgtb a b = true -> b < a.
Proof.
  unfold Qgtb. intros H. apply negb_true_iff in H.
  apply Qnot_le_lt. intros Hle. apply Qle_bool_iff in Hle. congruence.
Qed.

Lemma Qgtb_false a b : Qgtb a b = false -> a <= b.
Proof.
  unfold Qgtb. intros H. apply negb_false_iff in H. now apply Qle_bool_iff.
Qed.

Lemma keptOrRaised_refl p : keptOrRaised p p.
Proof. now left. Qed.

Lemma keptOrRaised_same p p' :
  performanceMetrics p' = performanceMetrics p -> keptOrRaised p p'.
Proof. unfold keptOrRaised, maxFpsAchieved. intros ->. now left. Qed.

Lemma keptOrRaised_trans p q r :
  keptOrRaised p q -> keptOrRaised q r -> keptOrRaised p r.
Proof.
  unfold keptOrRaised. intros [H1|H1] [H2|H2].
  - left. congruence.
  - right. now rewrite <- H1.
  - right. now rewrite H2.
  - right. eapply Qlt_trans; eassumption.
Qed.

Lemma keptOrRaised_le p p' : keptOrRaised p p' -> maxFpsAchieved p <= maxFpsAchieved p'.
Proof. intros [H|H]; [rewrite H; apply Qle_refl|now apply Qlt_le_weak]. Qed.

Lemma maxFps_parseVideo now stat p :
  maxFpsAchieved (fst (parseVideo now stat p)) =
  if Qgtb (currentFps stat p) (maxFpsAchieved p)
  then currentFps stat p else maxFpsAchieved p.
Proof.
  unfold parseVideo, currentFps, maxFpsAchieved. cbv zeta.
  destruct (Qgtb (_ - _) 0); cbn;
    destruct (Qeq_bool _ 0); destruct (Qgtb _ _); reflexivity.
Qed.

Lemma keptOrRaised_parseVideo now stat p :
  keptOrRaised p (fst (parseVideo now stat p)).
Proof.
  unfold keptOrRaised. rewrite maxFps_parseVideo.
  destruct (Qgtb _ _) eqn:E; [right; now apply Qgtb_true|now left].
Qed.

Lemma keptOrRaised_parseStat now acc stat :
  keptOrRaised (fst acc) (fst (parseStat now acc stat)).
Proof.
  destruct acc as [p report]. unfold parseStat. cbv zeta.
  destruct (_ && _).
  - pose proof (keptOrRaised_parseVideo now stat p) as H.
    destruct (parseVideo now stat p); exact H.
  - destruct (_ && _); [apply keptOrRaised_same; reflexivity|].
    destruct (_ && _); [apply keptOrRaised_refl|].
    destruct (String.eqb _ _); apply keptOrRaised_refl.
Qed.

Lemma keptOrRaised_parseStats now stats : forall acc,
  keptOrRaised (fst acc) (fst (fold_left (parseStat now) stats acc)).
Proof.
  induction stats as [|stat stats IH]; intros acc; [apply keptOrRaised_refl|].
  cbn [fold_left]. eapply keptOrRaised_trans; [apply keptOrRaised_parseStat|apply IH].
Qed.

Lemma maxFps_onFrame_body m now presented p :
  let fps := ((frameCount m + (presented - lastPresentedFrames m)) * 1000)
             / (now - lastTime m) in
  let p' := snd (onFrame_body m now presented p) in
  maxFpsAchieved p' =
  if Qle_bool 1000 (now - lastTime m) && Qgtb fps (maxFpsAchieved p)
  then fps else maxFpsAchieved p.
Proof.
  unfold onFrame_body, maxFpsAchieved. cbv zeta.
  destruct (Qle_bool 1000 _); cbn; [|reflexivity].
  destruct (Qgtb _ _); reflexivity.
Qed.

Lemma keptOrRaised_onFrame i now presented p :
  keptOrRaised p (onFrame i now presented p).
Proof.
  unfold onFrame. destruct (nth_error _ _) as [m|]; [|apply keptOrRaised_refl].
  destruct (registered m); [|apply keptOrRaised_refl].
  pose proof (maxFps_onFrame_body m now presented p) as H. cbv zeta in H.
  destruct (onFrame_body m now presented p) as [m' p'].
  unfold keptOrRaised.
  change (maxFpsAchieved (with_monitors _ p')) with (maxFpsAchieved p').
  cbn [snd] in H. rewrite H.
  destruct (Qle_bool _ _); cbn [andb]; [|now left].
  destruct (Qgtb _ _) eqn:E; [right; now apply Qgtb_true|now left].
Qed.

Lemma keptOrRaised_step p e : keptOrRaised p (step p e).
Proof.
  destruct e; cbn [step].
  - unfold onConnectionStateChange, attemptReconnect. split_ifs;
      apply keptOrRaised_same; unfold updateConnectionStatus;
      cbn [String.eqb Ascii.eqb Bool.eqb]; reflexivity.
  - unfold fireTimer. destruct (nth_error _ _) as [t|]; [|apply keptOrRaised_refl].
    destruct (callback t); apply keptOrRaised_same; reflexivity.
  - apply keptOrRaised_same; reflexivity.
  - apply keptOrRaised_same; reflexivity.
  - apply keptOrRaised_same; reflexivity.
  - apply keptOrRaised_same; reflexivity.
  - unfold ontrack, monitorVideoTrack. split_ifs; apply keptOrRaised_same; reflexivity.
  - apply keptOrRaised_onFrame.
  - unfold updateDebugInfo.
    pose proof (keptOrRaised_parseStats now stats (p, Report.empty)) as H.
    unfold parseStats.
    destruct (fold_left (parseStat now) stats (p, Report.empty)) as [p1 r].
    exact H.
Qed.

Lemma keptOrRaised_run evs : forall p, keptOrRaised p (run evs p).
Proof.
  unfold run. induction evs as [|e evs IH]; intros p; [apply keptOrRaised_refl|].
  cbn [fold_left]. eapply keptOrRaised_trans; [apply keptOrRaised_step|apply IH].
Qed.

(** C7.  The maximum observed frame rate never decreases: every delivered
    callback either keeps it or replaces it by a strictly larger value, hence
    it is non-decreasing along every history.  The two updates, in the
    presentation monitor and in the statistics sampler, store the current
    measurement exactly when it strictly exceeds the running maximum. *)
Theorem maxFps_is_monotone :
  (forall p e,
      maxFpsAchieved (step p e) = maxFpsAchieved p \/
      maxFpsAchieved p < maxFpsAchieved (step p e)) /\
  (forall evs p, maxFpsAchieved p <= maxFpsAchieved (run evs p)) /\
  (forall evs1 evs2 p,
      maxFpsAchieved (run evs1 p) <= maxFpsAchieved (run (evs1 ++ evs2) p)) /\
  (forall m now presented p,
      maxFpsAchieved (snd (onFrame_body m now presented p)) =
      if Qle_bool 1000 (now - lastTime m) &&
         Qgtb (((frameCount m + (presented - lastPresentedFrames m)) * 1000)
               / (now - lastTime m))
              (maxFpsAchieved p)
      then ((frameCount m + (presented - lastPresentedFrames m)) * 1000)
           / (now - lastTime m)
      else maxFpsAchieved p) /\
  (forall now stat p,
      maxFpsAchieved (fst (parseVideo now stat p)) =
      if Qgtb (currentFps stat p) (maxFpsAchieved p)
      then currentFps stat p else maxFpsAchieved p).
Proof.
  split; [exact keptOrRaised_step|].
  split; [intros; apply keptOrRaised_le, keptOrRaised_run|].
  split.
  - intros evs1 evs2 p. unfold run. rewrite fold_left_app.
    apply keptOrRaised_le, keptOrRaised_run.
  - split; [exact maxFps_onFrame_body|exact maxFps_parseVideo].
Qed.

(** ** Bounded history *)

Lemma pushHistory_length {A} (buf : list A) (v : A) :
  (List.length buf <= 60)%nat -> (List.length (pushHistory buf v) <= 60)%nat.
Proof.
  intros H. unfold pushHistory, STATS_HISTORY_SIZE. cbv zeta.
  destruct (Nat.ltb_spec 60 (List.length (buf ++ [v]))) as [Hlt|Hge]; [|exact Hge].
  rewrite length_app in Hlt. cbn in Hlt.
  destruct buf; cbn in *; [lia|]. rewrite length_app. cbn. lia.
Qed.

Lemma pushHistory_lastN {A} (buf : list A) (v : A) :
  (List.length buf <= 60)%nat -> pushHistory buf v = lastN 60 (buf ++ [v]).
Proof.
  intros H. unfold pushHistory, STATS_HISTORY_SIZE, lastN. cbv zeta.
  rewrite length_app. cbn [List.length].
  destruct (Nat.ltb_spec 60 (List.length buf + 1)) as [Hlt|Hge].
  - replace (List.length buf + 1 - 60)%nat with 1%nat by lia.
    destruct buf; reflexivity.
  - replace (List.length buf + 1 - 60)%nat with 0%nat by lia. reflexivity.
Qed.

Lemma lastN_push {A} (buf : list A) (v : A) (vs : list A) :
  (List.length buf <= 60)%nat ->
  lastN 60 (pushHistory buf v ++ vs) = lastN 60 (buf ++ v :: vs).
Proof.
  intros H. unfold pushHistory, STATS_HISTORY_SIZE, lastN. cbv zeta.
  rewrite (length_app buf [v]). cbn [List.length].
  destruct (Nat.ltb_spec 60 (List.length buf + 1)) as [Hlt|Hge].
  - destruct buf as [|b buf]; [cbn in Hlt; lia|].
    cbn [app tl]. rewrite <- app_assoc. cbn [app].
    cbn [List.length] in *. rewrite !length_app. cbn [List.length].
    replace (S (List.length buf + S (List.length vs)) - 60)%nat
      with (S (List.length buf + S (List.length vs) - 60))%nat by lia.
    reflexivity.
  - rewrite <- app_assoc. reflexivity.
Qed.

Lemma pushAll_lastN {A} (vs : list A) : forall buf,
  (List.length buf <= 60)%nat -> pushAll buf vs = lastN 60 (buf ++ vs).
Proof.
  unfold pushAll. induction vs as [|v vs IH]; intros buf H; cbn [fold_left].
  - rewrite app_nil_r. unfold lastN.
    replace (List.length buf - 60)%nat with 0%nat by lia. reflexivity.
  - rewrite IH by now apply pushHistory_length. now apply lastN_push.
Qed.

Lemma pushAll_length {A} (vs : list A) : forall buf,
  (List.length buf <= 60)%nat -> (List.length (pushAll buf vs) <= 60)%nat.
Proof.
  unfold pushAll. induction vs as [|v vs IH]; intros buf H; cbn [fold_left]; [exact H|].
  apply IH. now apply pushHistory_length.
Qed.

Lemma statsHistory_onFrame i now presented p :
  statsHistory (onFrame i now presented p) = statsHistory p.
Proof.
  unfold onFrame. destruct (nth_error _ _) as [m|]; [|reflexivity].
  destruct (registered m); [|reflexivity].
  unfold onFrame_body. cbv zeta. split_ifs; reflexivity.
Qed.

(** Only a statistics sample touches the history. *)
Lemma statsHistory_step p e :
  statsHistory (step p e) =
  match e with
  | StatsSampled now stats =>
      updateStatsHistory (snd (parseStats now stats p)) (statsHistory p)
  | _ => statsHistory p
  end.
Proof.
  destruct e; cbn [step]; try reflexivity.
  - unfold onConnectionStateChange, attemptReconnect, updateConnectionStatus.
    split_ifs; reflexivity.
  - unfold fireTimer. destruct (nth_error _ _) as [t|]; [|reflexivity].
    destruct (callback t); reflexivity.
  - unfold ontrack, monitorVideoTrack. split_ifs; reflexivity.
  - apply statsHistory_onFrame.
  - unfold updateDebugInfo.
    pose proof (parseStats_frame now stats p) as H.
    destruct (parseStats now stats p) as [p1 r]. cbn in H |- *.
    destruct H as (_ & _ & _ & H & _). now rewrite H.
Qed.

Lemma series_update m r h :
  series m (updateStatsHistory r h) = pushIfDefined (series m h) (sample m r).
Proof. destruct m; reflexivity. Qed.

Lemma series_update_length m r h :
  (List.length (series m h) <= 60)%nat ->
  (List.length (series m (updateStatsHistory r h)) <= 60)%nat.
Proof.
  intros H. rewrite series_update. unfold pushIfDefined.
  destruct (sample m r); [now apply pushHistory_length|exact H].
Qed.

Lemma series_run_length m evs : forall p,
  (List.length (series m (statsHistory p)) <= 60)%nat ->
  (List.length (series m (statsHistory (run evs p))) <= 60)%nat.
Proof.
  unfold run. induction evs as [|e evs IH]; intros p H; cbn [fold_left]; [exact H|].
  apply IH. rewrite statsHistory_step.
  destruct e; try exact H. now apply series_update_length.
Qed.

Lemma series_recordAll m rs : forall h,
  (List.length (series m h) <= 60)%nat ->
  series m (recordAll rs h) = lastN 60 (series m h ++ samples m rs).
Proof.
  unfold recordAll, samples.
  induction rs as [|r rs IH]; intros h H; cbn [fold_left flat_map].
  - rewrite app_nil_r. unfold lastN.
    replace (List.length (series m h) - 60)%nat with 0%nat by lia. reflexivity.
  - rewrite IH by now apply series_update_length.
    rewrite series_update. unfold pushIfDefined.
    destruct (sample m r); [|reflexivity].
    cbn [app]. now apply lastN_push.
Qed.

(** C4.  Every series of the history, after any sequence of delivered
    callbacks since initialisation, holds at most 60 values.  A series that is
    within capacity stays so under any sequence of pushes and then holds the
    last 60 of its old content followed by the pushed values, oldest first;
    this holds for the generic push and for the reports fed to
    [updateStatsHistory].  In particular 100 values pushed into an empty
    series leave exactly the last 60 of them in their order of insertion. *)
Theorem history_is_bounded :
  (forall evs m,
      (List.length (series m (statsHistory (run evs init))) <= 60)%nat) /\
  (forall (buf vs : list number),
      (List.length buf <= 60)%nat ->
      (List.length (pushAll buf vs) <= 60)%nat /\
      pushAll buf vs = lastN 60 (buf ++ vs)) /\
  (forall m rs h,
      (List.length (series m h) <= 60)%nat ->
      (List.length (series m (recordAll rs h)) <= 60)%nat /\
      series m (recordAll rs h) = lastN 60 (series m h ++ samples m rs)) /\
  (forall vs : list number,
      List.length vs = 100%nat -> pushAll [] vs = skipn 40 vs) /\
  (forall m rs,
      List.length (samples m rs) = 100%nat ->
      series m (recordAll rs (statsHistory init)) = skipn 40 (samples m rs)).
Proof.
  split; [|split; [|split; [|split]]].
  - intros evs m. apply series_run_length. destruct m; cbn; lia.
  - intros buf vs H. split; [now apply pushAll_length|now apply pushAll_lastN].
  - intros m rs h H. split; [|now apply series_recordAll].
    unfold recordAll. revert h H.
    induction rs as [|r rs IH]; intros h H; cbn [fold_left]; [exact H|].
    apply IH. now apply series_update_length.
  - intros vs H. rewrite pushAll_lastN by (cbn; lia).
    unfold lastN. cbn [app]. now rewrite H.
  - intros m rs H. rewrite series_recordAll by (destruct m; cbn; lia).
    replace (series m (statsHistory init)) with (@nil number)
      by (destruct m; reflexivity).
    unfold lastN. cbn [app]. now rewrite H.
Qed.

Lemma history_is_bounded_witness :
  (List.length (pushAll [Fin 7] hundred) <= 60)%nat /\
  (List.length (series MBitrate (recordAll hundred_reports (statsHistory init)))
   <= 60)%nat /\
  pushAll [] hundred = skipn 40 hundred /\
  series MBitrate (recordAll hundred_reports (statsHistory init))
  = skipn 40 hundred.
Proof.
  destruct history_is_bounded as (_ & Hpush & Hany & H100 & Hrec).
  split; [|split; [|split]].
  - apply (Hpush [Fin 7] hundred). cbn. lia.
  - apply (Hany MBitrate hundred_reports (statsHistory init)). cbn. lia.
  - apply H100. reflexivity.
  - apply (Hrec MBitrate hundred_reports). reflexivity.
Defined.

(** C8.  No delivered callback changes the packetLoss, jitter and
    keyFrameInterval series, so they are empty after any history that starts
    at initialisation; the other six series do receive samples. *)
Theorem untracked_series_stay_empty :
  (forall p e,
      History.packetLoss (statsHistory (step p e)) = History.packetLoss (statsHistory p) /\
      History.jitter (statsHistory (step p e)) = History.jitter (statsHistory p) /\
      History.keyFrameInterval (statsHistory (step p e))
      = History.keyFrameInterval (statsHistory p)) /\
  (forall evs,
      History.packetLoss (statsHistory (run evs init)) = [] /\
      History.jitter (statsHistory (run evs init)) = [] /\
      History.keyFrameInterval (statsHistory (run evs init)) = []) /\
  (forall m,
      List.length (series m (statsHistory (step init (StatsSampled 0 full_sample)))) =
      match m with
      | MPacketLoss | MJitter | MKeyFrameInterval => 0%nat
      | _ => 1%nat
      end).
Proof.
  assert (Hstep : forall p e,
             History.packetLoss (statsHistory (step p e))
             = History.packetLoss (statsHistory p) /\
             History.jitter (statsHistory (step p e)) = History.jitter (statsHistory p) /\
             History.keyFrameInterval (statsHistory (step p e))
             = History.keyFrameInterval (statsHistory p)).
  { intros p e. rewrite statsHistory_step. destruct e; repeat split. }
  split; [exact Hstep|]. split.
  - intros evs. unfold run.
    assert (G : forall p,
               History.packetLoss (statsHistory (fold_left step evs p))
               = History.packetLoss (statsHistory p) /\
               History.jitter (statsHistory (fold_left step evs p))
               = History.jitter (statsHistory p) /\
               History.keyFrameInterval (statsHistory (fold_left step evs p))
               = History.keyFrameInterval (statsHistory p)).
    { induction evs as [|e evs IH]; intros p; cbn [fold_left]; [repeat split|].
      destruct (IH (step p e)) as (a & b & c), (Hstep p e) as (a' & b' & c').
      repeat split; congruence. }
    apply (G init).
  - intros m. destruct m; reflexivity.
Qed.

(** ** Derived rates *)

Lemma timeDiff_nonzero stat prev : ~ timeDiff stat prev == 0.
Proof.
  unfold timeDiff.
  destruct (Stat.timestamp stat) as [t|]; [|discriminate].
  destruct (prevField prev Stat.timestamp) as [t0|]; [|discriminate].
  cbv zeta. destruct (Qeq_bool _ 0) eqn:E; [discriminate|].
  now apply Qeq_bool_neq.
Qed.

Lemma div_Fin_nonzero a b : ~ b == 0 -> div (Fin a) (Fin b) = Fin (a / b).
Proof.
  intros H. unfold div. destruct (b ?= 0) eqn:E; try reflexivity.
  exfalso. apply H. now apply Qeq_alt.
Qed.

Lemma bitrateOf_defined stat prev b1 :
  Stat.bytesReceived stat = Some b1 ->
  bitrateOf stat prev =
  Fin ((b1 - or0 (prevField prev Stat.bytesReceived)) * 8 / timeDiff stat prev).
Proof.
  intros Hb. unfold bitrateOf. rewrite Hb. cbn [ofField sub add neg mul].
  now rewrite div_Fin_nonzero by apply timeDiff_nonzero.
Qed.

Lemma timeDiff_positive stat prev :
  (forall t1 t0, Stat.timestamp stat = Some t1 ->
                 prevField prev Stat.timestamp = Some t0 -> t0 <= t1) ->
  0 < timeDiff stat prev.
Proof.
  intros H. unfold timeDiff.
  destruct (Stat.timestamp stat) as [t|]; [|reflexivity].
  destruct (prevField prev Stat.timestamp) as [t0|]; [|reflexivity].
  specialize (H t t0 eq_refl eq_refl). cbv zeta.
  destruct (Qeq_bool _ 0) eqn:E; [reflexivity|].
  apply Qeq_bool_neq in E.
  assert (Hd : 0 <= (t - t0) / 1000).
  { apply Qle_shift_div_l; [reflexivity|]. lra. }
  apply Qle_lteq in Hd. destruct Hd as [Hd|Hd]; [exact Hd|].
  exfalso. apply E. now symmetry.
Qed.

(** C5.  The bitrate of a video report is the byte difference to the
    previous snapshot (a missing previous count reads 0), times 8, divided
    by the interval in seconds; the audio report is computed alike.  The
    interval is the timestamp difference divided by 1000 when both
    timestamps exist and differ, and 1 when they coincide or when there is
    no previous snapshot.  From A (1000 bytes, t = 0) to B (2000 bytes,
    t = 1000 ms) the bitrate is 8000.  A byte count below the previous one,
    with timestamps that do not go backwards, gives a negative bitrate. *)
Theorem bitrate_formula :
  (forall now stat p,
      Video.bitrate (snd (parseVideo now stat p)) = bitrateOf stat (lastVideo p)) /\
  (forall stat p,
      Audio.bitrate (snd (parseAudio stat p)) = bitrateOf stat (lastAudio p)) /\
  (forall stat prev b1,
      Stat.bytesReceived stat = Some b1 ->
      bitrateOf stat prev =
      Fin ((b1 - or0 (prevField prev Stat.bytesReceived)) * 8 / timeDiff stat prev)) /\
  (forall stat prev t1 t0,
      Stat.timestamp stat = Some t1 -> Stat.timestamp prev = Some t0 ->
      (~ t1 == t0 -> timeDiff stat (Some prev) == (t1 - t0) / 1000) /\
      (t1 == t0 -> timeDiff stat (Some prev) = 1)) /\
  (forall stat, timeDiff stat None = 1) /\
  eqv (bitrateOf snapshot_B (Some snapshot_A)) (Fin 8000) /\
  (exists b, videoBitrate 2000 [snapshot_B] (fst (parseStats 1000 [snapshot_A] init))
             = Some b /\ eqv b (Fin 8000)) /\
  (forall stat prev b1,
      Stat.bytesReceived stat = Some b1 ->
      b1 < or0 (prevField prev Stat.bytesReceived) ->
      (forall t1 t0, Stat.timestamp stat = Some t1 ->
                     prevField prev Stat.timestamp = Some t0 -> t0 <= t1) ->
      exists q, bitrateOf stat prev = Fin q /\ q < 0).
Proof.
  split; [reflexivity|]. split; [reflexivity|].
  split; [exact bitrateOf_defined|].
  split; [|split; [|split; [|split]]].
  - intros stat prev t1 t0 H1 H0. unfold timeDiff. cbn [prevField].
    rewrite H1, H0. cbv zeta. split; intros H.
    + destruct (Qeq_bool _ 0) eqn:E; [|reflexivity].
      exfalso. apply H. apply Qeq_bool_iff in E.
      assert (E' : t1 - t0 == 0).
      { rewrite <- (Qmult_div_r (t1 - t0) 1000) by discriminate.
        rewrite E. ring. }
      lra.
    + assert (E : Qeq_bool ((t1 - t0) / 1000) 0 = true).
      { apply Qeq_bool_iff. rewrite H. unfold Qdiv. ring. }
      now rewrite E.
  - intros stat. unfold timeDiff. now destruct (Stat.timestamp stat).
  - reflexivity.
  - eexists. split; [reflexivity|]. reflexivity.
  - intros stat prev b1 Hb Hlt Hts.
    rewrite (bitrateOf_defined stat prev b1 Hb). eexists. split; [reflexivity|].
    pose proof (timeDiff_positive stat prev Hts) as Hpos.
    apply Qlt_shift_div_r; [exact Hpos|]. lra.
Qed.

Lemma bitrate_formula_witness :
  bitrateOf snapshot_B (Some snapshot_A)
  = Fin ((2000 - 1000) * 8 / ((1000 - 0) / 1000)) /\
  timeDiff snapshot_B (Some snapshot_A) == (1000 - 0) / 1000 /\
  timeDiff snapshot_A (Some snapshot_A) = 1 /\
  (exists q, bitrateOf (byte_snapshot 500 3000) (Some snapshot_B) = Fin q /\ q < 0).
Proof.
  destruct bitrate_formula as (_ & _ & Hf & Ht & _ & _ & _ & Hneg).
  split; [|split; [|split]].
  - apply (Hf snapshot_B (Some snapshot_A) 2000). reflexivity.
  - apply (proj1 (Ht snapshot_B snapshot_A 1000 0 eq_refl eq_refl)). discriminate.
  - apply (proj2 (Ht snapshot_A snapshot_A 0 0 eq_refl eq_refl)). reflexivity.
  - apply (Hneg (byte_snapshot 500 3000) (Some snapshot_B) 500 eq_refl); [reflexivity|].
    intros t1 t0 H1 H0. cbn in H1, H0.
    injection H1 as <-. injection H0 as <-. discriminate.
Defined.

Lemma ratio_percent a b :
  0 <= a -> a <= b -> 0 < b -> 0 <= a / b * 100 /\ a / b * 100 <= 100.
Proof.
  intros Ha Hab Hb.
  assert (H0 : 0 <= a / b) by (apply Qle_shift_div_l; [exact Hb|lra]).
  assert (H1 : a / b <= 1) by (apply Qle_shift_div_r; [exact Hb|lra]).
  split; lra.
Qed.

Lemma toFixed2Q_bounds q :
  0 <= q -> q <= 100 -> 0 <= toFixed2Q q /\ toFixed2Q q <= 100.
Proof.
  intros H0 H100. unfold toFixed2Q. cbv zeta.
  pose proof (Qabs_pos q H0) as Habs.
  assert (Hbig : Qle_bool (inject_Z (10 ^ 21)) (Qabs q) = false).
  { destruct (Qle_bool _ _) eqn:E; [|reflexivity].
    apply Qle_bool_iff in E. rewrite Habs in E.
    assert (100 < inject_Z (10 ^ 21)) by reflexivity. lra. }
  rewrite Hbig.
  assert (Hpos : Qle_bool 0 q = true) by now apply Qle_bool_iff.
  rewrite Hpos.
  assert (Hlo : (0 <= Qfloor (Qabs q * 100 + (1 # 2)))%Z).
  { change 0%Z with (Qfloor 0). apply Qfloor_resp_le. rewrite Habs. lra. }
  assert (Hhi : (Qfloor (Qabs q * 100 + (1 # 2)) <= 10000)%Z).
  { change 10000%Z with (Qfloor (20001 # 2)). apply Qfloor_resp_le.
    rewrite Habs. lra. }
  rewrite Zle_Qle in Hlo, Hhi.
  change (inject_Z 0) with 0 in Hlo. change (inject_Z 10000) with 10000 in Hhi.
  split.
  - apply Qle_shift_div_l; [reflexivity|]. lra.
  - apply Qle_shift_div_r; [reflexivity|]. lra.
Qed.

Lemma lossRate_bounds lost received :
  0 <= lost -> 0 <= received ->
  exists r, lossRate lost received = Fin r /\ 0 <= r /\ r <= 100.
Proof.
  intros Hl Hr. unfold lossRate.
  destruct (Qgtb received 0) eqn:E.
  - apply Qgtb_true in E.
    rewrite div_Fin_nonzero by lra. cbn [mul toFixed2].
    eexists. split; [reflexivity|].
    apply toFixed2Q_bounds; apply ratio_percent; lra.
  - exists 0. repeat split; lra.
Qed.

Lemma toFixed2Q_near q :
  0 <= q -> q <= 100 ->
  (exists n : Z, toFixed2Q q == inject_Z n / 100) /\
  Qabs (toFixed2Q q - q) <= 1 # 200.
Proof.
  intros H0 H100. unfold toFixed2Q. cbv zeta.
  pose proof (Qabs_pos q H0) as Habs.
  assert (Hbig : Qle_bool (inject_Z (10 ^ 21)) (Qabs q) = false).
  { destruct (Qle_bool _ _) eqn:E; [|reflexivity].
    apply Qle_bool_iff in E. rewrite Habs in E.
    assert (100 < inject_Z (10 ^ 21)) by reflexivity. lra. }
  rewrite Hbig.
  assert (Hpos : Qle_bool 0 q = true) by now apply Qle_bool_iff.
  rewrite Hpos.
  split; [eexists; reflexivity|].
  pose proof (Qfloor_le (Qabs q * 100 + (1 # 2))) as Hlo.
  pose proof (Qlt_floor (Qabs q * 100 + (1 # 2))) as Hhi.
  rewrite inject_Z_plus in Hhi. change (inject_Z 1) with 1 in Hhi.
  set (n := inject_Z (Qfloor (Qabs q * 100 + (1 # 2)))) in *.
  set (a := Qabs q) in *.
  apply Qabs_Qle_condition.
  assert (E : n / 100 - q == (n - q * 100) / 100) by (field; discriminate).
  rewrite E. split.
  - apply Qle_shift_div_l; [reflexivity|]. lra.
  - apply Qle_shift_div_r; [reflexivity|]. lra.
Qed.

(** The displayed loss rate is the quotient of the source, times 100, rounded
    to hundredths. *)
Lemma lossRate_formula lost received :
  0 <= lost -> 0 < received ->
  exists r, lossRate lost received = Fin r /\
            (exists n : Z, r == inject_Z n / 100) /\
            Qabs (r - lost / (lost + received) * 100) <= 1 # 200.
Proof.
  intros Hl Hr. unfold lossRate.
  assert (E : Qgtb received 0 = true).
  { unfold Qgtb. apply negb_true_iff. destruct (Qle_bool received 0) eqn:K; [|reflexivity].
    apply Qle_bool_iff in K. exfalso. lra. }
  rewrite E, div_Fin_nonzero by lra. cbn [mul toFixed2].
  eexists. split; [reflexivity|].
  apply toFixed2Q_near; apply ratio_percent; lra.
Qed.

(** C3.  Take the previous video snapshot of the player and a current one
    such that framesDecoded, framesDropped, packetsLost and packetsReceived
    are non-negative and have not decreased.  Then the frame-drop rate of the
    report is droppedDelta / (decodedDelta + droppedDelta) * 100, or 0 when
    that denominator is not positive, and lies in [0, 100].  The packet-loss
    rate displayed for any report carrying this video part is a finite
    number in [0, 100]; it is 0 when no packet was received, and otherwise it
    is lost / (lost + received) * 100 over the cumulative counters, itself in
    [0, 100], printed with two decimals: a multiple of 1/100 no further than
    1/200 from that value. *)
Theorem rates_within_bounds :
  forall now stat p,
    nonDecreasing Stat.framesDecoded (lastVideo p) stat ->
    nonDecreasing Stat.framesDropped (lastVideo p) stat ->
    nonDecreasing Stat.packetsLost (lastVideo p) stat ->
    nonDecreasing Stat.packetsReceived (lastVideo p) stat ->
    let v := snd (parseVideo now stat p) in
    let decodedDelta :=
      or0 (Stat.framesDecoded stat) - or0 (prevField (lastVideo p) Stat.framesDecoded) in
    let droppedDelta :=
      or0 (Stat.framesDropped stat) - or0 (prevField (lastVideo p) Stat.framesDropped) in
    Video.frameDropRate v =
      (if Qgtb (decodedDelta + droppedDelta) 0
       then droppedDelta / (decodedDelta + droppedDelta) * 100 else 0) /\
    0 <= Video.frameDropRate v /\ Video.frameDropRate v <= 100 /\
    (forall report, Report.video report = Some v ->
       exists r, packetLossRate report = Some (Fin r) /\ 0 <= r /\ r <= 100) /\
    (forall report, Report.video report = Some v ->
       or0 (Stat.packetsReceived stat) == 0 -> packetLossRate report = Some (Fin 0)) /\
    (forall report, Report.video report = Some v ->
       0 < or0 (Stat.packetsReceived stat) ->
       let lost := or0 (Stat.packetsLost stat) in
       let received := or0 (Stat.packetsReceived stat) in
       0 <= lost / (lost + received) * 100 /\
       lost / (lost + received) * 100 <= 100 /\
       exists r, packetLossRate report = Some (Fin r) /\
                 (exists n : Z, r == inject_Z n / 100) /\
                 Qabs (r - lost / (lost + received) * 100) <= 1 # 200).
Proof.
  intros now stat p [Hd0 Hd] [Hr0 Hr] [Hl0 Hl] [Hp0 Hp] v decodedDelta droppedDelta.
  assert (Hrate : Video.frameDropRate v =
                  if Qgtb (decodedDelta + droppedDelta) 0
                  then droppedDelta / (decodedDelta + droppedDelta) * 100 else 0).
  { subst v. unfold parseVideo. cbv zeta. reflexivity. }
  split; [exact Hrate|].
  assert (Hb : 0 <= Video.frameDropRate v /\ Video.frameDropRate v <= 100).
  { rewrite Hrate. destruct (Qgtb _ 0) eqn:E; [|split; lra].
    apply Qgtb_true in E. subst decodedDelta droppedDelta.
    apply ratio_percent; lra. }
  split; [apply Hb|]. split; [apply Hb|].
  assert (Hlost : Video.packetsLost v = or0 (Stat.packetsLost stat))
    by (subst v; unfold parseVideo; cbv zeta; reflexivity).
  assert (Hrecv : Video.packetsReceived v = or0 (Stat.packetsReceived stat))
    by (subst v; unfold parseVideo; cbv zeta; reflexivity).
  split; [|split].
  - intros report Hv. unfold packetLossRate. rewrite Hv. cbn [option_map].
    rewrite Hlost, Hrecv.
    destruct (lossRate_bounds (or0 (Stat.packetsLost stat))
                              (or0 (Stat.packetsReceived stat))) as (r & E & H);
      [lra|lra|].
    exists r. now rewrite E.
  - intros report Hv Hzero. unfold packetLossRate. rewrite Hv. cbn [option_map].
    rewrite Hrecv. unfold lossRate.
    assert (E : Qgtb (or0 (Stat.packetsReceived stat)) 0 = false).
    { unfold Qgtb. apply negb_false_iff, Qle_bool_iff. lra. }
    now rewrite E.
  - intros report Hv Hsome lost received.
    assert (Hlost0 : 0 <= lost) by (subst lost; lra).
    destruct (ratio_percent lost (lost + received)) as [F0 F100];
      [exact Hlost0|subst received; lra|subst received; lra|].
    split; [exact F0|]. split; [exact F100|].
    unfold packetLossRate. rewrite Hv. cbn [option_map].
    rewrite Hlost, Hrecv.
    destruct (lossRate_formula lost received Hlost0 Hsome) as (r & E & Hn & Hnear).
    exists r. subst lost received. rewrite E. auto.
Qed.

Lemma rates_within_bounds_witness :
  0 <= Video.frameDropRate (snd (parseVideo 1000 second_counters after_first)) /\
  Video.frameDropRate (snd (parseVideo 1000 second_counters after_first)) <= 100 /\
  Video.frameDropRate (snd (parseVideo 1000 second_counters after_first)) == 10 /\
  (exists r,
    packetLossRate
      {| Report.video := Some (snd (parseVideo 1000 second_counters after_first));
         Report.audio := None; Report.connection := Connection.empty |}
    = Some (Fin r) /\ 0 <= r /\ r <= 100) /\
  (exists r,
    packetLossRate
      {| Report.video := Some (snd (parseVideo 1000 second_counters after_first));
         Report.audio := None; Report.connection := Connection.empty |}
    = Some (Fin r) /\
    (exists n : Z, r == inject_Z n / 100) /\
    Qabs (r - 3 / (3 + 997) * 100) <= 1 # 200).
Proof.
  assert (H : forall f, f = Stat.framesDecoded \/ f = Stat.framesDropped \/
                        f = Stat.packetsLost \/ f = Stat.packetsReceived ->
                        nonDecreasing f (lastVideo after_first) second_counters).
  { intros f [ -> | [ -> | [ -> | -> ] ] ]; split; discriminate. }
  destruct (rates_within_bounds 1000 second_counters after_first
              (H _ (or_introl eq_refl))
              (H _ (or_intror (or_introl eq_refl)))
              (H _ (or_intror (or_intror (or_introl eq_refl))))
              (H _ (or_intror (or_intror (or_intror eq_refl)))))
    as (Hf & H0 & H100 & Hloss & _ & Hformula).
  split; [exact H0|]. split; [exact H100|]. split; [|split].
  - rewrite Hf. reflexivity.
  - apply Hloss. reflexivity.
  - pose proof (Hformula
                  {| Report.video :=
                       Some (snd (parseVideo 1000 second_counters after_first));
                     Report.audio := None; Report.connection := Connection.empty |}
                  eq_refl eq_refl) as K.
    cbv zeta in K. destruct K as (_ & _ & K). exact K.
Defined.

(** * Further properties of the player *)

(** ** Connection lifecycle *)

Lemma counter_step_bounded e p :
  (reconnectAttempts p <= 5)%nat -> (reconnectAttempts (step p e) <= 5)%nat.
Proof.
  intros H. destruct (isDisconnect e) eqn:Hd.
  - rewrite (counter_step_disconnect e p Hd).
    destruct (Nat.leb_spec 5 (reconnectAttempts p)); lia.
  - destruct (isConnected e) eqn:Hc.
    + destruct e; try discriminate. cbn. lia.
    + rewrite (counter_step_other e p Hd Hc). exact H.
Qed.

(** X1.  The reconnect counter never exceeds the ceiling of 5, whatever
    callbacks are delivered after initialisation, successful connections
    included. *)
Theorem ceiling_never_exceeded :
  forall evs, (reconnectAttempts (run evs init) <= MAX_RECONNECT_ATTEMPTS)%nat.
Proof.
  intros evs. unfold run, MAX_RECONNECT_ATTEMPTS.
  assert (G : forall p, (reconnectAttempts p <= 5)%nat ->
                        (reconnectAttempts (fold_left step evs p) <= 5)%nat).
  { induction evs as [|e evs IH]; intros p H; cbn [fold_left]; [exact H|].
    apply IH. now apply counter_step_bounded. }
  apply G. cbn. lia.
Qed.

(** X2.  A successful connection makes the player forget earlier losses:
    after any history, a success, and then a history without success that
    contains N loss notifications, the counter is min(N, 5). *)
Theorem counter_restarts_after_success :
  forall (p : Player) (before after : list Event) (now : Q),
    forallb (fun e => negb (isConnected e)) after = true ->
    reconnectAttempts (run (before ++ PlayResolved now :: after) p)
    = Nat.min (disconnects after) 5.
Proof.
  intros p before after now Hall. unfold run.
  rewrite fold_left_app. cbn [fold_left].
  change (fold_left step after ?q) with (run after q).
  rewrite counter_run; [reflexivity| |exact Hall].
  cbn. lia.
Qed.

Lemma counter_restarts_after_success_witness :
  reconnectAttempts (run losses_around_success init) = 3%nat.
Proof.
  apply (counter_restarts_after_success init
           [ConnectionStateChange "disconnected"; ConnectionStateChange "failed";
            TimerFired 0]
           [ConnectionStateChange "disconnected"; ConnectionStateChange "disconnected";
            ConnectionStateChange "failed"] 5000).
  reflexivity.
Defined.

Lemma filter_remove_nth_miss {A} (f : A -> bool) (l : list A) : forall i x,
  nth_error l i = Some x -> f x = false ->
  List.length (filter f (remove_nth i l)) = List.length (filter f l).
Proof.
  induction l as [|y l IH]; intros [|i] x Hn Hf; cbn in *; try discriminate.
  - injection Hn as ->. now rewrite Hf.
  - specialize (IH i x Hn Hf). destruct (f y); cbn; lia.
Qed.

Lemma reconnectTimers_step_untimed e p :
  (forall i, e <> TimerFired i) ->
  (reconnectTimers p <= reconnectTimers (step p e))%nat.
Proof.
  intros Hnt. destruct (isDisconnect e) eqn:Hd.
  - destruct (Nat.leb_spec 5 (reconnectAttempts p)) as [Hge|Hlt].
    + destruct (after_disconnect_at_ceiling e p Hd Hge) as (_ & H & _). lia.
    + destruct (after_disconnect_below_ceiling e p Hd Hlt) as (H & _). lia.
  - destruct e as [st|i|now|message|sdp|sdp|kind supported now|i now presented|now stats];
      cbn [step].
    + cbn in Hd. apply orb_false_iff in Hd. destruct Hd as [Hd Hf].
      unfold onConnectionStateChange. rewrite Hd, Hf.
      split_ifs; unfold reconnectTimers; cbn; try lia;
        rewrite filter_app, length_app; cbn; lia.
    + exfalso. eapply Hnt. reflexivity.
    + unfold reconnectTimers. cbn. rewrite <- !app_assoc, filter_app, length_app.
      cbn. lia.
    + unfold reconnectTimers. cbn. rewrite filter_app, length_app. cbn. lia.
    + unfold reconnectTimers. cbn. lia.
    + unfold reconnectTimers. cbn. lia.
    + unfold ontrack, monitorVideoTrack, reconnectTimers. split_ifs; cbn; lia.
    + unfold reconnectTimers. rewrite timers_onFrame. lia.
    + unfold updateDebugInfo, reconnectTimers.
      pose proof (parseStats_frame now stats p) as H.
      destruct (parseStats now stats p) as [p1 r].
      destruct H as (_ & H & _). cbn in H |- *. rewrite H. lia.
Qed.

(** X3.  A scheduled reconnection is never cancelled.  The number of pending
    reconnection timers goes down only when one of them expires, and its
    expiry restarts connection establishment (loading indicator and
    "Connecting..." status); in particular a [connected] notification of a
    transport that recovered by itself leaves them pending. *)
Theorem reconnection_is_never_cancelled :
  forall p e,
    (reconnectTimers (step p e) < reconnectTimers p)%nat ->
    exists i t,
      e = TimerFired i /\
      nth_error (timers p) i = Some t /\
      callback t = CbStartPlaying /\
      reconnectTimers (step p e) = (reconnectTimers p - 1)%nat /\
      Dom.loadingShown (dom (step p e)) = true /\
      Dom.statusText (dom (step p e)) = "Connecting...".
Proof.
  intros p e Hlt.
  destruct e as [st|i|now|message|sdp|sdp|kind supported now|i now presented|now stats];
    try (exfalso; revert Hlt; apply Nat.le_ngt, reconnectTimers_step_untimed;
         intros j; discriminate).
  cbn [step] in *. unfold fireTimer in *.
  destruct (nth_error (timers p) i) as [t|] eqn:Hn; [|lia].
  exists i, t. split; [reflexivity|]. split; [exact Hn|].
  destruct (callback t) eqn:Hc;
    try (exfalso; unfold reconnectTimers in Hlt; cbn in Hlt;
         rewrite (filter_remove_nth_miss isReconnectTimer (timers p) i t Hn) in Hlt;
         [lia|unfold isReconnectTimer; now rewrite Hc]).
  split; [reflexivity|]. split; [|split; reflexivity].
  unfold reconnectTimers. cbn.
  pose proof (filter_remove_nth_hit isReconnectTimer (timers p) i t Hn) as H.
  unfold isReconnectTimer in H at 1. rewrite Hc in H. specialize (H eq_refl). lia.
Qed.

Lemma reconnection_is_never_cancelled_witness :
  exists i t,
    TimerFired 0 = TimerFired i /\
    nth_error (timers one_loss) i = Some t /\
    callback t = CbStartPlaying /\
    reconnectTimers (step one_loss (TimerFired 0)) = (reconnectTimers one_loss - 1)%nat /\
    Dom.loadingShown (dom (step one_loss (TimerFired 0))) = true /\
    Dom.statusText (dom (step one_loss (TimerFired 0))) = "Connecting...".
Proof.
  apply (reconnection_is_never_cancelled one_loss (TimerFired 0)).
  vm_compute. lia.
Defined.

Lemma nth_error_middle {A} (l : list A) (x y : A) :
  nth_error ((l ++ [x]) ++ [y]) (List.length l) = Some x.
Proof.
  rewrite nth_error_app1 by (rewrite length_app; cbn; lia).
  rewrite nth_error_app2 by lia. now rewrite Nat.sub_diag.
Qed.

Lemma remove_nth_middle {A} (l : list A) (x y : A) :
  remove_nth (List.length l) ((l ++ [x]) ++ [y]) = (l ++ [y])%list.
Proof. induction l as [|a l IH]; cbn; [reflexivity|now rewrite IH]. Qed.

(** X4.  The timer that hides a "Connected" status hides whatever status is
    on display when it expires.  If the transport reports [connected] and
    then a loss before that timer expires, the "Reconnecting... (k/5)"
    indicator of the new attempt is hidden by it, while the reconnection
    itself stays scheduled. *)
Theorem stale_timer_hides_reconnecting_status :
  forall p,
    (reconnectAttempts p < 5)%nat ->
    let p' := run (recover_then_lose p) p in
    Dom.statusShown (dom p') = false /\
    Dom.statusText (dom p') =
      "Reconnecting... (" ++ JsString.ofNat (S (reconnectAttempts p)) ++ "/5)" /\
    State.connectionQuality (state p') = "connecting" /\
    reconnectTimers p' = S (reconnectTimers p).
Proof.
  intros p Hlt p'. subst p'.
  assert (Hc : (5 <=? State.reconnectAttempts (state p))%nat = false)
    by (apply Nat.leb_gt; exact Hlt).
  unfold recover_then_lose, run. cbn [fold_left step].
  unfold onConnectionStateChange. cbn [String.eqb Ascii.eqb Bool.eqb].
  unfold attemptReconnect, MAX_RECONNECT_ATTEMPTS, updateConnectionStatus.
  cbn [String.eqb Ascii.eqb Bool.eqb with_state with_dom state set_connectionQuality
       State.reconnectAttempts setTimeout with_timers].
  rewrite Hc.
  unfold fireTimer, reconnectTimers, reconnectAttempts. cbn [timers setTimeout with_timers
    with_state with_dom].
  rewrite nth_error_middle. cbn [callback runCallback].
  cbn. rewrite remove_nth_middle, filter_app, length_app. cbn.
  repeat split. lia.
Qed.

Lemma stale_timer_hides_reconnecting_status_witness :
  Dom.statusShown (dom (run (recover_then_lose init) init)) = false /\
  Dom.statusText (dom (run (recover_then_lose init) init)) = "Reconnecting... (1/5)" /\
  State.connectionQuality (state (run (recover_then_lose init) init)) = "connecting" /\
  reconnectTimers (run (recover_then_lose init) init) = 1%nat.
Proof.
  apply (stale_timer_hides_reconnecting_status init). vm_compute. lia.
Defined.

(** ** Presentation monitor *)

Lemma parseVideo_frame_more now stat p :
  let p' := fst (parseVideo now stat p) in
  monitors p' = monitors p /\
  State.isPlaying (state p') = State.isPlaying (state p) /\
  State.codecType (state p') = State.codecType (state p) /\
  sdpRemote p' = sdpRemote p /\ sdpLocal p' = sdpLocal p /\
  lastAudio p' = lastAudio p /\ lastVideo p' = Some stat.
Proof. unfold parseVideo. cbv zeta. split_ifs; cbn; auto 10. Qed.

Lemma parseStat_frame_more now acc stat :
  let p := fst acc in
  let p' := fst (parseStat now acc stat) in
  monitors p' = monitors p /\
  State.isPlaying (state p') = State.isPlaying (state p) /\
  State.codecType (state p') = State.codecType (state p) /\
  sdpRemote p' = sdpRemote p /\ sdpLocal p' = sdpLocal p.
Proof.
  destruct acc as [p report]. unfold parseStat. cbv zeta.
  destruct (_ && _).
  - pose proof (parseVideo_frame_more now stat p) as H.
    destruct (parseVideo now stat p). cbn in H |- *. intuition.
  - destruct (_ && _); [cbn; auto|].
    destruct (_ && _); [cbn; auto|].
    destruct (String.eqb _ _); cbn; auto.
Qed.

Lemma parseStats_frame_more now stats p :
  let p' := fst (parseStats now stats p) in
  monitors p' = monitors p /\
  State.isPlaying (state p') = State.isPlaying (state p) /\
  State.codecType (state p') = State.codecType (state p) /\
  sdpRemote p' = sdpRemote p /\ sdpLocal p' = sdpLocal p.
Proof.
  unfold parseStats. generalize Report.empty as r. revert p.
  induction stats as [|stat stats IH]; intros p r; [cbn; auto|].
  cbn [fold_left].
  pose proof (parseStat_frame_more now (p, r) stat) as H.
  destruct (parseStat now (p, r) stat) as [p1 r1]. cbn in H.
  specialize (IH p1 r1). cbv zeta in IH.
  destruct H as (h1 & h2 & h3 & h4 & h5), IH as (i1 & i2 & i3 & i4 & i5).
  cbv zeta. repeat split; congruence.
Qed.

Lemma isPlaying_onFrame i now presented p :
  State.isPlaying (state (onFrame i now presented p)) = State.isPlaying (state p).
Proof.
  unfold onFrame. destruct (nth_error _ _) as [m|]; [|reflexivity].
  destruct (registered m); [|reflexivity].
  unfold onFrame_body. cbv zeta. split_ifs; reflexivity.
Qed.

(** No callback marks playback as stopped. *)
Lemma isPlaying_step p e :
  State.isPlaying (state p) = true -> State.isPlaying (state (step p e)) = true.
Proof.
  intros H.
  destruct e as [st|i|now|message|sdp|sdp|kind supported now|i now presented|now stats];
    cbn [step].
  - unfold onConnectionStateChange, attemptReconnect, updateConnectionStatus.
    split_ifs; exact H.
  - unfold fireTimer. destruct (nth_error _ _) as [t|]; [|exact H].
    destruct (callback t); exact H.
  - reflexivity.
  - exact H.
  - exact H.
  - exact H.
  - unfold ontrack, monitorVideoTrack. split_ifs; exact H.
  - now rewrite isPlaying_onFrame.
  - unfold updateDebugInfo.
    pose proof (parseStats_frame_more now stats p) as F.
    destruct (parseStats now stats p) as [p1 r]. cbn in F |- *.
    destruct F as (_ & F & _). now rewrite F.
Qed.

Lemma nth_error_replace_nth_same {A} (l : list A) (x : A) : forall i y,
  nth_error l i = Some y -> nth_error (replace_nth i x l) i = Some x.
Proof.
  induction l as [|a l IH]; intros [|i] y H; cbn in *; try discriminate; eauto.
Qed.

Lemma nth_error_replace_nth_other {A} (l : list A) (x : A) : forall i j,
  i <> j -> nth_error (replace_nth i x l) j = nth_error l j.
Proof.
  induction l as [|a l IH]; intros [|i] [|j] H; cbn; try reflexivity;
    try congruence.
  apply IH. congruence.
Qed.

(** The monitors after one callback: a video track appends one, a frame
    rewrites the one it is delivered to, nothing else touches them. *)
Lemma monitors_step_lookup p e j m :
  nth_error (monitors p) j = Some m ->
  exists m', nth_error (monitors (step p e)) j = Some m' /\
             (m' = m \/
              exists now presented,
                e = VideoFrame j now presented /\ registered m = true /\
                m' = fst (onFrame_body m now presented p)).
Proof.
  intros H.
  destruct e as [st|i|now|message|sdp|sdp|kind supported now|i now presented|now stats];
    cbn [step].
  - exists m. split; [|now left].
    unfold onConnectionStateChange, attemptReconnect, updateConnectionStatus.
    split_ifs; exact H.
  - exists m. split; [|now left].
    unfold fireTimer. destruct (nth_error (timers p) i) as [t|]; [|exact H].
    destruct (callback t); exact H.
  - exists m. split; [exact H|now left].
  - exists m. split; [exact H|now left].
  - exists m. split; [exact H|now left].
  - exists m. split; [exact H|now left].
  - exists m. split; [|now left].
    unfold ontrack, monitorVideoTrack. split_ifs; cbn; try exact H.
    rewrite nth_error_app1; [exact H|]. apply nth_error_Some. congruence.
  - unfold onFrame.
    destruct (nth_error (monitors p) i) as [mi|] eqn:Hi;
      [|exists m; split; [exact H|now left]].
    destruct (registered mi) eqn:Hr; [|exists m; split; [exact H|now left]].
    destruct (onFrame_body mi now presented p) as [m' p'] eqn:Hb.
    assert (Hm : monitors p' = monitors p).
    { unfold onFrame_body in Hb. cbv zeta in Hb.
      destruct (Qle_bool 1000 _); [destruct (Qgtb _ _)|];
        injection Hb as _ <-; reflexivity. }
    cbn [monitors with_monitors]. rewrite Hm.
    destruct (Nat.eq_dec i j) as [->|Hij].
    + rewrite H in Hi. injection Hi as <-.
      exists m'. split; [now apply nth_error_replace_nth_same with (y := m)|].
      right. exists now, presented. rewrite Hb. auto.
    + exists m. split; [|now left].
      rewrite nth_error_replace_nth_other by exact Hij. exact H.
  - exists m. split; [|now left].
    unfold updateDebugInfo.
    pose proof (parseStats_frame_more now stats p) as F.
    destruct (parseStats now stats p) as [p1 r]. cbn in F |- *.
    destruct F as (F & _). now rewrite F.
Qed.

Lemma registered_onFrame_body m now presented p :
  registered (fst (onFrame_body m now presented p)) = State.isPlaying (state p).
Proof.
  unfold onFrame_body. cbv zeta.
  destruct (Qle_bool 1000 _); [destruct (Qgtb _ _)|]; reflexivity.
Qed.

Lemma monitorRegistered_step p e i :
  State.isPlaying (state p) = true ->
  monitorRegistered i p = true -> monitorRegistered i (step p e) = true.
Proof.
  unfold monitorRegistered. intros Hp H.
  destruct (nth_error (monitors p) i) as [m|] eqn:Hm; [|discriminate].
  destruct (monitors_step_lookup p e i m Hm) as (m' & Hm' & [->|(now & pr & _ & _ & ->)]);
    rewrite Hm'; [exact H|].
  now rewrite registered_onFrame_body.
Qed.

(** X5.  Playback, once marked as playing, is never marked as stopped, so a
    frame monitor that is registered while playing stays registered along
    every history: the per-frame callback keeps rescheduling itself. *)
Theorem monitoring_never_stops_once_playing :
  forall evs p,
    State.isPlaying (state p) = true ->
    State.isPlaying (state (run evs p)) = true /\
    forall i, monitorRegistered i p = true -> monitorRegistered i (run evs p) = true.
Proof.
  unfold run. induction evs as [|e evs IH]; intros p Hp; cbn [fold_left]; [auto|].
  destruct (IH (step p e) (isPlaying_step p e Hp)) as [H1 H2].
  split; [exact H1|]. intros i Hi. apply H2. now apply monitorRegistered_step.
Qed.

Lemma monitoring_never_stops_once_playing_witness :
  State.isPlaying
    (state (run [ConnectionStateChange "failed"; VideoFrame 0 1500 90; TimerFired 3]
                playing_track)) = true /\
  monitorRegistered 0
    (run [ConnectionStateChange "failed"; VideoFrame 0 1500 90; TimerFired 3]
         playing_track) = true.
Proof.
  destruct (monitoring_never_stops_once_playing
              [ConnectionStateChange "failed"; VideoFrame 0 1500 90; TimerFired 3]
              playing_track eq_refl) as [H1 H2].
  split; [exact H1|]. apply H2. reflexivity.
Defined.

Lemma monitorStopped_step p e i :
  monitorStopped i p = true -> monitorStopped i (step p e) = true.
Proof.
  unfold monitorStopped. intros H.
  destruct (nth_error (monitors p) i) as [m|] eqn:Hm; [|discriminate].
  destruct (monitors_step_lookup p e i m Hm) as (m' & Hm' & [->|(now & pr & _ & Hr & _)]);
    rewrite Hm'; [exact H|].
  rewrite Hr in H. discriminate.
Qed.

Lemma monitorStopped_run evs : forall p i,
  monitorStopped i p = true -> monitorStopped i (run evs p) = true.
Proof.
  unfold run. induction evs as [|e evs IH]; intros p i H; cbn [fold_left]; [exact H|].
  apply IH. now apply monitorStopped_step.
Qed.

(** X6.  A frame delivered to a monitor while playback is not yet marked as
    playing unregisters it, and nothing registers it again: whatever happens
    afterwards, every later frame of that monitor leaves the player
    unchanged. *)
Theorem early_frame_stops_monitor :
  forall p i now presented evs,
    monitorRegistered i p = true ->
    State.isPlaying (state p) = false ->
    monitorStopped i (run evs (step p (VideoFrame i now presented))) = true /\
    forall now' presented',
      step (run evs (step p (VideoFrame i now presented))) (VideoFrame i now' presented')
      = run evs (step p (VideoFrame i now presented)).
Proof.
  intros p i now presented evs Hreg Hplay.
  assert (Hs : monitorStopped i (run evs (step p (VideoFrame i now presented))) = true).
  { apply monitorStopped_run. unfold monitorRegistered in Hreg.
    unfold monitorStopped. cbn [step]. unfold onFrame.
    destruct (nth_error (monitors p) i) as [m|] eqn:Hm; [|discriminate].
    rewrite Hreg.
    pose proof (registered_onFrame_body m now presented p) as Hb.
    destruct (onFrame_body m now presented p) as [m' p'] eqn:Eb.
    assert (Hmon : monitors p' = monitors p).
    { unfold onFrame_body in Eb. cbv zeta in Eb.
      destruct (Qle_bool 1000 _); [destruct (Qgtb _ _)|];
        injection Eb as _ <-; reflexivity. }
    cbn [monitors with_monitors]. rewrite Hmon.
    rewrite (nth_error_replace_nth_same _ m' i m Hm).
    cbn [fst] in Hb. rewrite Hb, Hplay. reflexivity. }
  split; [exact Hs|].
  intros now' presented'. cbn [step]. unfold onFrame.
  unfold monitorStopped in Hs.
  destruct (nth_error (monitors _) i) as [m|]; [|reflexivity].
  apply negb_true_iff in Hs. now rewrite Hs.
Qed.

Lemma early_frame_stops_monitor_witness :
  monitorStopped 0
    (run [PlayResolved 900; StatsSampled 1000 full_sample]
         (step one_track (VideoFrame 0 16 1))) = true /\
  step (run [PlayResolved 900; StatsSampled 1000 full_sample]
            (step one_track (VideoFrame 0 16 1))) (VideoFrame 0 2000 120)
  = run [PlayResolved 900; StatsSampled 1000 full_sample]
        (step one_track (VideoFrame 0 16 1)).
Proof.
  destruct (early_frame_stops_monitor one_track 0%nat 16 1
              [PlayResolved 900; StatsSampled 1000 full_sample] eq_refl eq_refl)
    as [H1 H2].
  split; [exact H1|apply H2].
Defined.

Lemma frames_accumulate i (fs : list (Q * Q)) : forall p m,
  nth_error (monitors p) i = Some m ->
  registered m = true ->
  State.isPlaying (state p) = true ->
  forallb (fun f => negb (Qle_bool 1000 (fst f - lastTime m))) fs = true ->
  exists m',
    nth_error (monitors (run (frames i fs) p)) i = Some m' /\
    registered m' = true /\
    State.isPlaying (state (run (frames i fs) p)) = true /\
    lastTime m' = lastTime m /\
    frameCount m' - lastPresentedFrames m' == frameCount m - lastPresentedFrames m.
Proof.
  unfold run, frames.
  induction fs as [|[now pr] fs IH]; intros p m Hm Hr Hp Hall; cbn [map fold_left].
  - exists m. repeat split; try assumption; reflexivity.
  - cbn [forallb fst snd] in Hall. cbn [fst snd]. apply andb_true_iff in Hall.
    destruct Hall as [Hnow Hall]. apply negb_true_iff in Hnow.
    cbn [step]. unfold onFrame. rewrite Hm, Hr.
    unfold onFrame_body. cbv zeta. rewrite Hnow.
    cbn [with_monitors with_metrics].
    set (m1 := {| frameCount := frameCount m + (pr - lastPresentedFrames m);
                  lastTime := lastTime m;
                  lastPresentedFrames := pr;
                  registered := State.isPlaying (state p) |}).
    match goal with
    | |- context [fold_left step _ ?q] =>
        destruct (IH q m1) as (m' & H1 & H2 & H3 & H4 & H5)
    end.
    + cbn [monitors]. now apply nth_error_replace_nth_same with (y := m).
    + exact Hp.
    + exact Hp.
    + exact Hall.
    + exists m'. repeat split; try assumption.
      rewrite H5. cbn [frameCount lastPresentedFrames m1]. ring.
Qed.

(** X7.  The rate measured by a frame monitor depends only on the presented
    frame counts at the ends of the interval.  Take times that are whole
    multiples of one power-of-two fraction of a millisecond, in the range
    where doubles are exact, so that the elapsed time the source computes is
    the true difference.  While playing, after any number of frames delivered
    less than 1000 ms after the interval began and one frame delivered
    1000 ms or more after it, the measured rate is the frame count
    accumulated before, plus the increase of the presented count up to that
    last frame, times 1000, divided by the elapsed time (the quotient taken
    exactly). *)
Theorem measured_rate_telescopes :
  forall g i fs now presented p m,
    (g <= 1074)%nat ->
    exactTime g (lastTime m) ->
    Forall (fun f => exactTime g (fst f)) fs ->
    exactTime g now ->
    nth_error (monitors p) i = Some m ->
    registered m = true ->
    State.isPlaying (state p) = true ->
    forallb (fun f => negb (Qle_bool 1000 (fst f - lastTime m))) fs = true ->
    1000 <= now - lastTime m ->
    Metrics.videoFrameCallbackFps
      (performanceMetrics (run (frames i fs ++ [VideoFrame i now presented]) p))
    == (frameCount m + (presented - lastPresentedFrames m)) * 1000
       / (now - lastTime m).
Proof.
  intros g i fs now presented p m _ _ _ _ Hm Hr Hp Hall Hnow.
  destruct (frames_accumulate i fs p m Hm Hr Hp Hall) as (m' & H1 & H2 & H3 & H4 & H5).
  unfold run in *. rewrite fold_left_app. cbn [fold_left step].
  unfold onFrame. rewrite H1, H2. unfold onFrame_body. cbv zeta.
  rewrite H4. apply Qle_bool_iff in Hnow. rewrite Hnow.
  destruct (Qgtb _ _); cbn;
    (apply Qmult_comp; [|reflexivity]); apply Qmult_comp; try reflexivity;
    setoid_replace (frameCount m' + (presented - lastPresentedFrames m'))
      with (frameCount m' - lastPresentedFrames m' + presented) by ring;
    rewrite H5; ring.
Qed.

Lemma measured_rate_telescopes_witness :
  Metrics.videoFrameCallbackFps
    (performanceMetrics
       (run (frames 0 [(400, 24); (800, 48)] ++ [VideoFrame 0 1200 72]) playing_track))
  == 60.
Proof.
  assert (T : forall k : Z, (0 <= k < 2 ^ 53)%Z -> exactTime 0 (inject_Z k)).
  { intros k Hk. exists k. split; [exact Hk|]. cbn. field. }
  rewrite (measured_rate_telescopes 0%nat 0%nat [(400, 24); (800, 48)] 1200 72
             playing_track
             {| frameCount := 0; lastTime := 0; lastPresentedFrames := 0;
                registered := true |});
    try reflexivity.
  - lia.
  - apply (T 0%Z). lia.
  - repeat constructor; [apply (T 400%Z)|apply (T 800%Z)]; lia.
  - apply (T 1200%Z). lia.
  - discriminate.
Defined.

(** ** Statistics sampling *)

Lemma keyFrameRing_onFrame i now presented p :
  keyFrameRing (onFrame i now presented p) = keyFrameRing p /\
  State.lastKeyFrameCount (state (onFrame i now presented p))
  = State.lastKeyFrameCount (state p).
Proof.
  unfold onFrame. destruct (nth_error _ _) as [m|]; [|auto].
  destruct (registered m); [|auto].
  unfold onFrame_body. cbv zeta. split_ifs; auto.
Qed.

(** What the video branch does to the key-frame bookkeeping. *)
Lemma keyFrames_parseVideo now stat p :
  let p' := fst (parseVideo now stat p) in
  if Qgtb (or0 (Stat.keyFramesDecoded stat) - recordedKeyFrames p) 0
  then
    State.lastKeyFrameCount (state p') = Stat.keyFramesDecoded stat /\
    Metrics.lastKeyFrameTime (performanceMetrics p') = now /\
    keyFrameRing p' =
      (if Qgtb (Metrics.lastKeyFrameTime (performanceMetrics p)) 0
       then
         let pushed :=
           (keyFrameRing p ++
            [(now - Metrics.lastKeyFrameTime (performanceMetrics p)) / 1000])%list in
         if (10 <? List.length pushed)%nat then tl pushed else pushed
       else keyFrameRing p)
  else
    State.lastKeyFrameCount (state p') = State.lastKeyFrameCount (state p) /\
    Metrics.lastKeyFrameTime (performanceMetrics p')
    = Metrics.lastKeyFrameTime (performanceMetrics p) /\
    keyFrameRing p' = keyFrameRing p.
Proof.
  unfold parseVideo, recordedKeyFrames, keyFrameRing. cbv zeta.
  destruct (Qgtb (_ - _) 0); cbn;
    destruct (Qeq_bool _ 0); destruct (Qgtb _ _); cbn; auto;
    destruct (Qgtb _ _); auto.
Qed.

Lemma keyFrameRing_parseVideo_length now stat p :
  (List.length (keyFrameRing p) <= 10)%nat ->
  (List.length (keyFrameRing (fst (parseVideo now stat p))) <= 10)%nat.
Proof.
  intros H. pose proof (keyFrames_parseVideo now stat p) as K. cbv zeta in K.
  destruct (Qgtb _ 0); destruct K as (_ & _ & ->); [|exact H].
  destruct (Qgtb _ 0); [|exact H].
  cbv zeta. destruct (_ <? _)%nat eqn:E.
  - apply Nat.ltb_lt in E. rewrite length_app in E. cbn in E.
    destruct (keyFrameRing p); cbn in *; [lia|]. rewrite length_app. cbn. lia.
  - apply Nat.ltb_ge in E. exact E.
Qed.

Lemma recordedKeyFrames_parseVideo now stat p :
  recordedKeyFrames p <= recordedKeyFrames (fst (parseVideo now stat p)).
Proof.
  pose proof (keyFrames_parseVideo now stat p) as K. cbv zeta in K.
  unfold recordedKeyFrames at 2.
  destruct (Qgtb _ 0) eqn:E; destruct K as (-> & _).
  - apply Qgtb_true in E. lra.
  - apply Qle_refl.
Qed.

Lemma keyFrames_parseStat now acc stat :
  ((List.length (keyFrameRing (fst acc)) <= 10)%nat ->
   (List.length (keyFrameRing (fst (parseStat now acc stat))) <= 10)%nat) /\
  recordedKeyFrames (fst acc) <= recordedKeyFrames (fst (parseStat now acc stat)).
Proof.
  destruct acc as [p report]. unfold parseStat. cbv zeta.
  destruct (_ && _).
  - pose proof (keyFrameRing_parseVideo_length now stat p) as H1.
    pose proof (recordedKeyFrames_parseVideo now stat p) as H2.
    destruct (parseVideo now stat p). auto.
  - destruct (_ && _); [cbn; split; [auto|apply Qle_refl]|].
    destruct (_ && _); [cbn; split; [auto|apply Qle_refl]|].
    destruct (String.eqb _ _); cbn; split; auto; apply Qle_refl.
Qed.

Lemma keyFrames_parseStats now stats : forall acc,
  ((List.length (keyFrameRing (fst acc)) <= 10)%nat ->
   (List.length (keyFrameRing (fst (fold_left (parseStat now) stats acc))) <= 10)%nat) /\
  recordedKeyFrames (fst acc)
  <= recordedKeyFrames (fst (fold_left (parseStat now) stats acc)).
Proof.
  induction stats as [|stat stats IH]; intros acc; cbn [fold_left].
  - split; [auto|apply Qle_refl].
  - destruct (keyFrames_parseStat now acc stat) as [H1 H2].
    destruct (IH (parseStat now acc stat)) as [I1 I2].
    split; [auto|]. eapply Qle_trans; eassumption.
Qed.

Lemma keyFrames_step p e :
  ((List.length (keyFrameRing p) <= 10)%nat ->
   (List.length (keyFrameRing (step p e)) <= 10)%nat) /\
  recordedKeyFrames p <= recordedKeyFrames (step p e).
Proof.
  destruct e as [st|i|now|message|sdp|sdp|kind supported now|i now presented|now stats];
    cbn [step].
  - unfold onConnectionStateChange, attemptReconnect, updateConnectionStatus.
    split_ifs; split; auto; apply Qle_refl.
  - unfold fireTimer. destruct (nth_error _ _) as [t|]; [|split; auto; apply Qle_refl].
    destruct (callback t); split; auto; apply Qle_refl.
  - split; [auto|apply Qle_refl].
  - split; [auto|apply Qle_refl].
  - split; [auto|apply Qle_refl].
  - split; [auto|apply Qle_refl].
  - unfold ontrack, monitorVideoTrack. split_ifs; split; auto; apply Qle_refl.
  - destruct (keyFrameRing_onFrame i now presented p) as [H1 H2].
    unfold recordedKeyFrames. rewrite H1, H2. split; [auto|apply Qle_refl].
  - unfold updateDebugInfo.
    pose proof (keyFrames_parseStats now stats (p, Report.empty)) as H.
    unfold parseStats.
    destruct (fold_left (parseStat now) stats (p, Report.empty)) as [p1 r].
    exact H.
Qed.

(** X8.  The list of key-frame intervals kept for averaging never holds
    more than 10 entries, whatever callbacks are delivered after
    initialisation. *)
Theorem key_frame_ring_is_bounded :
  forall evs, (List.length (keyFrameRing (run evs init)) <= 10)%nat.
Proof.
  intros evs. unfold run.
  assert (G : forall p, (List.length (keyFrameRing p) <= 10)%nat ->
                        (List.length (keyFrameRing (fold_left step evs p)) <= 10)%nat).
  { induction evs as [|e evs IH]; intros p H; cbn [fold_left]; [exact H|].
    apply IH. now apply keyFrames_step. }
  apply G. cbn. lia.
Qed.

(** X9.  The recorded key-frame count is a high-water mark: it never
    decreases along a history.  A video entry whose key-frame count does not
    exceed it (for instance the restarted counter of a new connection) records
    no interval and leaves the time of the last key frame alone; and an entry
    that does exceed it while no key frame has been timed yet updates the time
    but records no interval. *)
Theorem key_frame_count_is_high_water_mark :
  (forall evs p, recordedKeyFrames p <= recordedKeyFrames (run evs p)) /\
  (forall now stat p,
      or0 (Stat.keyFramesDecoded stat) <= recordedKeyFrames p ->
      keyFrameRing (fst (parseVideo now stat p)) = keyFrameRing p /\
      Metrics.lastKeyFrameTime (performanceMetrics (fst (parseVideo now stat p)))
      = Metrics.lastKeyFrameTime (performanceMetrics p) /\
      State.lastKeyFrameCount (state (fst (parseVideo now stat p)))
      = State.lastKeyFrameCount (state p)) /\
  (forall now stat p,
      recordedKeyFrames p < or0 (Stat.keyFramesDecoded stat) ->
      Metrics.lastKeyFrameTime (performanceMetrics p) <= 0 ->
      keyFrameRing (fst (parseVideo now stat p)) = keyFrameRing p /\
      Metrics.lastKeyFrameTime (performanceMetrics (fst (parseVideo now stat p))) = now /\
      State.lastKeyFrameCount (state (fst (parseVideo now stat p)))
      = Stat.keyFramesDecoded stat).
Proof.
  split; [|split].
  - intros evs. unfold run.
    induction evs as [|e evs IH]; intros p; cbn [fold_left]; [apply Qle_refl|].
    eapply Qle_trans; [apply keyFrames_step|apply IH].
  - intros now stat p H.
    pose proof (keyFrames_parseVideo now stat p) as K. cbv zeta in K.
    assert (E : Qgtb (or0 (Stat.keyFramesDecoded stat) - recordedKeyFrames p) 0 = false).
    { unfold Qgtb. apply negb_false_iff, Qle_bool_iff. lra. }
    rewrite E in K. tauto.
  - intros now stat p H H0.
    pose proof (keyFrames_parseVideo now stat p) as K. cbv zeta in K.
    assert (E : Qgtb (or0 (Stat.keyFramesDecoded stat) - recordedKeyFrames p) 0 = true).
    { unfold Qgtb. apply negb_true_iff. destruct (Qle_bool _ 0) eqn:E'; [|reflexivity].
      apply Qle_bool_iff in E'. lra. }
    assert (E0 : Qgtb (Metrics.lastKeyFrameTime (performanceMetrics p)) 0 = false).
    { unfold Qgtb. now apply negb_false_iff, Qle_bool_iff. }
    rewrite E, E0 in K. tauto.
Qed.

Lemma key_frame_count_is_high_water_mark_witness :
  keyFrameRing (fst (parseVideo 9000 (keyframe_stat 0)
                       (fst (parseVideo 4000 (keyframe_stat 3) init)))) = [] /\
  Metrics.lastKeyFrameTime
    (performanceMetrics (fst (parseVideo 4000 (keyframe_stat 3) init))) = 4000 /\
  keyFrameRing (fst (parseVideo 4000 (keyframe_stat 3) init)) = [].
Proof.
  destruct key_frame_count_is_high_water_mark as (_ & Hlow & Hfirst).
  destruct (Hlow 9000 (keyframe_stat 0) (fst (parseVideo 4000 (keyframe_stat 3) init)))
    as (H1 & _); [discriminate|].
  destruct (Hfirst 4000 (keyframe_stat 3) init) as (H2 & H3 & _);
    [reflexivity|discriminate|].
  split; [rewrite H1; exact H2|]. split; [exact H3|exact H2].
Defined.

Lemma lastStats_parseStat now p r stat :
  lastVideo (fst (parseStat now (p, r) stat))
  = (if isVideoEntry stat then Some stat else lastVideo p) /\
  lastAudio (fst (parseStat now (p, r) stat))
  = (if isVideoEntry stat then lastAudio p
     else if isAudioEntry stat then Some stat else lastAudio p).
Proof.
  unfold parseStat, isVideoEntry, isAudioEntry. cbv zeta.
  destruct (_ && _).
  - pose proof (parseVideo_frame_more now stat p) as H.
    destruct (parseVideo now stat p). cbn in H |- *. intuition.
  - destruct (_ && _); [cbn; auto|].
    destruct (_ && _); [cbn; auto|].
    destruct (String.eqb _ _); cbn; auto.
Qed.

Lemma lastStats_parseStats now stats : forall p r,
  lastVideo (fst (fold_left (parseStat now) stats (p, r)))
  = match lastEntry isVideoEntry stats with
    | Some s => Some s
    | None => lastVideo p
    end /\
  lastAudio (fst (fold_left (parseStat now) stats (p, r)))
  = match lastEntry (fun s => negb (isVideoEntry s) && isAudioEntry s) stats with
    | Some s => Some s
    | None => lastAudio p
    end.
Proof.
  unfold lastEntry.
  induction stats as [|stat stats IH] using rev_ind; intros p r; [cbn; auto|].
  rewrite fold_left_app, rev_app_distr. cbn [fold_left rev app find].
  destruct (fold_left (parseStat now) stats (p, r)) as [p1 r1] eqn:E.
  destruct (lastStats_parseStat now p1 r1 stat) as [Hv Ha].
  destruct (IH p r) as [Iv Ia]. rewrite E in Iv, Ia. cbn [fst] in Iv, Ia.
  rewrite Hv, Ha. split.
  - destruct (isVideoEntry stat); [reflexivity|exact Iv].
  - destruct (isVideoEntry stat); cbn [negb andb]; [exact Ia|].
    destruct (isAudioEntry stat); [reflexivity|exact Ia].
Qed.

Lemma lastStats_onFrame i now presented p :
  lastVideo (onFrame i now presented p) = lastVideo p /\
  lastAudio (onFrame i now presented p) = lastAudio p.
Proof.
  unfold onFrame. destruct (nth_error _ _) as [m|]; [|auto].
  destruct (registered m); [|auto].
  unfold onFrame_body. cbv zeta. split_ifs; auto.
Qed.

Lemma audio_is_not_video stat :
  negb (isVideoEntry stat) && isAudioEntry stat = isAudioEntry stat.
Proof.
  unfold isVideoEntry, isAudioEntry, optEq.
  destruct (String.eqb (Stat.type stat) "inbound-rtp"); [|reflexivity].
  destruct (Stat.mediaType stat) as [mt|]; [|reflexivity]. cbn [andb].
  destruct (String.eqb_spec mt "video") as [->|]; reflexivity.
Qed.

Lemma find_pointwise {A} (f g : A -> bool) (l : list A) :
  (forall x, f x = g x) -> find f l = find g l.
Proof. intros H. induction l as [|a l IH]; cbn; [reflexivity|]. now rewrite H, IH. Qed.

(** X10.  The retained snapshots change only when a statistics sample is
    processed: every other callback, reconnection and successful connection
    included, leaves them as they are.  After a sample, the retained video
    snapshot is the last inbound video entry of the sample if there is one,
    and the retained audio snapshot the last inbound audio entry; a sample
    without such an entry keeps the old snapshot. *)
Theorem retained_snapshots :
  (forall p e,
      lastVideo (step p e) =
      match e with
      | StatsSampled now stats =>
          match lastEntry isVideoEntry stats with
          | Some s => Some s
          | None => lastVideo p
          end
      | _ => lastVideo p
      end) /\
  (forall p e,
      lastAudio (step p e) =
      match e with
      | StatsSampled now stats =>
          match lastEntry isAudioEntry stats with
          | Some s => Some s
          | None => lastAudio p
          end
      | _ => lastAudio p
      end).
Proof.
  split; intros p e;
    destruct e as [st|i|now|message|sdp|sdp|kind supported now|i now presented|now stats];
    cbn [step]; try reflexivity;
    try (unfold onConnectionStateChange, attemptReconnect, updateConnectionStatus;
         split_ifs; reflexivity);
    try (unfold fireTimer; destruct (nth_error _ _) as [t|]; [|reflexivity];
         destruct (callback t); reflexivity);
    try (unfold ontrack, monitorVideoTrack; split_ifs; reflexivity);
    try apply lastStats_onFrame;
    unfold updateDebugInfo, parseStats;
    pose proof (lastStats_parseStats now stats p Report.empty) as [Hv Ha];
    destruct (fold_left (parseStat now) stats (p, Report.empty)) as [p1 r];
    cbn [fst] in Hv, Ha; cbn; [exact Hv|].
  unfold lastEntry in *.
  rewrite (find_pointwise _ _ (rev stats) audio_is_not_video) in Ha. exact Ha.
Qed.

(** ** The bitrate series *)

Lemma pushHistory_appended {A} (old : list A) (v : A) :
  pushHistory old v = appended old v.
Proof.
  unfold pushHistory, appended, STATS_HISTORY_SIZE. cbv zeta.
  rewrite length_app. cbn [List.length].
  destruct (Nat.ltb_spec 60 (List.length old + 1)) as [H|H];
    destruct (Nat.leb_spec 60 (List.length old)) as [K|K]; try lia; [|reflexivity].
  destruct old; [cbn in K; lia|reflexivity].
Qed.

(** Only an inbound audio entry writes the audio part of the report. *)
Lemma audio_parseStat now p r stat :
  Report.audio (snd (parseStat now (p, r) stat))
  = if isAudioEntry stat then Some (snd (parseAudio stat p)) else Report.audio r.
Proof.
  pose proof (audio_is_not_video stat) as N.
  unfold parseStat. cbv zeta.
  fold (isVideoEntry stat). fold (isAudioEntry stat).
  destruct (isVideoEntry stat).
  - cbn [negb andb] in N. rewrite <- N.
    destruct (parseVideo now stat p). reflexivity.
  - clear N. destruct (isAudioEntry stat); [reflexivity|].
    destruct (_ && _); [reflexivity|].
    destruct (String.eqb _ _); reflexivity.
Qed.

Lemma audio_parseStats_none now stats : forall p r,
  forallb (fun s => negb (isAudioEntry s)) stats = true ->
  Report.audio (snd (fold_left (parseStat now) stats (p, r))) = Report.audio r.
Proof.
  induction stats as [|stat stats IH]; intros p r H; [reflexivity|].
  cbn [forallb] in H. apply andb_true_iff in H. destruct H as [Hs H].
  apply negb_true_iff in Hs. cbn [fold_left].
  pose proof (audio_parseStat now p r stat) as E. rewrite Hs in E.
  destruct (parseStat now (p, r) stat) as [p1 r1]. cbn [snd] in E.
  rewrite (IH p1 r1 H). exact E.
Qed.

Lemma audio_parseStats_last now pre stat post p :
  isAudioEntry stat = true ->
  forallb (fun s => negb (isAudioEntry s)) post = true ->
  Report.audio (snd (parseStats now (pre ++ stat :: post) p))
  = Some (snd (parseAudio stat (fst (parseStats now pre p)))).
Proof.
  intros Hs Hpost. unfold parseStats. rewrite fold_left_app. cbn [fold_left].
  destruct (fold_left (parseStat now) pre (p, Report.empty)) as [p1 r1]. cbn [fst].
  pose proof (audio_parseStat now p1 r1 stat) as E. rewrite Hs in E.
  destruct (parseStat now (p1, r1) stat) as [p2 r2]. cbn [snd] in E.
  rewrite (audio_parseStats_none now post p2 r2 Hpost). exact E.
Qed.

(** C9.  The bitrate series grows by the bitrate of the report's audio part
    and by nothing else.  When a sample holds an inbound audio entry, the
    series after the sample is the old series, without its oldest value if it
    already held 60, followed by the bitrate computed from the last audio
    entry of the sample and the audio snapshot retained before that entry;
    when the sample holds no audio entry the series is unchanged.  The video
    bitrate of the report has no influence on the history. *)
Theorem bitrate_series_is_audio :
  (forall r h a,
      Report.audio r = Some a ->
      History.bitrate (updateStatsHistory r h)
      = appended (History.bitrate h) (Audio.bitrate a)) /\
  (forall r h,
      Report.audio r = None ->
      History.bitrate (updateStatsHistory r h) = History.bitrate h) /\
  (forall now pre stat post p,
      isAudioEntry stat = true ->
      forallb (fun s => negb (isAudioEntry s)) post = true ->
      History.bitrate (statsHistory (step p (StatsSampled now (pre ++ stat :: post))))
      = appended (History.bitrate (statsHistory p))
                 (bitrateOf stat
                            match lastEntry isAudioEntry pre with
                            | Some s => Some s
                            | None => lastAudio p
                            end)) /\
  (forall now stats p,
      forallb (fun s => negb (isAudioEntry s)) stats = true ->
      History.bitrate (statsHistory (step p (StatsSampled now stats)))
      = History.bitrate (statsHistory p)) /\
  (forall old v,
      appended old v
      = ((if (60 <=? List.length old)%nat then tl old else old) ++ [v])%list /\
      last (appended old v) NaN = v) /\
  (forall stat p,
      Audio.bitrate (snd (parseAudio stat p)) = bitrateOf stat (lastAudio p)) /\
  (forall b r h,
      updateStatsHistory (withVideoBitrate b r) h = updateStatsHistory r h).
Proof.
  split; [|split; [|split; [|split; [|split; [|split]]]]].
  - intros r h a Ha. cbn. rewrite Ha. apply pushHistory_appended.
  - intros r h Ha. cbn. now rewrite Ha.
  - intros now pre stat post p Hs Hpost. rewrite statsHistory_step.
    cbn [updateStatsHistory History.bitrate].
    rewrite (audio_parseStats_last now pre stat post p Hs Hpost).
    cbn [option_map pushIfDefined]. rewrite pushHistory_appended.
    cbn [parseAudio snd Audio.bitrate].
    destruct (lastStats_parseStats now pre p Report.empty) as [_ Hl].
    unfold parseStats. rewrite Hl. unfold lastEntry.
    now rewrite (find_pointwise _ isAudioEntry (rev pre) audio_is_not_video).
  - intros now stats p Hnone. rewrite statsHistory_step.
    cbn [updateStatsHistory History.bitrate]. unfold parseStats.
    now rewrite (audio_parseStats_none now stats p Report.empty Hnone).
  - intros old v. split; [reflexivity|].
    unfold appended. apply last_last.
  - reflexivity.
  - intros b r h. unfold updateStatsHistory, withVideoBitrate. cbn.
    destruct (Report.video r); reflexivity.
Qed.

Lemma bitrate_series_is_audio_witness :
  History.bitrate (statsHistory (step init (StatsSampled 0 video_and_audio)))
  = appended [] (bitrateOf (audio_stat 4000 0) None) /\
  appended [] (bitrateOf (audio_stat 4000 0) None) = [Fin ((4000 - 0) * 8 / 1)] /\
  videoBitrate 0 video_and_audio init = Some (Fin ((1000 - 0) * 8 / 1)).
Proof.
  destruct bitrate_series_is_audio as (_ & _ & Hsample & _).
  split; [|split; reflexivity].
  apply (Hsample 0 [byte_snapshot 1000 0] (audio_stat 4000 0) [] init); reflexivity.
Defined.

Lemma pushHistory_length_eq {A B} (a : list A) (b : list B) (x : A) (y : B) :
  List.length a = List.length b ->
  List.length (pushHistory a x) = List.length (pushHistory b y).
Proof.
  intros H. unfold pushHistory. cbv zeta.
  rewrite !length_app, H. cbn [List.length].
  destruct (_ <? _)%nat; [|rewrite !length_app; cbn; lia].
  destruct a, b; cbn in *; try discriminate; try reflexivity.
  rewrite !length_app. cbn. lia.
Qed.

(** X11.  The four series fed from the video part of a report (fps,
    videoFrameCallbackFps, framesDecoded, framesDropped) always have the same
    length.  Hence the videoFrameCallbackFps series is empty only when the
    fps series is empty too, so the frame-rate graph, which prefers the former
    when it is not empty, never shows the latter's data. *)
Theorem video_series_in_lockstep :
  forall evs,
    let h := statsHistory (run evs init) in
    List.length (History.videoFrameCallbackFps h) = List.length (History.fps h) /\
    List.length (History.framesDecoded h) = List.length (History.fps h) /\
    List.length (History.framesDropped h) = List.length (History.fps h) /\
    (History.videoFrameCallbackFps h = [] -> History.fps h = []).
Proof.
  intros evs h.
  assert (G : List.length (History.videoFrameCallbackFps h) = List.length (History.fps h) /\
              List.length (History.framesDecoded h) = List.length (History.fps h) /\
              List.length (History.framesDropped h) = List.length (History.fps h)).
  { subst h. unfold run.
    assert (K : forall p,
               (List.length (History.videoFrameCallbackFps (statsHistory p))
                = List.length (History.fps (statsHistory p)) /\
                List.length (History.framesDecoded (statsHistory p))
                = List.length (History.fps (statsHistory p)) /\
                List.length (History.framesDropped (statsHistory p))
                = List.length (History.fps (statsHistory p))) ->
               List.length (History.videoFrameCallbackFps
                              (statsHistory (fold_left step evs p)))
               = List.length (History.fps (statsHistory (fold_left step evs p))) /\
               List.length (History.framesDecoded (statsHistory (fold_left step evs p)))
               = List.length (History.fps (statsHistory (fold_left step evs p))) /\
               List.length (History.framesDropped (statsHistory (fold_left step evs p)))
               = List.length (History.fps (statsHistory (fold_left step evs p)))).
    { induction evs as [|e evs IH]; intros p H; cbn [fold_left]; [exact H|].
      apply IH. rewrite statsHistory_step.
      destruct e; try exact H.
      destruct H as (H1 & H2 & H3). unfold updateStatsHistory. cbv zeta.
      cbn [History.fps History.videoFrameCallbackFps History.framesDecoded
           History.framesDropped].
      destruct (Report.video _); cbn [option_map pushIfDefined]; [|auto].
      repeat split; now apply pushHistory_length_eq. }
    apply K. cbn. auto. }
  destruct G as (G1 & G2 & G3). repeat split; try assumption.
  intros E. rewrite E in G1. destruct (History.fps h); [reflexivity|discriminate].
Qed.

Lemma parseStat_idle now p r stat :
  isVideoEntry stat || isAudioEntry stat || isSucceededPair stat = false ->
  exists r',
    parseStat now (p, r) stat = (p, r') /\
    Report.video r' = Report.video r /\
    Report.audio r' = Report.audio r /\
    Connection.rtt (Report.connection r') = Connection.rtt (Report.connection r).
Proof.
  intros H. apply orb_false_iff in H. destruct H as [H Hp].
  apply orb_false_iff in H. destruct H as [Hv Ha].
  unfold isVideoEntry, isAudioEntry, isSucceededPair in *.
  unfold parseStat. cbv zeta. rewrite Hv, Ha, Hp.
  destruct (String.eqb _ "transport"); eexists; repeat split.
Qed.

Lemma parseStats_idle now stats : forall p r,
  forallb (fun s => negb (isVideoEntry s || isAudioEntry s || isSucceededPair s)) stats
  = true ->
  exists r',
    fold_left (parseStat now) stats (p, r) = (p, r') /\
    Report.video r' = Report.video r /\
    Report.audio r' = Report.audio r /\
    Connection.rtt (Report.connection r') = Connection.rtt (Report.connection r).
Proof.
  induction stats as [|stat stats IH]; intros p r H; cbn [fold_left].
  - exists r. auto.
  - cbn in H. apply andb_true_iff in H. destruct H as [Hs H].
    apply negb_true_iff in Hs.
    destruct (parseStat_idle now p r stat Hs) as (r1 & E & h1 & h2 & h3).
    rewrite E. destruct (IH p r1 H) as (r' & E' & i1 & i2 & i3).
    exists r'. repeat split; congruence.
Qed.

(** X12.  A statistics sample without inbound video or audio entry and
    without succeeded candidate pair (an empty one, or one made of codec,
    transport and candidate entries) leaves the whole player as it was: no
    series grows and no snapshot is replaced. *)
Theorem idle_sample_changes_nothing :
  forall p now stats,
    forallb (fun s => negb (isVideoEntry s || isAudioEntry s || isSucceededPair s)) stats
    = true ->
    step p (StatsSampled now stats) = p.
Proof.
  intros p now stats H. cbn [step]. unfold updateDebugInfo, parseStats.
  destruct (parseStats_idle now stats p Report.empty H) as (r & E & Hv & Ha & Hr).
  rewrite E. unfold with_statsHistory, updateStatsHistory. cbv zeta.
  rewrite Hv, Ha, Hr. cbn.
  destruct p as [st h lv la sl sr pm d ts ms]. cbn. now destruct h.
Qed.

Lemma idle_sample_changes_nothing_witness :
  step playing_track (StatsSampled 1000 idle_sample) = playing_track /\
  step init (StatsSampled 1000 []) = init.
Proof.
  split; apply idle_sample_changes_nothing; reflexivity.
Defined.

(** X13.  The bitrate of a report is not-a-number exactly when the entry has
    no byte counter, and is a finite number otherwise: the interval is never
    zero, so no bitrate is infinite. *)
Theorem bitrate_is_finite_or_nan :
  forall stat prev,
    (bitrateOf stat prev = NaN <-> Stat.bytesReceived stat = None) /\
    (forall b, Stat.bytesReceived stat = Some b ->
               exists q, bitrateOf stat prev = Fin q) /\
    (forall s, bitrateOf stat prev <> Infinity s).
Proof.
  intros stat prev.
  destruct (Stat.bytesReceived stat) as [b|] eqn:Hb.
  - rewrite (bitrateOf_defined stat prev b Hb).
    split; [split; discriminate|]. split; [|discriminate].
    intros b' _. eexists. reflexivity.
  - assert (E : bitrateOf stat prev = NaN) by (unfold bitrateOf; now rewrite Hb).
    rewrite E. split; [split; reflexivity|]. split; [discriminate|discriminate].
Qed.

(** X14.  The displayed packet-loss rate is negative infinity exactly when
    packets were received and the loss counter, which may be negative, cancels
    the received count; it is never positive infinity nor not-a-number. *)
Theorem loss_rate_degenerate_case :
  forall lost received,
    (lossRate lost received = Infinity true <->
     0 < received /\ lost + received == 0) /\
    lossRate lost received <> Infinity false /\
    lossRate lost received <> NaN.
Proof.
  intros lost received. unfold lossRate.
  destruct (Qgtb received 0) eqn:E.
  - apply Qgtb_true in E. unfold div.
    destruct (lost + received ?= 0) eqn:C.
    + apply Qeq_alt in C.
      assert (Hl : (lost ?= 0) = Lt) by (apply (proj1 (Qlt_alt lost 0)); lra).
      rewrite Hl. cbn. repeat split; try discriminate; assumption.
    + apply Qlt_alt in C. cbn [mul toFixed2].
      repeat split; try discriminate. intros [_ H]. exfalso. lra.
    + apply Qgt_alt in C. cbn [mul toFixed2].
      repeat split; try discriminate. intros [_ H]. exfalso. lra.
  - apply Qgtb_false in E. repeat split; try discriminate. intros [H _]. exfalso. lra.
Qed.

(** ** SDP parameter extraction *)

Section MoreRegexFacts.
Import Regex JsString.

Lemma lowerChar_equals (b : ascii) :
  Ascii.eqb (lowerChar "=") (lowerChar b) = true -> Ascii.eqb "=" b = true.
Proof. destruct b as [[] [] [] [] [] [] [] []]; vm_compute; intros H; congruence. Qed.

(** A literal that contains [=] cannot be found in front of a text that
    contains none. *)
Lemma strip_without_equals (ci : bool) : forall p s,
  includes "=" p = true -> includes "=" s = false -> strip ci p s = None.
Proof.
  induction p as [|a p IH]; intros s Hp Hs; [discriminate|].
  destruct s as [|b s]; [reflexivity|].
  cbn [includes startsWith] in Hp, Hs.
  apply orb_false_iff in Hs. destruct Hs as [Hb Hs].
  rewrite andb_true_r in Hb.
  cbn [strip].
  destruct (if ci then Ascii.eqb (lowerChar a) (lowerChar b) else Ascii.eqb a b) eqn:E;
    [|reflexivity].
  apply orb_true_iff in Hp. destruct Hp as [Ha|Hp].
  - rewrite andb_true_r in Ha. apply Ascii.eqb_eq in Ha. subst a.
    exfalso. destruct ci.
    + apply lowerChar_equals in E. congruence.
    + congruence.
  - apply IH; assumption.
Qed.

Lemma search_without_equals (ci : bool) (lit : string) (r : regex) : forall s,
  includes "=" lit = true -> includes "=" s = false ->
  search ((if ci then LitI lit else Lit lit) :: r) s = None.
Proof.
  intros s Hl. induction s as [|a s IH]; intros Hs.
  - cbn [search]. destruct ci; cbn [exec];
      now rewrite (strip_without_equals _ lit "" Hl Hs).
  - assert (Hs' : includes "=" s = false).
    { cbn [includes] in Hs. now apply orb_false_iff in Hs. }
    cbn [search].
    replace (exec ((if ci then LitI lit else Lit lit) :: r) (String a s))
      with (@None (list string)); [now apply IH|].
    destruct ci; cbn [exec]; now rewrite (strip_without_equals _ lit _ Hl Hs).
Qed.

Lemma extract_without_equals sdp :
  includes "=" sdp = false -> extractVideoParams sdp = noParams.
Proof.
  intros H. unfold extractVideoParams, noParams.
  unfold framerateRe, fmtpRe, codecRe, profileRe, h265ProfileRe, levelRe, tierRe,
    txModeRe.
  repeat match goal with
         | |- context [search (Lit ?l :: ?r) sdp] =>
             rewrite (search_without_equals false l r sdp eq_refl H)
         | |- context [search (LitI ?l :: ?r) sdp] =>
             rewrite (search_without_equals true l r sdp eq_refl H)
         end.
  reflexivity.
Qed.
End MoreRegexFacts.

(** X15.  A remote description without any [=] character (the empty text
    included) yields a parameter set with every field absent; applying it
    stores the text and leaves the codec identity as it was. *)
Theorem description_without_attributes :
  forall sdp p,
    JsString.includes "=" sdp = false ->
    extractVideoParams sdp = noParams /\
    State.codecType (state (step p (RemoteDescription sdp))) = State.codecType (state p) /\
    sdpRemote (step p (RemoteDescription sdp)) = Some sdp.
Proof.
  intros sdp p H. split; [now apply extract_without_equals|].
  cbn [step]. unfold setRemoteDescription.
  cbn [state with_state with_sdpRemote State.codecType set_codecType sdpRemote].
  rewrite (extract_without_equals sdp H). split; reflexivity.
Qed.

Lemma description_without_attributes_witness :
  extractVideoParams "" = noParams /\
  State.codecType
    (state (run [RemoteDescription sdp_profile_only; RemoteDescription "not an sdp"] init))
  = Some "H265/HEVC".
Proof.
  split.
  - apply (description_without_attributes "" init). reflexivity.
  - unfold run. cbn [fold_left].
    rewrite (proj1 (proj2 (description_without_attributes "not an sdp"
                             (step init (RemoteDescription sdp_profile_only))
                             eq_refl))).
    reflexivity.
Defined.

Lemma codecType_onFrame i now presented p :
  State.codecType (state (onFrame i now presented p)) = State.codecType (state p).
Proof.
  unfold onFrame. destruct (nth_error _ _) as [m|]; [|reflexivity].
  destruct (registered m); [|reflexivity].
  unfold onFrame_body. cbv zeta. split_ifs; reflexivity.
Qed.

Lemma codecType_step p e :
  State.codecType (state p) <> None -> State.codecType (state (step p e)) <> None.
Proof.
  intros H.
  destruct e as [st|i|now|message|sdp|sdp|kind supported now|i now presented|now stats];
    cbn [step].
  - unfold onConnectionStateChange, attemptReconnect, updateConnectionStatus.
    split_ifs; exact H.
  - unfold fireTimer. destruct (nth_error _ _) as [t|]; [|exact H].
    destruct (callback t); exact H.
  - exact H.
  - exact H.
  - unfold setRemoteDescription.
    cbn [state with_state with_sdpRemote State.codecType set_codecType].
    unfold detectCodec.
    destruct (Params.codec _); [split_ifs; discriminate|].
    destruct (Params.h265ProfileId _); [discriminate|exact H].
  - exact H.
  - unfold ontrack, monitorVideoTrack. split_ifs; exact H.
  - now rewrite codecType_onFrame.
  - unfold updateDebugInfo.
    pose proof (parseStats_frame_more now stats p) as F.
    destruct (parseStats now stats p) as [p1 r]. cbn in F |- *.
    destruct F as (_ & _ & F & _). now rewrite F.
Qed.

(** X16.  The codec identity, once set, is never unset: along every history
    it stays defined, through reconnections and through later descriptions
    from which nothing can be extracted. *)
Theorem codec_identity_is_never_unset :
  forall evs p,
    State.codecType (state p) <> None ->
    State.codecType (state (run evs p)) <> None.
Proof.
  unfold run. induction evs as [|e evs IH]; intros p H; cbn [fold_left]; [exact H|].
  apply IH. now apply codecType_step.
Qed.

Lemma codec_identity_is_never_unset_witness :
  State.codecType
    (state (run [ConnectionStateChange "failed"; TimerFired 0; RemoteDescription "v=0"]
                (step init (RemoteDescription sdp_profile_only)))) <> None.
Proof.
  apply (codec_identity_is_never_unset
           [ConnectionStateChange "failed"; TimerFired 0; RemoteDescription "v=0"]
           (step init (RemoteDescription sdp_profile_only))).
  discriminate.
Defined.

Section ExtractionFacts.
Import Regex JsString.

Lemma space_is_not_digit (a : ascii) : in_cls Space a = true -> in_cls Digit a = false.
Proof. destruct a as [[] [] [] [] [] [] [] []]; vm_compute; congruence. Qed.

Lemma stops_after_run (c d : cls) (body rest : string) :
  (forall a, in_cls d a = true -> in_cls c a = false) ->
  body <> "" -> allIn d body = true -> stops c (body ++ rest) = true.
Proof.
  intros Hcd Hne Hall. destruct body as [|a body]; [congruence|].
  cbn in Hall |- *. apply andb_true_iff in Hall. destruct Hall as [Ha _].
  now rewrite (Hcd a Ha).
Qed.

Lemma greedy1_run_nonempty {A} (c : cls) (k : string -> string -> option A) (r : A)
      (body rest : string) :
  body <> "" -> allIn c body = true -> stops c rest = true ->
  k body rest = Some r -> greedy1 c k (body ++ rest) = Some r.
Proof.
  intros Hne. destruct body as [|a body]; [congruence|]. apply greedy1_run.
Qed.

(** The payload mapping with any payload type and encoding name. *)
Lemma exec_rtpmap_any (pt gap name rest : string) :
  pt <> "" -> allIn Digit pt = true ->
  gap <> "" -> allIn Space gap = true ->
  name <> "" -> allIn NonSpace name = true ->
  stops NonSpace rest = true ->
  exec [Lit "a=rtpmap:"; Group Digit; Plus Space; Group NonSpace]
       ("a=rtpmap:" ++ pt ++ gap ++ name ++ rest)
  = Some [pt; name].
Proof.
  intros Hpt Dpt Hgap Sgap Hname Nname Hrest.
  rewrite exec_lit. cbn [exec].
  apply greedy1_run_nonempty; [exact Hpt|exact Dpt| |].
  { apply stops_after_run with (d := Space);
      [exact space_is_not_digit|exact Hgap|exact Sgap]. }
  rewrite greedy1_run_nonempty with (r := [name]); [reflexivity|exact Hgap|exact Sgap| |].
  { apply stops_after_run with (d := NonSpace); [|exact Hname|exact Nname].
    intros a Ha. cbn in Ha |- *. now apply negb_true_iff in Ha. }
  rewrite greedy1_run_nonempty with (r := [name]);
    [reflexivity|exact Hname|exact Nname|exact Hrest|reflexivity].
Qed.

Lemma search_found (r : regex) (s : string) (m : list string) :
  exec r s = Some m -> search r s = Some m.
Proof. intros H. destruct s; cbn [search]; now rewrite H. Qed.

Lemma search_step_none (r : regex) (a : ascii) (s : string) :
  exec r (String a s) = None -> search r (String a s) = search r s.
Proof. intros H. cbn [search]. now rewrite H. Qed.

(** No match of the level pattern starts before the first [level-id=]. *)
Lemma level_search_skips : forall pre s,
  includes "level-id=" pre = false ->
  search levelRe (pre ++ "profile-level-id=" ++ s)
  = search levelRe ("profile-level-id=" ++ s).
Proof.
  induction pre as [|a pre IH]; intros s H; [reflexivity|].
  cbn [includes] in H. apply orb_false_iff in H. destruct H as [Hs Hi].
  change (String a pre ++ "profile-level-id=" ++ s)
    with (String a (pre ++ "profile-level-id=" ++ s)).
  rewrite search_step_none; [now apply IH|].
  unfold levelRe. cbn [exec].
  replace (strip false "level-id=" (String a (pre ++ "profile-level-id=" ++ s)))
    with (@None string); [reflexivity|].
  symmetry. clear IH Hi. revert Hs.
  change (String a (pre ++ "profile-level-id=" ++ s))
    with (String a pre ++ "profile-level-id=" ++ s).
  cbn [startsWith strip append].
  destruct (Ascii.eqb _ a); [|reflexivity]. cbn [andb].
  do 8 (destruct pre as [|? pre]; [intros _; reflexivity|];
        cbn [startsWith strip append];
        match goal with
        | |- context [Ascii.eqb ?x ?y] => destruct (Ascii.eqb x y); [|reflexivity]
        end;
        cbn [andb]).
  cbn. discriminate.
Qed.

(** No match of the frame-rate pattern starts before the first
    [a=framerate:]. *)
Lemma framerate_search_skips : forall pre s,
  includes "a=framerate:" pre = false ->
  search framerateRe (pre ++ "a=framerate:" ++ s)
  = search framerateRe ("a=framerate:" ++ s).
Proof.
  induction pre as [|a pre IH]; intros s H; [reflexivity|].
  cbn [includes] in H. apply orb_false_iff in H. destruct H as [Hs Hi].
  change (String a pre ++ "a=framerate:" ++ s)
    with (String a (pre ++ "a=framerate:" ++ s)).
  rewrite search_step_none; [now apply IH|].
  unfold framerateRe. cbn [exec].
  replace (strip false "a=framerate:" (String a (pre ++ "a=framerate:" ++ s)))
    with (@None string); [reflexivity|].
  symmetry. clear IH Hi. revert Hs.
  change (String a (pre ++ "a=framerate:" ++ s))
    with (String a pre ++ "a=framerate:" ++ s).
  cbn [startsWith strip append].
  destruct (Ascii.eqb _ a); [|reflexivity]. cbn [andb].
  do 11 (destruct pre as [|? pre]; [intros _; reflexivity|];
         cbn [startsWith strip append];
         match goal with
         | |- context [Ascii.eqb ?x ?y] => destruct (Ascii.eqb x y); [|reflexivity]
         end;
         cbn [andb]).
  cbn. discriminate.
Qed.

(** A captured run of digits after a literal. *)
Lemma exec_number (lit digits rest : string) :
  digits <> "" -> allIn Digit digits = true -> stops Digit rest = true ->
  exec [Lit lit; Group Digit] (lit ++ digits ++ rest) = Some [digits].
Proof.
  intros Hne Hd Hrest. rewrite exec_lit. cbn [exec].
  now apply greedy1_run_nonempty.
Qed.
End ExtractionFacts.

(** X17.  When the first [m=video] line is followed by exactly one further
    line and then by [a=rtpmap:], a payload type, white space and an encoding
    name, the extracted codec is exactly that encoding name (the non-blank
    text up to the next white space or the end). *)
Theorem codec_name_extraction :
  forall pre line1 nl1 line2 nl2 pt gap name rest,
    JsString.includes "m=video" pre = false ->
    allIn Regex.Dot line1 = true -> isLineBreak nl1 = true ->
    allIn Regex.Dot line2 = true -> isLineBreak nl2 = true ->
    pt <> "" -> allIn Regex.Digit pt = true ->
    gap <> "" -> allIn Regex.Space gap = true ->
    name <> "" -> allIn Regex.NonSpace name = true ->
    stops Regex.NonSpace rest = true ->
    Params.codec
      (extractVideoParams
         (pre ++ "m=video" ++ line1 ++ nl1 ++ line2 ++ nl2 ++
          "a=rtpmap:" ++ pt ++ gap ++ name ++ rest))
    = Some name.
Proof.
  intros pre line1 nl1 line2 nl2 pt gap name rest
         Hpre H1 Hn1 H2 Hn2 Hpt Dpt Hgap Sgap Hname Nname Hrest.
  unfold extractVideoParams. cbn [Params.codec].
  rewrite codec_search_skips by exact Hpre.
  rewrite (search_found codecRe _ [pt; name]); [reflexivity|].
  unfold codecRe. rewrite exec_lit.
  apply (exec_rest_of_line _ _ line1 nl1); [exact H1|exact Hn1|].
  apply (exec_rest_of_line _ _ line2 nl2); [exact H2|exact Hn2|].
  now apply exec_rtpmap_any.
Qed.

Lemma codec_name_extraction_witness :
  Params.codec
    (extractVideoParams
       ("v=0" ++ CRLF ++ "m=video" ++ " 9 UDP/TLS/RTP/SAVPF 98" ++ LF ++
        "c=IN IP4 0.0.0.0" ++ LF ++ "a=rtpmap:" ++ "98" ++ "  " ++ "VP9/90000" ++ CRLF))
  = Some "VP9/90000".
Proof.
  apply (codec_name_extraction ("v=0" ++ CRLF) " 9 UDP/TLS/RTP/SAVPF 98" LF
           "c=IN IP4 0.0.0.0" LF "98" "  " "VP9/90000" CRLF);
    try reflexivity; discriminate.
Defined.

(** X18.  The level pattern [level-id=] also matches inside
    [profile-level-id=].  When the first occurrence of [level-id=] in the
    text is the one inside a [profile-level-id=] attribute whose value begins
    with decimal digits spelling a number of at most 2^53, the extracted
    level is the number those leading digits spell (42 for the H.264 value
    42e01f). *)
Theorem level_id_from_profile_level_id :
  forall pre digits rest,
    JsString.includes "level-id=" pre = false ->
    digits <> "" -> allIn Regex.Digit digits = true ->
    (JsString.parseInt digits <= 2 ^ 53)%N ->
    stops Regex.Digit rest = true ->
    Params.levelId
      (extractVideoParams (pre ++ "profile-level-id=" ++ digits ++ rest))
    = Some (JsString.parseInt digits).
Proof.
  intros pre digits rest Hpre Hne Hd _ Hrest.
  unfold extractVideoParams. cbn [Params.levelId].
  rewrite level_search_skips by exact Hpre.
  change ("profile-level-id=" ++ digits ++ rest)
    with ("profile-" ++ ("level-id=" ++ digits ++ rest)).
  cbn [append].
  do 8 (rewrite search_step_none by reflexivity).
  rewrite (search_found levelRe _ [digits]); [reflexivity|].
  now apply (exec_number "level-id=").
Qed.

Lemma level_id_from_profile_level_id_witness :
  Params.levelId
    (extractVideoParams ("a=fmtp:96 " ++ "profile-level-id=" ++ "42" ++ "e01f"))
  = Some 42%N.
Proof.
  apply (level_id_from_profile_level_id "a=fmtp:96 " "42" "e01f");
    try reflexivity; discriminate.
Defined.

(** X19.  The frame rate is read at the first occurrence of [a=framerate:]:
    when it is followed by decimal digits spelling a number of at most 2^53,
    the extracted frame rate is the number they spell, whatever precedes and
    follows. *)
Theorem framerate_extraction :
  forall pre digits rest,
    JsString.includes "a=framerate:" pre = false ->
    digits <> "" -> allIn Regex.Digit digits = true ->
    (JsString.parseInt digits <= 2 ^ 53)%N ->
    stops Regex.Digit rest = true ->
    Params.framerate (extractVideoParams (pre ++ "a=framerate:" ++ digits ++ rest))
    = Some (JsString.parseInt digits).
Proof.
  intros pre digits rest Hpre Hne Hd _ Hrest.
  unfold extractVideoParams. cbn [Params.framerate].
  rewrite framerate_search_skips by exact Hpre.
  rewrite (search_found framerateRe _ [digits]); [reflexivity|].
  now apply (exec_number "a=framerate:").
Qed.

Lemma framerate_extraction_witness :
  Params.framerate
    (extractVideoParams
       (("m=video 9 RTP/AVP 96" ++ CRLF) ++ "a=framerate:" ++ "60" ++
        (CRLF ++ "a=framerate:30" ++ CRLF)))
  = Some 60%N.
Proof.
  apply (framerate_extraction ("m=video 9 RTP/AVP 96" ++ CRLF) "60"
           (CRLF ++ "a=framerate:30" ++ CRLF));
    try reflexivity; discriminate.
Defined.

(** ** Zoom and pan *)

Lemma mathMax_spec a b :
  a <= mathMax a b /\ b <= mathMax a b /\ (mathMax a b = a \/ mathMax a b = b).
Proof.
  unfold mathMax. destruct (Qle_bool a b) eqn:E.
  - apply Qle_bool_iff in E. repeat split; auto; lra.
  - assert (b < a).
    { apply Qnot_le_lt. intros H. apply Qle_bool_iff in H. congruence. }
    repeat split; auto; lra.
Qed.

Lemma mathMin_spec a b :
  mathMin a b <= a /\ mathMin a b <= b /\ (mathMin a b = a \/ mathMin a b = b).
Proof.
  unfold mathMin. destruct (Qle_bool a b) eqn:E.
  - apply Qle_bool_iff in E. repeat split; auto; lra.
  - assert (b < a).
    { apply Qnot_le_lt. intros H. apply Qle_bool_iff in H. congruence. }
    repeat split; auto; lra.
Qed.

(** Clamping to a non-negative limit. *)
Lemma clamp_bounds m t :
  0 <= m -> - m <= mathMin m (mathMax (- m) t) /\ mathMin m (mathMax (- m) t) <= m.
Proof.
  intros Hm.
  destruct (mathMax_spec (- m) t) as (H1 & H2 & H3).
  destruct (mathMin_spec m (mathMax (- m) t)) as (K1 & K2 & [K3|K3]);
    rewrite K3 in *; split; lra.
Qed.

Lemma clamp_inside m t :
  - m <= t -> t <= m -> mathMin m (mathMax (- m) t) == t.
Proof.
  intros H1 H2.
  destruct (mathMax_spec (- m) t) as (A1 & A2 & [A3|A3]);
    destruct (mathMin_spec m (mathMax (- m) t)) as (K1 & K2 & [K3|K3]);
    rewrite K3 in *; try rewrite A3 in *; lra.
Qed.

Lemma panLimit_nonneg x : 0 <= mathMax 0 x.
Proof. apply mathMax_spec. Qed.

Lemma panLimit_at_scale_one w s : s == 1 -> mathMax 0 ((w * s - w) / 2) == 0.
Proof.
  intros Hs.
  assert (E : (w * s - w) / 2 == 0) by (rewrite Hs; field).
  destruct (mathMax_spec 0 ((w * s - w) / 2)) as (_ & _ & [H|H]); rewrite H; lra.
Qed.

Lemma clampPan_ok rect v :
  1 <= View.scale v -> View.scale v <= 3 ->
  zoomOk (clampPan rect v) /\ panOk rect (clampPan rect v).
Proof.
  intros H1 H3. unfold zoomOk, panOk, panLimitX, panLimitY, clampPan. cbv zeta.
  cbn [setZoom View.scale View.translateX View.translateY].
  pose proof (panLimit_nonneg ((Rect.width rect * View.scale v - Rect.width rect) / 2))
    as Hx.
  pose proof (panLimit_nonneg ((Rect.height rect * View.scale v - Rect.height rect) / 2))
    as Hy.
  destruct (clamp_bounds _ (View.translateX v) Hx) as [X1 X2].
  destruct (clamp_bounds _ (View.translateY v) Hy) as [Y1 Y2].
  repeat split; try assumption.
  - pose proof (panLimit_at_scale_one (Rect.width rect) (View.scale v) H) as E. lra.
  - pose proof (panLimit_at_scale_one (Rect.height rect) (View.scale v) H) as E. lra.
Qed.

Lemma resetZoom_ok rect v : zoomOk (resetZoom v) /\ panOk rect (resetZoom v).
Proof.
  unfold zoomOk, panOk, panLimitX, panLimitY, resetZoom.
  cbn [setZoom View.scale View.translateX View.translateY].
  pose proof (panLimit_nonneg ((Rect.width rect * 1 - Rect.width rect) / 2)).
  pose proof (panLimit_nonneg ((Rect.height rect * 1 - Rect.height rect) / 2)).
  repeat split; lra.
Qed.

Lemma stepView_ok rect v e :
  zoomOk v -> panOk rect v ->
  zoomOk (stepView v (rect, e)) /\ panOk rect (stepView v (rect, e)).
Proof.
  intros Hz Hp. unfold stepView. cbn [fst snd].
  destruct e as [delta| | |x y|x y|].
  - unfold zoom. cbv zeta.
    destruct (Qeq_bool _ 1) eqn:E; [apply resetZoom_ok|].
    apply clampPan_ok; cbn [setZoom View.scale]; unfold ZOOM_MIN, ZOOM_MAX.
    + apply mathMax_spec.
    + destruct (mathMax_spec 1 (mathMin 3 (View.scale v + delta))) as (_ & _ & [H|H]);
        rewrite H; [lra|apply mathMin_spec].
  - unfold toggleZoom. destruct (Qeq_bool _ 1) eqn:E; [|apply resetZoom_ok].
    apply Qeq_bool_iff in E. destruct Hz as (_ & _ & Hz). destruct (Hz E) as [Hx Hy].
    unfold zoomOk, panOk, panLimitX, panLimitY.
    cbn [setZoom View.scale View.translateX View.translateY].
    pose proof (panLimit_nonneg ((Rect.width rect * 2 - Rect.width rect) / 2)).
    pose proof (panLimit_nonneg ((Rect.height rect * 2 - Rect.height rect) / 2)).
    repeat split; try lra; intros; exfalso; lra.
  - apply resetZoom_ok.
  - unfold handlePointerDown. destruct (Qeq_bool _ 1); split; assumption.
  - unfold handlePointerMove. destruct (View.isPanning v); [|split; assumption].
    apply clampPan_ok; cbn [setZoom View.scale]; apply Hz.
  - split; assumption.
Qed.

Lemma stepView_zoomOk v e : zoomOk v -> zoomOk (stepView v e).
Proof.
  intros Hz. destruct e as [rect e]. unfold stepView. cbn [fst snd].
  destruct e as [delta| | |x y|x y|].
  - unfold zoom. cbv zeta.
    destruct (Qeq_bool _ 1) eqn:E; [apply (resetZoom_ok rect)|].
    apply clampPan_ok; cbn [setZoom View.scale]; unfold ZOOM_MIN, ZOOM_MAX.
    + apply mathMax_spec.
    + destruct (mathMax_spec 1 (mathMin 3 (View.scale v + delta))) as (_ & _ & [H|H]);
        rewrite H; [lra|apply mathMin_spec].
  - unfold toggleZoom. destruct (Qeq_bool _ 1) eqn:E; [|apply (resetZoom_ok rect)].
    unfold zoomOk. cbn [setZoom View.scale View.translateX View.translateY].
    repeat split; try lra; intros; exfalso; lra.
  - apply (resetZoom_ok rect).
  - unfold handlePointerDown. destruct (Qeq_bool _ 1); assumption.
  - unfold handlePointerMove. destruct (View.isPanning v); [|assumption].
    apply clampPan_ok; cbn [setZoom View.scale]; apply Hz.
  - assumption.
Qed.

Lemma initialView_ok rect : zoomOk initialView /\ panOk rect initialView.
Proof.
  unfold zoomOk, panOk, panLimitX, panLimitY, initialView.
  cbn [View.scale View.translateX View.translateY].
  pose proof (panLimit_nonneg ((Rect.width rect * 1 - Rect.width rect) / 2)).
  pose proof (panLimit_nonneg ((Rect.height rect * 1 - Rect.height rect) / 2)).
  repeat split; lra.
Qed.

(** X20.  Whatever the user does (zooming by any amount, double click,
    reset, dragging) and whatever the size of the container at each action,
    the zoom scale stays between 1 and 3, and a view at scale 1 is never
    translated. *)
Theorem zoom_stays_in_range :
  forall es,
    1 <= View.scale (runView es initialView) /\
    View.scale (runView es initialView) <= 3 /\
    (View.scale (runView es initialView) == 1 ->
     View.translateX (runView es initialView) == 0 /\
     View.translateY (runView es initialView) == 0).
Proof.
  intros es. change (zoomOk (runView es initialView)). unfold runView.
  assert (G : forall v, zoomOk v -> zoomOk (fold_left stepView es v)).
  { induction es as [|e es IH]; intros v H; cbn [fold_left]; [exact H|].
    apply IH. now apply stepView_zoomOk. }
  apply G. apply (initialView_ok container).
Qed.

(** X21.  In a container of constant size, after any sequence of zoom and
    pointer actions the translation of the view lies within the limit that
    [clampPan] computes for the current scale, (size * scale - size) / 2 on
    each axis, or 0 if that is negative: the picture cannot be dragged off
    its container. *)
Theorem pan_stays_within_limits :
  forall rect evs,
    let v := runView (map (pair rect) evs) initialView in
    - panLimitX rect v <= View.translateX v /\ View.translateX v <= panLimitX rect v /\
    - panLimitY rect v <= View.translateY v /\ View.translateY v <= panLimitY rect v.
Proof.
  intros rect evs v. change (panOk rect v). subst v. unfold runView.
  assert (G : forall v, zoomOk v -> panOk rect v ->
                        panOk rect (fold_left stepView (map (pair rect) evs) v)).
  { induction evs as [|e evs IH]; intros v Hz Hp; cbn [map fold_left]; [exact Hp|].
    destruct (stepView_ok rect v e Hz Hp) as [Hz' Hp']. now apply IH. }
  apply G; apply (initialView_ok rect).
Qed.

(** ** Debug panel polling *)

Lemma toggleDebugPanel_keeps d :
  pollingMatchesPanel d -> pollingMatchesPanel (toggleDebugPanel d).
Proof.
  unfold pollingMatchesPanel, toggleDebugPanel. intros [Hn H]. cbv zeta.
  destruct (Debug.shown d); cbn [negb].
  - destruct H as (h & Hi & Hl & Hh).
    unfold stopDebugMonitoring. cbn [Debug.debugInterval Debug.live Debug.shown
                                      Debug.nextHandle].
    rewrite Hi, Hl.
    assert (E : (h =? 0)%nat = false) by (apply Nat.eqb_neq; lia).
    rewrite E. cbn [Debug.shown Debug.debugInterval Debug.live Debug.nextHandle filter].
    rewrite Nat.eqb_refl. cbn. auto.
  - destruct H as [Hi Hl]. unfold startDebugMonitoring.
    cbn [Debug.debugInterval Debug.live Debug.shown Debug.nextHandle].
    rewrite Hl. split; [lia|].
    exists (Debug.nextHandle d). cbn. repeat split; lia.
Qed.

(** X22.  The polling of statistics follows the debug panel.  Starting from
    a panel that is hidden with no interval running (or shown with exactly
    the interval held by the player running), after any number of toggles
    the same holds again: at most one interval timer is alive, and none
    while the panel is hidden. *)
Theorem polling_follows_the_panel :
  forall n d,
    pollingMatchesPanel d ->
    pollingMatchesPanel (Nat.iter n toggleDebugPanel d) /\
    (List.length (Debug.live (Nat.iter n toggleDebugPanel d)) <= 1)%nat /\
    (Debug.shown (Nat.iter n toggleDebugPanel d) = false ->
     Debug.live (Nat.iter n toggleDebugPanel d) = []).
Proof.
  intros n d H.
  assert (G : pollingMatchesPanel (Nat.iter n toggleDebugPanel d)).
  { induction n as [|n IH]; [exact H|]. cbn [Nat.iter].
    now apply toggleDebugPanel_keeps. }
  split; [exact G|].
  destruct G as [_ G]. destruct (Debug.shown _).
  - destruct G as (h & _ & -> & _). split; [cbn; lia|discriminate].
  - destruct G as [_ ->]. split; [cbn; lia|reflexivity].
Qed.

Lemma polling_follows_the_panel_witness :
  pollingMatchesPanel (Nat.iter 5 toggleDebugPanel initialDebug) /\
  (List.length (Debug.live (Nat.iter 5 toggleDebugPanel initialDebug)) <= 1)%nat /\
  (Debug.shown (Nat.iter 5 toggleDebugPanel initialDebug) = false ->
   Debug.live (Nat.iter 5 toggleDebugPanel initialDebug) = []).
Proof.
  apply (polling_follows_the_panel 5 initialDebug).
  split; [cbn; lia|]. cbn. auto.
Defined.

(** ** Quality classes *)

Lemma Qle_bool_false x y : Qle_bool x y = false -> y < x.
Proof.
  intros H. apply Qnot_le_lt. intros K. apply Qle_bool_iff in K. congruence.
Qed.

Ltac orient_comparisons :=
  repeat match goal with
         | H : Qle_bool _ _ = true |- _ => apply Qle_bool_iff in H
         | H : Qle_bool _ _ = false |- _ => apply Qle_bool_false in H
         end.

(** X23.  The quality class never gets worse when a frame rate goes up, nor
    when a packet-loss rate, a jitter or a round-trip time goes down; a
    value that is not a number is classed bad for these four kinds; and an
    unknown kind gets no class at all. *)
Theorem quality_class_is_monotone :
  (forall a b,
      a <= b ->
      (classRank (getQualityClass (Fin a) "fps")
       <= classRank (getQualityClass (Fin b) "fps"))%nat) /\
  (forall type a b,
      type = "packetLoss" \/ type = "jitter" \/ type = "rtt" ->
      a <= b ->
      (classRank (getQualityClass (Fin b) type)
       <= classRank (getQualityClass (Fin a) type))%nat) /\
  (forall type,
      type = "fps" \/ type = "packetLoss" \/ type = "jitter" \/ type = "rtt" ->
      getQualityClass NaN type = "bad") /\
  (forall value type,
      type <> "fps" -> type <> "packetLoss" -> type <> "jitter" -> type <> "rtt" ->
      getQualityClass value type = "").
Proof.
  split; [|split; [|split]].
  - intros a b Hab. unfold getQualityClass, geq. cbn [String.eqb Ascii.eqb Bool.eqb].
    destruct (Qle_bool 55 a) eqn:A1; destruct (Qle_bool 30 a) eqn:A2;
      destruct (Qle_bool 55 b) eqn:B1; destruct (Qle_bool 30 b) eqn:B2;
      cbn; try lia; orient_comparisons; exfalso; lra.
  - intros type a b [->|[->| ->]] Hab; unfold getQualityClass, leq;
      cbn [String.eqb Ascii.eqb Bool.eqb];
      match goal with
      | |- context [Qle_bool a ?lo] =>
          match goal with
          | |- context [if Qle_bool a lo then _ else if Qle_bool a ?hi then _ else _] =>
              destruct (Qle_bool a lo) eqn:A1; destruct (Qle_bool a hi) eqn:A2;
              destruct (Qle_bool b lo) eqn:B1; destruct (Qle_bool b hi) eqn:B2
          end
      end;
      cbn; try lia; orient_comparisons; exfalso; lra.
  - intros type [->|[->|[->| ->]]]; reflexivity.
  - intros value type H1 H2 H3 H4. unfold getQualityClass.
    apply String.eqb_neq in H1, H2, H3, H4. now rewrite H1, H2, H3, H4.
Qed.

Lemma quality_class_is_monotone_witness :
  (classRank (getQualityClass (Fin 24) "fps")
   <= classRank (getQualityClass (Fin 60) "fps"))%nat /\
  (classRank (getQualityClass (Fin 120) "rtt")
   <= classRank (getQualityClass (Fin 40) "rtt"))%nat /\
  getQualityClass NaN "jitter" = "bad" /\
  getQualityClass (Fin 3) "bitrate" = "".
Proof.
  destruct quality_class_is_monotone as (Hfps & Hlow & Hnan & Hunknown).
  split; [|split; [|split]].
  - apply Hfps. discriminate.
  - apply (Hlow "rtt" 40 120); [auto|discriminate].
  - apply Hnan. auto.
  - apply Hunknown; discriminate.
Defined.

(** ** Download names *)

Lemma countChar_app c s t : countChar c (s ++ t) = (countChar c s + countChar c t)%nat.
Proof. induction s as [|a s IH]; cbn; [reflexivity|]. rewrite IH. lia. Qed.

Lemma countChar_dashed c s :
  c = ":"%char \/ c = "."%char -> countChar c (dashColonsAndDots s) = 0%nat.
Proof.
  intros Hc. induction s as [|a s IH]; cbn; [reflexivity|]. rewrite IH.
  destruct (Ascii.eqb a ":") eqn:E1; destruct (Ascii.eqb a ".") eqn:E2; cbn [orb];
    destruct Hc as [ -> | -> ]; rewrite ?E1, ?E2; reflexivity.
Qed.

Lemma length_dashed s : String.length (dashColonsAndDots s) = String.length s.
Proof. induction s as [|a s IH]; cbn; congruence. Qed.

Lemma length_sliceFromStart n : forall s,
  String.length (sliceFromStart n s) = Nat.min n (String.length s).
Proof.
  induction n as [|n IH]; intros [|a s]; cbn; try reflexivity. now rewrite IH.
Qed.

Lemma string_length_app s t :
  String.length (s ++ t) = (String.length s + String.length t)%nat.
Proof. induction s as [|a s IH]; cbn; congruence. Qed.

(** X24.  Whatever text the clock returns, the name of a screenshot and the
    name of a debug export contain no colon and exactly one dot, the one of
    the extension; the screenshot name is at most 34 characters long and the
    export name is 18 characters longer than the timestamp. *)
Theorem download_names_are_safe :
  forall iso,
    countChar ":" (screenshotName iso) = 0%nat /\
    countChar "." (screenshotName iso) = 1%nat /\
    countChar ":" (debugExportName iso) = 0%nat /\
    countChar "." (debugExportName iso) = 1%nat /\
    (String.length (screenshotName iso) <= 34)%nat /\
    String.length (debugExportName iso) = (18 + String.length iso)%nat.
Proof.
  intros iso. unfold screenshotName, debugExportName.
  rewrite !countChar_app, !countChar_dashed by auto.
  rewrite !string_length_app, !length_dashed, length_sliceFromStart.
  pose proof (Nat.le_min_l 19 (String.length iso)).
  cbn [countChar String.length Ascii.eqb Bool.eqb Nat.add].
  repeat split; lia.
Qed.

(** ** Uptime *)

(** X25.  When the clock has not gone back since statistics started, the
    uptime is the number of whole seconds elapsed, the seconds shown are
    between 0 and 59, and minutes and seconds together give the uptime
    back. *)
Theorem uptime_splits_into_minutes_and_seconds :
  forall now statsStartTime,
    (statsStartTime <= now)%Z ->
    (0 <= uptime now statsStartTime)%Z /\
    (1000 * uptime now statsStartTime <= now - statsStartTime
     < 1000 * uptime now statsStartTime + 1000)%Z /\
    (0 <= uptimeSeconds (uptime now statsStartTime) < 60)%Z /\
    (60 * uptimeMinutes (uptime now statsStartTime)
     + uptimeSeconds (uptime now statsStartTime)
     = uptime now statsStartTime)%Z.
Proof.
  intros now start H. unfold uptime, uptimeMinutes, uptimeSeconds.
  assert (H0 : (0 <= (now - start) / 1000)%Z) by (apply Z.div_pos; lia).
  rewrite Z.rem_mod_nonneg by lia.
  pose proof (Z.div_mod (now - start) 1000 ltac:(lia)).
  pose proof (Z.mod_pos_bound (now - start) 1000 ltac:(lia)).
  pose proof (Z.div_mod ((now - start) / 1000) 60 ltac:(lia)).
  pose proof (Z.mod_pos_bound ((now - start) / 1000) 60 ltac:(lia)).
  repeat split; lia.
Qed.

Lemma uptime_splits_into_minutes_and_seconds_witness :
  (0 <= uptime 1730000125999 1730000000000)%Z /\
  (1000 * uptime 1730000125999 1730000000000 <= 1730000125999 - 1730000000000
   < 1000 * uptime 1730000125999 1730000000000 + 1000)%Z /\
  (0 <= uptimeSeconds (uptime 1730000125999 1730000000000) < 60)%Z /\
  (60 * uptimeMinutes (uptime 1730000125999 1730000000000)
   + uptimeSeconds (uptime 1730000125999 1730000000000)
   = uptime 1730000125999 1730000000000)%Z.
Proof.
  apply (uptime_splits_into_minutes_and_seconds 1730000125999 1730000000000).
  discriminate.
Defined.

(** ** Graph geometry *)

Lemma maxNum_finite : forall qs a,
  exists m, fold_left maxNum (map Fin qs) (Fin a) = Fin m /\
            a <= m /\ Forall (fun q => q <= m) qs.
Proof.
  induction qs as [|q qs IH]; intros a; cbn [map fold_left].
  - exists a. repeat split; [lra|constructor].
  - cbn [maxNum gtNum]. destruct (Qgtb q a) eqn:E.
    + apply Qgtb_true in E. destruct (IH q) as (m & Hm & Hq & Hall).
      exists m. repeat split; [exact Hm|lra|]. constructor; assumption.
    + apply Qgtb_false in E. destruct (IH a) as (m & Hm & Ha & Hall).
      exists m. repeat split; [exact Hm|exact Ha|]. constructor; [lra|assumption].
Qed.

Lemma mathMaxAll_finite q qs :
  exists m, mathMaxAll (map Fin (q :: qs)) = Fin m /\
            Forall (fun v => v <= m) (q :: qs).
Proof.
  unfold mathMaxAll. cbn [map fold_left maxNum gtNum].
  destruct (maxNum_finite qs q) as (m & Hm & Hq & Hall).
  exists m. split; [exact Hm|]. constructor; assumption.
Qed.

Lemma graphScale_covers maxValue q qs :
  0 < maxValue ->
  exists top, graphScale (Fin maxValue) (map Fin (q :: qs)) = Fin top /\
              0 < top /\ Forall (fun v => v <= top) (q :: qs).
Proof.
  intros Hpos. unfold graphScale.
  destruct (mathMaxAll_finite q qs) as (m & -> & Hall).
  cbn [gtNum]. destruct (Qgtb m maxValue) eqn:E.
  - apply Qgtb_true in E. exists (m * (12 # 10)). cbn [mul].
    repeat split; [lra|].
    eapply Forall_impl; [|exact Hall]. cbn beta. intros v Hv. lra.
  - apply Qgtb_false in E. exists maxValue. repeat split; [exact Hpos|].
    eapply Forall_impl; [|exact Hall]. cbn beta. intros v Hv. lra.
Qed.

Lemma graphY_inside height top v :
  0 <= height -> 0 < top -> 0 <= v -> v <= top ->
  exists y, graphY height (Fin top) (Fin v) = Fin y /\ 0 <= y /\ y <= height.
Proof.
  intros Hh Htop Hv Hle. unfold graphY.
  rewrite div_Fin_nonzero by lra.
  exists (height + - (v / top * height)). split; [reflexivity|].
  assert (H0 : 0 <= v / top) by (apply Qle_shift_div_l; lra).
  assert (H1 : v / top <= 1) by (apply Qle_shift_div_r; lra).
  split; nra.
Qed.

Lemma xStep_inside width index :
  0 <= width -> (index < STATS_HISTORY_SIZE)%nat ->
  0 <= inject_Z (Z.of_nat index) * xStepOf width /\
  inject_Z (Z.of_nat index) * xStepOf width <= width.
Proof.
  intros Hw Hi. unfold xStepOf, STATS_HISTORY_SIZE in *.
  assert (H0 : 0 <= inject_Z (Z.of_nat index)).
  { change 0 with (inject_Z 0). rewrite <- Zle_Qle. lia. }
  assert (H1 : inject_Z (Z.of_nat index) <= 59).
  { change 59 with (inject_Z 59). rewrite <- Zle_Qle. lia. }
  assert (E : inject_Z (Z.of_nat 60) - 1 == 59) by reflexivity.
  rewrite E.
  assert (E' : inject_Z (Z.of_nat index) * (width / 59)
               == width * (inject_Z (Z.of_nat index) / 59)) by (field; lra).
  rewrite E'.
  assert (K0 : 0 <= inject_Z (Z.of_nat index) / 59) by (apply Qle_shift_div_l; lra).
  assert (K1 : inject_Z (Z.of_nat index) / 59 <= 1) by (apply Qle_shift_div_r; lra).
  split; nra.
Qed.

Lemma plotFrom_inside width height top : forall qs index,
  0 <= width -> 0 <= height -> 0 < top ->
  (index + List.length qs <= STATS_HISTORY_SIZE)%nat ->
  Forall (fun v => 0 <= v) qs -> Forall (fun v => v <= top) qs ->
  Forall (onCanvas width height)
         (plotFrom index (xStepOf width) height (Fin top) (map Fin qs)) /\
  List.length (plotFrom index (xStepOf width) height (Fin top) (map Fin qs))
  = List.length qs.
Proof.
  induction qs as [|q qs IH]; intros index Hw Hh Htop Hlen Hpos Hle;
    cbn [map plotFrom List.length].
  - split; [constructor|reflexivity].
  - cbn [List.length] in Hlen.
    inversion Hpos as [|? ? Hq Hpos']; subst.
    inversion Hle as [|? ? Hq' Hle']; subst.
    destruct (IH (S index) Hw Hh Htop ltac:(lia) Hpos' Hle') as (Hall & Hn).
    split; [|now rewrite Hn].
    constructor; [|exact Hall].
    unfold onCanvas. cbn [fst snd].
    destruct (xStep_inside width index Hw ltac:(lia)) as (X0 & X1).
    repeat split; [exact X0|exact X1|].
    now apply graphY_inside.
Qed.

Lemma last_plotFrom xStep height top : forall data index pt,
  data <> [] ->
  snd (last (plotFrom index xStep height top data) pt)
  = graphY height top (last data NaN) /\
  fst (last (plotFrom index xStep height top data) pt)
  == inject_Z (Z.of_nat (index + List.length data)) * xStep - xStep.
Proof.
  induction data as [|v data IH]; intros index pt Hne; [congruence|].
  destruct data as [|w data].
  - cbn [plotFrom last snd fst List.length]. split; [reflexivity|].
    replace (index + 1)%nat with (S index) by lia.
    rewrite Nat2Z.inj_succ. unfold Z.succ. rewrite inject_Z_plus. ring.
  - destruct (IH (S index) pt ltac:(discriminate)) as (H1 & H2).
    change (last (plotFrom index xStep height top (v :: w :: data)) pt)
      with (last (plotFrom (S index) xStep height top (w :: data)) pt).
    change (last (v :: w :: data) NaN) with (last (w :: data) NaN).
    split; [exact H1|]. rewrite H2.
    replace (index + List.length (v :: w :: data))%nat
      with (S index + List.length (w :: data))%nat by (cbn [List.length]; lia).
    reflexivity.
Qed.

(** X26.  A graph of two to sixty non-negative finite values, drawn against
    a positive scale, has one vertex per value and every vertex lies on the
    canvas, also when values exceed the scale passed in (the scale is then
    raised above the largest value); the marker of the current value sits on
    the last vertex. *)
Theorem graph_stays_on_canvas :
  forall width height maxValue qs,
    0 <= width -> 0 <= height -> 0 < maxValue ->
    (2 <= List.length qs <= STATS_HISTORY_SIZE)%nat ->
    Forall (fun v => 0 <= v) qs ->
    Forall (onCanvas width height)
           (drawGraph width height (Fin maxValue) (map Fin qs)) /\
    List.length (drawGraph width height (Fin maxValue) (map Fin qs))
    = List.length qs /\
    fst (graphMarker width height (Fin maxValue) (map Fin qs))
    == fst (last (drawGraph width height (Fin maxValue) (map Fin qs)) (0, NaN)) /\
    snd (graphMarker width height (Fin maxValue) (map Fin qs))
    = snd (last (drawGraph width height (Fin maxValue) (map Fin qs)) (0, NaN)).
Proof.
  intros width height maxValue qs Hw Hh Hmax [Hlo Hhi] Hpos.
  unfold drawGraph. rewrite length_map.
  destruct (Nat.ltb_spec (List.length qs) 2) as [Hlt|_]; [lia|].
  destruct qs as [|q qs]; [cbn in Hlo; lia|].
  destruct (graphScale_covers maxValue q qs Hmax) as (top & Etop & Htop & Hle).
  unfold graphMarker. rewrite Etop.
  destruct (plotFrom_inside width height top (q :: qs) 0 Hw Hh Htop
              ltac:(lia) Hpos Hle) as (Hall & Hn).
  destruct (last_plotFrom (xStepOf width) height (Fin top) (map Fin (q :: qs)) 0
              (0, NaN) ltac:(discriminate)) as (L1 & L2).
  repeat split; try assumption.
  - cbn [fst]. rewrite L2. now rewrite Nat.add_0_l.
  - cbn [snd]. now rewrite L1.
Qed.

Lemma graph_stays_on_canvas_witness :
  Forall (onCanvas 360 60) (drawGraph 360 60 (Fin 70) (map Fin [30; 84; 0])) /\
  List.length (drawGraph 360 60 (Fin 70) (map Fin [30; 84; 0]))
  = List.length [30; 84; 0] /\
  fst (graphMarker 360 60 (Fin 70) (map Fin [30; 84; 0]))
  == fst (last (drawGraph 360 60 (Fin 70) (map Fin [30; 84; 0])) (0, NaN)) /\
  snd (graphMarker 360 60 (Fin 70) (map Fin [30; 84; 0]))
  = snd (last (drawGraph 360 60 (Fin 70) (map Fin [30; 84; 0])) (0, NaN)).
Proof.
  apply (graph_stays_on_canvas 360 60 70 [30; 84; 0]).
  - discriminate.
  - discriminate.
  - reflexivity.
  - cbn. unfold STATS_HISTORY_SIZE. lia.
  - repeat constructor; discriminate.
Defined.
